(** * Unbrowser Python client: request executor and wire mapping

    A shallow embedding of [clients/python/unbrowser/client.py] and of the
    parts of [clients/python/unbrowser/types.py] that build request payloads
    and parse response payloads.

    Python values that travel as JSON are the inductive [pyval]; a [dict] is
    an association list in insertion order.  Exceptions are the inductive
    [exn]; a computation either returns or raises ([outcome]).  The two
    effects of the executor, a physical HTTP call and [time.sleep], are
    recorded in an event log that is passed through every call. *)

From Stdlib Require Import ZArith List String Ascii Bool Lia SpecFloat.
Import ListNotations.
Open Scope string_scope.
Open Scope list_scope.
Open Scope Z_scope.

(** ** Python values *)

#[warnings="-register-all"]
Inductive pyval : Type :=
| PNone
| PBool (b : bool)
| PInt (n : Z)
| PFloat (f : spec_float)
| PStr (s : string)
| PList (items : list pyval)
| PDict (entries : list (string * pyval)).

Definition pydict : Type := list (string * pyval).

(** [bool(v)]: the truth value Python gives to a JSON value. *)
Definition truthy (v : pyval) : bool :=
  match v with
  | PNone => false
  | PBool b => b
  | PInt n => negb (Z.eqb n 0)
  | PFloat (S754_zero _) => false
  | PFloat _ => true
  | PStr s => negb (String.eqb s "")
  | PList [] => false
  | PList (_ :: _) => true
  | PDict [] => false
  | PDict (_ :: _) => true
  end.

Definition is_None (v : pyval) : bool :=
  match v with PNone => true | _ => false end.

(** Key lookup in a dict. *)
Fixpoint dict_lookup (d : pydict) (k : string) : option pyval :=
  match d with
  | [] => None
  | (k', v) :: rest => if String.eqb k' k then Some v else dict_lookup rest k
  end.

(** [d[k] = v]: an existing key keeps its place, a new key goes last. *)
Fixpoint dict_setitem (d : pydict) (k : string) (v : pyval) : pydict :=
  match d with
  | [] => [(k, v)]
  | (k', v') :: rest =>
      if String.eqb k' k then (k', v) :: rest
      else (k', v') :: dict_setitem rest k v
  end.

(** Some value of the payload, at any depth, is a dict entry holding [None]
    (serialized as JSON [null]). *)
Fixpoint has_null_entry (v : pyval) : bool :=
  match v with
  | PList items => existsb has_null_entry items
  | PDict entries =>
      existsb (fun kv => match kv with
                         | (_, x) => is_None x || has_null_entry x
                         end) entries
  | _ => false
  end.

Definition null_free (d : pydict) : Prop := has_null_entry (PDict d) = false.

(** The dict has no entry under the key. *)
Definition lacks (k : string) (d : pydict) : Prop := dict_lookup d k = None.

(** ** Exceptions *)

(** The classes of [requests.exceptions] that matter to the executor:
    [ConnectTimeout] derives from both [ConnectionError] and [Timeout]. *)
Inductive requests_exc : Type :=
| ReadTimeout
| ConnectTimeout
| ConnectionError
| InvalidJSONError
| RequestException.

Inductive value_error : Type :=
| UnsupportedMethod (message : string)
| InvalidIntLiteral (literal : string)
| NotAMember (enum_name : string) (value : pyval).

Inductive exn : Type :=
| UnbrowserError (code : pyval) (message : pyval)
| AuthenticationError (message : string)
| RateLimitError (message : string) (retry_after : option Z)
| ValidationError (message : string)
| RequestsError (cls : requests_exc) (message : string)
| ValueError (detail : value_error)
| KeyError (key : string)
| TypeError
| AttributeError
| RecursionError.

Inductive outcome (A : Type) : Type :=
| Returned (a : A)
| Raised (e : exn).
Arguments Returned {A} a.
Arguments Raised {A} e.

Definition obind {A B} (x : outcome A) (f : A -> outcome B) : outcome B :=
  match x with
  | Returned a => f a
  | Raised e => Raised e
  end.

Notation "'let?' x ':=' c 'in' k" := (obind c (fun x => k))
  (at level 10, x name, c at level 100, k at level 200).

(** [isinstance] tests used by the [except] clauses. *)
Definition is_Timeout (e : exn) : bool :=
  match e with
  | RequestsError ReadTimeout _ | RequestsError ConnectTimeout _ => true
  | _ => false
  end.

Definition is_ConnectionError (e : exn) : bool :=
  match e with
  | RequestsError ConnectTimeout _ | RequestsError ConnectionError _ => true
  | _ => false
  end.

Definition is_AuthenticationError (e : exn) : bool :=
  match e with AuthenticationError _ => true | _ => false end.

Definition is_RateLimitError (e : exn) : bool :=
  match e with RateLimitError _ _ => true | _ => false end.

Definition is_ValidationError (e : exn) : bool :=
  match e with ValidationError _ => true | _ => false end.

Definition is_UnbrowserError (e : exn) : bool :=
  match e with
  | UnbrowserError _ _ | AuthenticationError _
  | RateLimitError _ _ | ValidationError _ => true
  | _ => false
  end.

(** [e.code] of an [UnbrowserError] or of one of its subclasses. *)
Definition exn_code (e : exn) : pyval :=
  match e with
  | UnbrowserError code _ => code
  | AuthenticationError _ => PStr "UNAUTHORIZED"
  | RateLimitError _ _ => PStr "RATE_LIMITED"
  | ValidationError _ => PStr "INVALID_REQUEST"
  | _ => PNone
  end.

(** [str(e)] of an exception of [requests]. *)
Definition exn_str (e : exn) : string :=
  match e with
  | RequestsError _ message => message
  | AuthenticationError message | ValidationError message => message
  | RateLimitError message _ => message
  | _ => ""
  end.

(** The failure of a subscript with a missing key, and that of an
    enumeration called on a value it does not have. *)
Definition is_KeyError (e : exn) : bool :=
  match e with KeyError _ => true | _ => false end.

Definition is_enum_ValueError (e : exn) : bool :=
  match e with ValueError (NotAMember _ _) => true | _ => false end.

(** ** Python primitives on values *)

(** [v[k]] with a string key. *)
Definition py_getitem (v : pyval) (k : string) : outcome pyval :=
  match v with
  | PDict d =>
      match dict_lookup d k with
      | Some x => Returned x
      | None => Raised (KeyError k)
      end
  | _ => Raised TypeError
  end.

(** [v.get(k, default)]: only a dict has the method. *)
Definition py_get (v : pyval) (k : string) (default : pyval) : outcome pyval :=
  match v with
  | PDict d =>
      match dict_lookup d k with
      | Some x => Returned x
      | None => Returned default
      end
  | _ => Raised AttributeError
  end.

(** [x in names] for a list of string literals: only an equal [str] is in. *)
Definition py_in_strs (x : pyval) (names : list string) : bool :=
  match x with
  | PStr s => existsb (String.eqb s) names
  | _ => false
  end.

(** *** [int(s)] on a string *)

(** The characters [int] drops around a literal: the C whitespace, and
    the two whitespace characters from 127 to 255, which it first turns into
    spaces.  The separators 28 to 31, whitespace for [str.strip], are not
    dropped. *)
Definition is_space (c : ascii) : bool :=
  let n := nat_of_ascii c in
  ((9 <=? n) && (n <=? 13))%nat || (n =? 32)%nat
  || (n =? 133)%nat || (n =? 160)%nat.

Definition is_digit (c : ascii) : bool :=
  let n := nat_of_ascii c in ((48 <=? n) && (n <=? 57))%nat.

Definition digit_value (c : ascii) : Z := Z.of_nat (nat_of_ascii c) - 48.

Fixpoint lstrip_by (drop : ascii -> bool) (s : string) : string :=
  match s with
  | String c rest => if drop c then lstrip_by drop rest else s
  | EmptyString => EmptyString
  end.

Fixpoint rstrip_by (drop : ascii -> bool) (s : string) : string :=
  match s with
  | EmptyString => EmptyString
  | String c rest =>
      match rstrip_by drop rest with
      | EmptyString => if drop c then EmptyString else String c EmptyString
      | rest' => String c rest'
      end
  end.

(** Digits with single underscores between them; [acc] is the value read so
    far and [after_digit] tells whether the previous character was a digit. *)
Fixpoint parse_digits (s : string) (acc : Z) (after_digit : bool) : option Z :=
  match s with
  | EmptyString => if after_digit then Some acc else None
  | String c rest =>
      if is_digit c then parse_digits rest (10 * acc + digit_value c) true
      else if Ascii.eqb c "_" then
        if after_digit then parse_digits rest acc false else None
      else None
  end.

(** [sys.get_int_max_str_digits()] as the interpreter starts: a literal
    with more digits is refused. *)
Definition int_max_str_digits : nat := 4300.

Fixpoint count_digits (s : string) : nat :=
  match s with
  | EmptyString => O
  | String c rest =>
      if is_digit c then S (count_digits rest) else count_digits rest
  end.

(** The literal once whitespace and sign are off. *)
Definition parse_literal (digits : string) : option Z :=
  if (int_max_str_digits <? count_digits digits)%nat then None
  else parse_digits digits 0 false.

(** [int(s)] in base 10: surrounding whitespace is dropped, one sign is
    allowed, and the rest is a digit string of at most
    [int_max_str_digits] digits; [None] stands for the [ValueError] of a
    literal that is malformed or too long.  A character is a code point
    below 256, as in a header value decoded by [requests]. *)
Definition py_int (s : string) : option Z :=
  match rstrip_by is_space (lstrip_by is_space s) with
  | String "+" digits => parse_literal digits
  | String "-" digits => option_map Z.opp (parse_literal digits)
  | digits => parse_literal digits
  end.

Definition int_of_str (s : string) : outcome Z :=
  match py_int s with
  | Some n => Returned n
  | None => Raised (ValueError (InvalidIntLiteral s))
  end.

(** *** [urllib.parse.quote_plus] and [urlencode] on string parameters *)

Definition is_alnum (c : ascii) : bool :=
  let n := nat_of_ascii c in
  (((48 <=? n) && (n <=? 57)) || ((65 <=? n) && (n <=? 90))
   || ((97 <=? n) && (n <=? 122)))%nat.

Definition always_safe (c : ascii) : bool :=
  is_alnum c || Ascii.eqb c "_" || Ascii.eqb c "." || Ascii.eqb c "-"
  || Ascii.eqb c "~".

Definition hex_digit (n : nat) : ascii :=
  if (n <? 10)%nat then ascii_of_nat (48 + n) else ascii_of_nat (55 + n).

Fixpoint quote_plus (s : string) : string :=
  match s with
  | EmptyString => EmptyString
  | String c rest =>
      if always_safe c then String c (quote_plus rest)
      else if Ascii.eqb c " " then String "+" (quote_plus rest)
      else
        let n := nat_of_ascii c in
        String "%" (String (hex_digit (n / 16)) (String (hex_digit (n mod 16))
                                                         (quote_plus rest)))
  end.

Definition urlencode (params : list (string * string)) : string :=
  String.concat "&"
    (map (fun kv => (quote_plus (fst kv) ++ "=" ++ quote_plus (snd kv))%string)
         params).

(** ** The HTTP layer seen from the client *)

(** What [response.json()] makes of the body: a value; the decoder's error
    on text that is no JSON; its [RecursionError] on text nested deeper than
    the interpreter lets the decoder go; the [ValueError] of [int] on an
    integer of more than [int_max_str_digits] digits. *)
Inductive body : Type :=
| JsonBody (v : pyval)
| NotJson (decode_error : string)
| TooDeep
| TooManyDigits (literal : string).

Record Response : Type := {
  status_code : Z;
  headers : list (string * string);
  content : body
}.

Definition lower_ascii (c : ascii) : ascii :=
  let n := nat_of_ascii c in
  if ((65 <=? n) && (n <=? 90))%nat then ascii_of_nat (n + 32) else c.

Fixpoint lower (s : string) : string :=
  match s with
  | EmptyString => EmptyString
  | String c rest => String (lower_ascii c) (lower rest)
  end.

(** [response.headers.get(name)]: header names, which are ASCII tokens,
    compare without case. *)
Fixpoint headers_get (hs : list (string * string)) (name : string)
  : option string :=
  match hs with
  | [] => None
  | (k, v) :: rest =>
      if String.eqb (lower k) (lower name) then Some v
      else headers_get rest name
  end.

(** [response.json()] *)
Definition response_json (r : Response) : outcome pyval :=
  match content r with
  | JsonBody v => Returned v
  | NotJson decode_error => Raised (RequestsError InvalidJSONError decode_error)
  | TooDeep => Raised RecursionError
  | TooManyDigits literal => Raised (ValueError (InvalidIntLiteral literal))
  end.

(** What a physical call ends in: an exception of [requests] or a response. *)
Inductive net_outcome : Type :=
| NetRaises (cls : requests_exc) (message : string)
| NetResponds (r : Response).

(** The remote side: the answer to the k-th physical call, counted from 0. *)
Definition server : Type := nat -> net_outcome.

Inductive event : Type :=
| EvSend (verb url : string) (json : option pyval) (timeout : Z)
| EvSleep (seconds : Z).

Definition is_send (ev : event) : bool :=
  match ev with EvSend _ _ _ _ => true | EvSleep _ => false end.

Definition count_sends (log : list event) : nat :=
  List.length (filter is_send log).

Definition sleeps (log : list event) : list Z :=
  flat_map (fun ev => match ev with
                      | EvSleep s => [s]
                      | EvSend _ _ _ _ => []
                      end) log.

(** Computations that may raise and that extend the event log. *)
Definition exec (A : Type) : Type := list event -> outcome A * list event.

Definition ret {A} (a : A) : exec A := fun log => (Returned a, log).
Definition raise {A} (e : exn) : exec A := fun log => (Raised e, log).
Definition lift {A} (x : outcome A) : exec A := fun log => (x, log).
Definition bind {A B} (m : exec A) (f : A -> exec B) : exec B :=
  fun log =>
    match m log with
    | (Returned a, log') => f a log'
    | (Raised e, log') => (Raised e, log')
    end.

Notation "x <- c ;; k" := (bind c (fun x => k))
  (at level 61, c at next level, right associativity).

(** [time.sleep(seconds)] *)
Definition time_sleep (seconds : Z) : exec unit :=
  fun log => (Returned tt, log ++ [EvSleep seconds]).

(** [range(lo, hi)] *)
Fixpoint range_from (lo : Z) (n : nat) : list Z :=
  match n with
  | O => []
  | S n' => lo :: range_from (lo + 1) n'
  end.

Definition py_range (lo hi : Z) : list Z := range_from lo (Z.to_nat (hi - lo)).

(** ** [client.py]: class [UnbrowserClient] *)

Module UnbrowserClient.

Definition DEFAULT_BASE_URL : string := "https://api.unbrowser.ai".
Definition DEFAULT_TIMEOUT : Z := 60.
Definition DEFAULT_MAX_RETRIES : Z := 3.

(** The [requests.Session] held by the client: the headers the client sets
    on it. *)
Record Session : Type := {
  session_headers : list (string * string)
}.

Record t : Type := {
  api_key : string;
  base_url : string;
  timeout : Z;
  retry : bool;
  max_retries : Z;
  _session : Session
}.

(** [__init__]: an argument given as [None] takes its default value. *)
Definition __init__ (api_key : string) (base_url : option string)
    (timeout : option Z) (retry : option bool) (max_retries : option Z)
  : exec t :=
  if String.eqb api_key "" then
    raise (ValidationError "api_key is required")
  else if negb (String.prefix "ub_" api_key) then
    raise (ValidationError "Invalid API key format. Must start with 'ub_'")
  else
    let base :=
      match base_url with
      | Some u => if String.eqb u "" then DEFAULT_BASE_URL else u
      | None => DEFAULT_BASE_URL
      end in
    ret {| api_key := api_key;
           base_url := rstrip_by (Ascii.eqb "/") base;
           timeout := match timeout with Some x => x | None => DEFAULT_TIMEOUT end;
           retry := match retry with Some b => b | None => true end;
           max_retries :=
             match max_retries with Some n => n | None => DEFAULT_MAX_RETRIES end;
           _session :=
             {| session_headers :=
                  [("Content-Type", "application/json");
                   ("Authorization", ("Bearer " ++ api_key)%string);
                   ("User-Agent", "unbrowser-python/0.1.0")] |} |}.

(** How one pass through the body of the [for] loop ends. *)
Inductive flow : Type :=
| Continue
| Return (v : pyval)
| Raise (e : exn).

(** How the whole [for] loop ends: it ran out of attempts, or a pass
    returned or raised. *)
Inductive loop_exit : Type :=
| Exhausted (last_error : option exn)
| Completed (result : outcome pyval).

Definition NO_RETRY_CODES : list string :=
  ["INVALID_REQUEST"; "INVALID_URL"; "FORBIDDEN"].

Section Executor.

Variable srv : server.

(** [self._session.get/post/delete]: one physical call, answered by the
    server according to the number of calls made before it. *)
Definition session_send (verb url : string) (json : option pyval)
    (timeout : Z) : exec Response :=
  fun log =>
    let log' := log ++ [EvSend verb url json timeout] in
    match srv (count_sends log) with
    | NetRaises cls message => (Raised (RequestsError cls message), log')
    | NetResponds r => (Returned r, log')
    end.

(** Lines 142-168: what the response is turned into. *)
Definition read_response (response : Response) : outcome pyval :=
  if Z.eqb (status_code response) 429 then
    let retry_after := headers_get (headers response) "Retry-After" in
    let? hint :=
      match retry_after with
      | Some s =>
          if negb (String.eqb s "") then
            let? n := int_of_str s in Returned (Some n)
          else Returned None
      | None => Returned None
      end in
    Raised (RateLimitError "Daily request limit exceeded" hint)
  else if Z.eqb (status_code response) 401 then
    Raised (AuthenticationError "Invalid or missing API key")
  else if Z.eqb (status_code response) 403 then
    Raised (UnbrowserError (PStr "FORBIDDEN")
              (PStr "API key does not have access to this resource"))
  else
    let? result := response_json response in
    let? success := py_get result "success" (PBool false) in
    if negb (truthy success) then
      let? error := py_get result "error" (PDict []) in
      let? code := py_get error "code" (PStr "UNKNOWN_ERROR") in
      let? message := py_get error "message" (PStr "Unknown error") in
      Raised (UnbrowserError code message)
    else
      py_get result "data" PNone.

(** The body of the [try] statement. *)
Definition request_try (c : t) (method url : string) (body : option pyval)
  : exec pyval :=
  response <-
    (if String.eqb method "GET" then
       session_send "GET" url None (timeout c)
     else if String.eqb method "POST" then
       session_send "POST" url body (timeout c)
     else if String.eqb method "DELETE" then
       session_send "DELETE" url body (timeout c)
     else
       raise (ValueError
                (UnsupportedMethod ("Unsupported HTTP method: " ++ method)%string))) ;;
  lift (read_response response).

(** The [except] clauses, tried in order; the result is how the pass ends
    and the new value of [last_error]. *)
Definition request_except (attempts attempt : Z) (last_error : option exn)
    (e : exn) (log : list event) : (flow * option exn) * list event :=
  if is_Timeout e || is_ConnectionError e then
    let timeout_error := UnbrowserError (PStr "TIMEOUT") (PStr (exn_str e)) in
    if is_Timeout e then
      if attempt <? attempts then
        ((Continue, Some e), log ++ [EvSleep (2 ^ attempt)])
      else ((Raise timeout_error, Some e), log)
    else ((Raise timeout_error, Some e), log)
  else if is_AuthenticationError e || is_RateLimitError e
          || is_ValidationError e then
    ((Raise e, last_error), log)
  else if is_UnbrowserError e then
    if py_in_strs (exn_code e) NO_RETRY_CODES then
      ((Raise e, last_error), log)
    else if attempt <? attempts then
      ((Continue, Some e), log ++ [EvSleep (2 ^ attempt)])
    else
      ((Raise e, Some e), log)
  else
    ((Raise e, last_error), log).

(** One pass through the loop body. *)
Definition request_pass (c : t) (attempts attempt : Z) (method url : string)
    (body : option pyval) (last_error : option exn) (log : list event)
  : (flow * option exn) * list event :=
  match request_try c method url body log with
  | (Returned v, log') => ((Return v, last_error), log')
  | (Raised e, log') => request_except attempts attempt last_error e log'
  end.

(** [for attempt in todo: ...] *)
Fixpoint request_loop (c : t) (attempts : Z) (method url : string)
    (body : option pyval) (todo : list Z) (last_error : option exn)
    (log : list event) : loop_exit * list event :=
  match todo with
  | [] => (Exhausted last_error, log)
  | attempt :: rest =>
      match request_pass c attempts attempt method url body last_error log with
      | ((Continue, last_error'), log') =>
          request_loop c attempts method url body rest last_error' log'
      | ((Return v, _), log') => (Completed (Returned v), log')
      | ((Raise e, _), log') => (Completed (Raised e), log')
      end
  end.

Definition attempts_of (c : t) : Z :=
  if retry c then max_retries c else 1.

Definition _request (c : t) (method path : string) (body : option pyval)
  : exec pyval :=
  fun log =>
    let url := (base_url c ++ path)%string in
    let attempts := attempts_of c in
    match request_loop c attempts method url body
            (py_range 1 (attempts + 1)) None log with
    | (Completed result, log') => (result, log')
    | (Exhausted (Some last_error), log') => (Raised last_error, log')
    | (Exhausted None, log') =>
        (Raised (UnbrowserError (PStr "UNKNOWN_ERROR") (PStr "Request failed")),
         log')
    end.

Definition get_usage (c : t) : exec pyval :=
  _request c "GET" "/v1/usage" None.

Definition list_workflows (c : t) (domain : option string)
    (tags : option (list string)) : exec pyval :=
  let params : list (string * string) := [] in
  let params :=
    match domain with
    | Some d => if negb (String.eqb d "") then params ++ [("domain", d)]
                else params
    | None => params
    end in
  let params :=
    match tags with
    | Some (tag :: more) =>
        params ++ [("tags", String.concat "," (tag :: more))]
    | _ => params
    end in
  let path := "/v1/workflows" in
  let path :=
    match params with
    | [] => path
    | _ :: _ => (path ++ "?" ++ urlencode params)%string
    end in
  _request c "GET" path None.

End Executor.

(** *** Vocabulary for statements about the executor *)

Definition supported (method : string) : bool :=
  String.eqb method "GET" || String.eqb method "POST"
  || String.eqb method "DELETE".

(** The event one physical call of [_request] leaves in the log: [GET]
    sends no body. *)
Definition send_event (c : t) (method path : string) (body : option pyval)
  : event :=
  EvSend method (base_url c ++ path)%string
    (if String.eqb method "GET" then None else body) (timeout c).

(** The result of the [try] body once the server has answered. *)
Definition attempt_result (o : net_outcome) : outcome pyval :=
  match o with
  | NetRaises cls message => Raised (RequestsError cls message)
  | NetResponds r => read_response r
  end.

(** The failures after which the loop goes on when attempts remain. *)
Definition retryable (e : exn) : bool :=
  match e with
  | RequestsError ReadTimeout _ | RequestsError ConnectTimeout _ => true
  | UnbrowserError code _ => negb (py_in_strs code NO_RETRY_CODES)
  | _ => false
  end.

(** The exception that leaves [_request] when the [try] body raised [e]
    and the loop does not go on. *)
Definition as_raised (e : exn) : exn :=
  if is_Timeout e || is_ConnectionError e then
    UnbrowserError (PStr "TIMEOUT") (PStr (exn_str e))
  else e.

(** The result with which [_request] ends when the [try] body ended in
    [r] and the loop stops there. *)
Definition final_result (r : outcome pyval) : outcome pyval :=
  match r with
  | Returned v => Returned v
  | Raised e => Raised (as_raised e)
  end.

Definition stops (attempts attempt : Z) (r : outcome pyval) : Prop :=
  match r with
  | Returned _ => True
  | Raised e => retryable e = false \/ attempts <= attempt
  end.

(** The first [k] physical calls all end in a failure that is retried. *)
Definition all_retried (srv : server) (k : nat) : Prop :=
  forall i, (i < k)%nat ->
    exists e, attempt_result (srv i) = Raised e /\ retryable e = true.

(** [n] passes that each fail and are retried, starting at attempt [first]:
    a call, then a sleep of [2 ** attempt]. *)
Definition retry_trace (ev : event) (first : Z) (n : nat) : list event :=
  flat_map (fun attempt => [ev; EvSleep (2 ^ attempt)]) (range_from first n).

(** The log of a request that made [n] physical calls. *)
Definition request_trace (ev : event) (n : nat) : list event :=
  match n with
  | O => []
  | S m => retry_trace ev 1 m ++ [ev]
  end.

(** The status is none of those [_request] classifies before it reads the
    body. *)
Definition reads_envelope (r : Response) : bool :=
  negb (Z.eqb (status_code r) 429) && negb (Z.eqb (status_code r) 401)
  && negb (Z.eqb (status_code r) 403).


Definition lookup_default (d : pydict) (k : string) (default : pyval)
  : pyval :=
  match dict_lookup d k with Some v => v | None => default end.


(** [r] carries a success envelope with no [data] member. *)
Definition success_without_data (r : Response) : Prop :=
  reads_envelope r = true /\
  exists d,
    content r = JsonBody (PDict d) /\
    truthy (lookup_default d "success" (PBool false)) = true /\
    dict_lookup d "data" = None.

End UnbrowserClient.

(** ** [types.py]: enumerations

    Each class derives from [str] and [Enum]; calling the class on a value
    gives the member with that value or raises [ValueError]. *)

Module ContentType.
Inductive t : Type := MARKDOWN | TEXT | HTML.
Definition value (x : t) : string :=
  match x with MARKDOWN => "markdown" | TEXT => "text" | HTML => "html" end.
Definition members : list t := [MARKDOWN; TEXT; HTML].
Definition values : list string := map value members.
End ContentType.

Module CostTier.
Inductive t : Type := INTELLIGENCE | LIGHTWEIGHT | PLAYWRIGHT.
Definition value (x : t) : string :=
  match x with
  | INTELLIGENCE => "intelligence"
  | LIGHTWEIGHT => "lightweight"
  | PLAYWRIGHT => "playwright"
  end.
Definition members : list t := [INTELLIGENCE; LIGHTWEIGHT; PLAYWRIGHT].
Definition values : list string := map value members.
End CostTier.

Module VerificationMode.
Inductive t : Type := BASIC | STANDARD | THOROUGH.
Definition value (x : t) : string :=
  match x with
  | BASIC => "basic" | STANDARD => "standard" | THOROUGH => "thorough"
  end.
Definition members : list t := [BASIC; STANDARD; THOROUGH].
Definition values : list string := map value members.
End VerificationMode.

Module Importance.
Inductive t : Type := CRITICAL | IMPORTANT | OPTIONAL.
Definition value (x : t) : string :=
  match x with
  | CRITICAL => "critical" | IMPORTANT => "important" | OPTIONAL => "optional"
  end.
Definition members : list t := [CRITICAL; IMPORTANT; OPTIONAL].
Definition values : list string := map value members.
End Importance.

Module DomainFamiliarity.
Inductive t : Type := HIGH | MEDIUM | LOW | NONE.
Definition value (x : t) : string :=
  match x with
  | HIGH => "high" | MEDIUM => "medium" | LOW => "low" | NONE => "none"
  end.
Definition members : list t := [HIGH; MEDIUM; LOW; NONE].
Definition values : list string := map value members.
End DomainFamiliarity.

Module ConfidenceRating.
Inductive t : Type := HIGH | MEDIUM | LOW.
Definition value (x : t) : string :=
  match x with HIGH => "high" | MEDIUM => "medium" | LOW => "low" end.
Definition members : list t := [HIGH; MEDIUM; LOW].
Definition values : list string := map value members.
End ConfidenceRating.

(** [Cls(v)] for an enumeration [Cls] with the given members: the first
    member whose value equals [v]; a value that is not a [str] equals none. *)
Definition enum_call {E : Type} (name : string) (value : E -> string)
    (members : list E) (v : pyval) : outcome E :=
  match v with
  | PStr s =>
      match find (fun m => String.eqb (value m) s) members with
      | Some m => Returned m
      | None => Raised (ValueError (NotAMember name v))
      end
  | _ => Raised (ValueError (NotAMember name v))
  end.

Definition CostTier_call : pyval -> outcome CostTier.t :=
  enum_call "CostTier" CostTier.value CostTier.members.
Definition Importance_call : pyval -> outcome Importance.t :=
  enum_call "Importance" Importance.value Importance.members.
Definition DomainFamiliarity_call : pyval -> outcome DomainFamiliarity.t :=
  enum_call "DomainFamiliarity" DomainFamiliarity.value
    DomainFamiliarity.members.
Definition ConfidenceRating_call : pyval -> outcome ConfidenceRating.t :=
  enum_call "ConfidenceRating" ConfidenceRating.value ConfidenceRating.members.

(** ** [types.py]: request options *)

(** A dataclass does not check the types of its fields: a cookie parsed
    from a response holds whatever the payload held. *)
Module Cookie.
Record t : Type := {
  name : pyval;
  value : pyval;
  domain : pyval;
  path : pyval
}.
(** Fields typed as the class declares them: [str], [str],
    [Optional[str]], [Optional[str]]. *)
Definition is_str (v : pyval) : bool :=
  match v with PStr _ => true | _ => false end.
Definition is_opt_str (v : pyval) : bool :=
  match v with PStr _ | PNone => true | _ => false end.
Definition well_typed (c : t) : bool :=
  is_str (name c) && is_str (value c) && is_opt_str (domain c)
  && is_opt_str (path c).
(** [Cookie(name=n, value=v)]: [domain] and [path] take their defaults. *)
Definition make (n v : string) : t :=
  {| name := PStr n; value := PStr v; domain := PNone; path := PStr "/" |}.
End Cookie.

Module VerifyOptions.
Record t : Type := {
  enabled : bool;
  mode : VerificationMode.t
}.
End VerifyOptions.

Module BrowseOptions.
Record t : Type := {
  content_type : ContentType.t;
  wait_for_selector : option string;
  scroll_to_load : bool;
  max_chars : option Z;
  include_tables : bool;
  max_latency_ms : option Z;
  max_cost_tier : option CostTier.t;
  verify : option VerifyOptions.t
}.

(** The value of [BrowseOptions()] with every argument left out. *)
Definition default : t :=
  {| content_type := ContentType.MARKDOWN;
     wait_for_selector := None;
     scroll_to_load := false;
     max_chars := None;
     include_tables := true;
     max_latency_ms := None;
     max_cost_tier := None;
     verify := None |}.

Definition to_dict (self : t) : pydict :=
  let result : pydict := [] in
  let result :=
    if truthy (PStr (ContentType.value (content_type self))) then
      dict_setitem result "contentType"
        (PStr (ContentType.value (content_type self)))
    else result in
  let result :=
    match wait_for_selector self with
    | Some s =>
        if truthy (PStr s) then dict_setitem result "waitForSelector" (PStr s)
        else result
    | None => result
    end in
  let result :=
    if scroll_to_load self then
      dict_setitem result "scrollToLoad" (PBool (scroll_to_load self))
    else result in
  let result :=
    match max_chars self with
    | Some n => dict_setitem result "maxChars" (PInt n)
    | None => result
    end in
  let result :=
    if negb (include_tables self) then
      dict_setitem result "includeTables" (PBool false)
    else result in
  let result :=
    match max_latency_ms self with
    | Some n => dict_setitem result "maxLatencyMs" (PInt n)
    | None => result
    end in
  let result :=
    match max_cost_tier self with
    | Some tier =>
        if truthy (PStr (CostTier.value tier)) then
          dict_setitem result "maxCostTier" (PStr (CostTier.value tier))
        else result
    | None => result
    end in
  let result :=
    match verify self with
    | Some v =>
        dict_setitem result "verify"
          (PDict [("enabled", PBool (VerifyOptions.enabled v));
                  ("mode",
                   PStr (VerificationMode.value (VerifyOptions.mode v)))])
    | None => result
    end in
  result.
End BrowseOptions.

Module SessionData.
Record t : Type := {
  cookies : list Cookie.t;
  local_storage : list (string * string)
}.

Definition cookie_dict (c : Cookie.t) : pyval :=
  PDict [("name", Cookie.name c); ("value", Cookie.value c);
         ("domain", Cookie.domain c); ("path", Cookie.path c)].

Definition to_dict (self : t) : pydict :=
  let result : pydict := [] in
  let result :=
    match cookies self with
    | _ :: _ => dict_setitem result "cookies" (PList (map cookie_dict (cookies self)))
    | [] => result
    end in
  let result :=
    match local_storage self with
    | _ :: _ =>
        dict_setitem result "localStorage"
          (PDict (map (fun kv => (fst kv, PStr (snd kv))) (local_storage self)))
    | [] => result
    end in
  result.
End SessionData.

(** ** [types.py]: parsing of response payloads *)

(** The items a [for] clause draws from a value: the elements of a list, the
    keys of a dict, the characters of a string (one per byte here; every
    use below subscripts the item with a string key, which fails alike on
    any string). *)
Fixpoint chars (s : string) : list pyval :=
  match s with
  | EmptyString => []
  | String c rest => PStr (String c EmptyString) :: chars rest
  end.

Definition py_iter (v : pyval) : outcome (list pyval) :=
  match v with
  | PList items => Returned items
  | PDict entries => Returned (map (fun kv => PStr (fst kv)) entries)
  | PStr s => Returned (chars s)
  | _ => Raised TypeError
  end.

(** [[f(x) for x in items]]: the first failure ends the comprehension. *)
Fixpoint map_outcome {A B} (f : A -> outcome B) (items : list A)
  : outcome (list B) :=
  match items with
  | [] => Returned []
  | x :: rest =>
      let? y := f x in
      let? ys := map_outcome f rest in
      Returned (y :: ys)
  end.

Module ContentResult.
Record t : Type := { markdown : pyval; text : pyval; html : pyval }.
End ContentResult.

Module TableData.
Record t : Type := { headers : pyval; rows : pyval }.
End TableData.

Module DiscoveredApi.
Record t : Type := { url : pyval; method : pyval; content_type : pyval }.
End DiscoveredApi.

Module BrowseMetadata.
Record t : Type := {
  load_time : pyval;
  tier : pyval;
  tiers_attempted : pyval
}.
End BrowseMetadata.

Module VerificationResult.
Record t : Type := {
  passed : pyval;
  confidence : pyval;
  checks_run : pyval;
  errors : pyval;
  warnings : pyval
}.
End VerificationResult.

Module BrowseResult.
Record t : Type := {
  url : pyval;
  final_url : pyval;
  title : pyval;
  content : ContentResult.t;
  metadata : BrowseMetadata.t;
  tables : option (list TableData.t);
  discovered_apis : option (list DiscoveredApi.t);
  new_cookies : option (list Cookie.t);
  verification : option VerificationResult.t
}.

Definition table_of (t : pyval) : outcome TableData.t :=
  let? headers := py_getitem t "headers" in
  let? rows := py_getitem t "rows" in
  Returned {| TableData.headers := headers; TableData.rows := rows |}.

Definition api_of (a : pyval) : outcome DiscoveredApi.t :=
  let? url := py_getitem a "url" in
  let? method := py_getitem a "method" in
  let? content_type := py_getitem a "contentType" in
  Returned {| DiscoveredApi.url := url;
              DiscoveredApi.method := method;
              DiscoveredApi.content_type := content_type |}.

Definition cookie_of (c : pyval) : outcome Cookie.t :=
  let? name := py_getitem c "name" in
  let? value := py_getitem c "value" in
  let? domain := py_get c "domain" PNone in
  let? path := py_get c "path" (PStr "/") in
  Returned {| Cookie.name := name; Cookie.value := value;
              Cookie.domain := domain; Cookie.path := path |}.

(** [None], or the list built from [data[key]] when [data.get(key)] is
    true. *)
Definition optional_list {A} (data : pyval) (key : string)
    (item_of : pyval -> outcome A) : outcome (option (list A)) :=
  let? present := py_get data key PNone in
  if truthy present then
    let? raw := py_getitem data key in
    let? items := py_iter raw in
    let? parsed := map_outcome item_of items in
    Returned (Some parsed)
  else Returned None.

Definition from_dict (data : pyval) : outcome t :=
  let? content_1 := py_getitem data "content" in
  let? markdown := py_getitem content_1 "markdown" in
  let? content_2 := py_getitem data "content" in
  let? text := py_getitem content_2 "text" in
  let? content_3 := py_getitem data "content" in
  let? html := py_get content_3 "html" PNone in
  let content :=
    {| ContentResult.markdown := markdown; ContentResult.text := text;
       ContentResult.html := html |} in
  let? metadata_1 := py_getitem data "metadata" in
  let? load_time := py_getitem metadata_1 "loadTime" in
  let? metadata_2 := py_getitem data "metadata" in
  let? tier := py_getitem metadata_2 "tier" in
  let? metadata_3 := py_getitem data "metadata" in
  let? tiers_attempted := py_getitem metadata_3 "tiersAttempted" in
  let metadata :=
    {| BrowseMetadata.load_time := load_time; BrowseMetadata.tier := tier;
       BrowseMetadata.tiers_attempted := tiers_attempted |} in
  let? tables := optional_list data "tables" table_of in
  let? discovered_apis := optional_list data "discoveredApis" api_of in
  let? new_cookies := optional_list data "newCookies" cookie_of in
  let? v_present := py_get data "verification" PNone in
  let? verification :=
    if truthy v_present then
      let? v := py_getitem data "verification" in
      let? passed := py_getitem v "passed" in
      let? confidence := py_getitem v "confidence" in
      let? checks_run := py_getitem v "checksRun" in
      let? errors := py_get v "errors" PNone in
      let? warnings := py_get v "warnings" PNone in
      Returned (Some {| VerificationResult.passed := passed;
                        VerificationResult.confidence := confidence;
                        VerificationResult.checks_run := checks_run;
                        VerificationResult.errors := errors;
                        VerificationResult.warnings := warnings |})
    else Returned None in
  let? url := py_getitem data "url" in
  let? final_url := py_getitem data "finalUrl" in
  let? title := py_getitem data "title" in
  Returned {| url := url; final_url := final_url; title := title;
              content := content; metadata := metadata; tables := tables;
              discovered_apis := discovered_apis; new_cookies := new_cookies;
              verification := verification |}.

(** The keys [from_dict] reads by subscript. *)
Definition required : list string :=
  ["content"; "metadata"; "url"; "finalUrl"; "title"].
End BrowseResult.

Module ExecutionStep.
Record t : Type := {
  order : pyval;
  action : pyval;
  description : pyval;
  tier : CostTier.t;
  expected_duration : pyval;
  confidence : ConfidenceRating.t;
  reason : pyval
}.

Definition from_dict (data : pyval) : outcome t :=
  let? order := py_getitem data "order" in
  let? action := py_getitem data "action" in
  let? description := py_getitem data "description" in
  let? tier_value := py_getitem data "tier" in
  let? tier := CostTier_call tier_value in
  let? expected_duration := py_getitem data "expectedDuration" in
  let? confidence_value := py_getitem data "confidence" in
  let? confidence := ConfidenceRating_call confidence_value in
  let? reason := py_get data "reason" PNone in
  Returned {| order := order; action := action; description := description;
              tier := tier; expected_duration := expected_duration;
              confidence := confidence; reason := reason |}.

(** The keys [from_dict] reads by subscript. *)
Definition required : list string :=
  ["order"; "action"; "description"; "tier"; "expectedDuration";
   "confidence"].
End ExecutionStep.

Module ConfidenceFactors.
Record t : Type := {
  has_learned_patterns : pyval;
  domain_familiarity : DomainFamiliarity.t;
  api_discovered : pyval;
  requires_auth : pyval;
  bot_detection_likely : pyval;
  skills_available : pyval;
  pattern_count : pyval;
  pattern_success_rate : pyval
}.

Definition from_dict (data : pyval) : outcome t :=
  let? has_learned_patterns := py_getitem data "hasLearnedPatterns" in
  let? familiarity_value := py_getitem data "domainFamiliarity" in
  let? domain_familiarity := DomainFamiliarity_call familiarity_value in
  let? api_discovered := py_getitem data "apiDiscovered" in
  let? requires_auth := py_getitem data "requiresAuth" in
  let? bot_detection_likely := py_getitem data "botDetectionLikely" in
  let? skills_available := py_getitem data "skillsAvailable" in
  let? pattern_count := py_getitem data "patternCount" in
  let? pattern_success_rate := py_getitem data "patternSuccessRate" in
  Returned {| has_learned_patterns := has_learned_patterns;
              domain_familiarity := domain_familiarity;
              api_discovered := api_discovered;
              requires_auth := requires_auth;
              bot_detection_likely := bot_detection_likely;
              skills_available := skills_available;
              pattern_count := pattern_count;
              pattern_success_rate := pattern_success_rate |}.

(** The keys [from_dict] reads by subscript. *)
Definition required : list string :=
  ["hasLearnedPatterns"; "domainFamiliarity"; "apiDiscovered"; "requiresAuth";
   "botDetectionLikely"; "skillsAvailable"; "patternCount";
   "patternSuccessRate"].
End ConfidenceFactors.

Module ConfidenceLevel.
Record t : Type := {
  overall : ConfidenceRating.t;
  factors : ConfidenceFactors.t
}.

Definition from_dict (data : pyval) : outcome t :=
  let? overall_value := py_getitem data "overall" in
  let? overall := ConfidenceRating_call overall_value in
  let? factors_value := py_getitem data "factors" in
  let? factors := ConfidenceFactors.from_dict factors_value in
  Returned {| overall := overall; factors := factors |}.

(** The keys [from_dict] reads by subscript. *)
Definition required : list string :=
  ["overall"; "factors"].
End ConfidenceLevel.

Module WorkflowStep.
Record t : Type := {
  step_number : pyval;
  action : pyval;
  description : pyval;
  importance : Importance.t;
  success : pyval;
  url : pyval;
  user_annotation : pyval;
  tier : option CostTier.t;
  duration : pyval
}.

Definition from_dict (data : pyval) : outcome t :=
  let? step_number := py_getitem data "stepNumber" in
  let? action := py_getitem data "action" in
  let? description := py_getitem data "description" in
  let? importance_value := py_getitem data "importance" in
  let? importance := Importance_call importance_value in
  let? success := py_getitem data "success" in
  let? url := py_get data "url" PNone in
  let? user_annotation := py_get data "userAnnotation" PNone in
  let? tier_present := py_get data "tier" PNone in
  let? tier :=
    if truthy tier_present then
      let? tier_value := py_getitem data "tier" in
      let? member := CostTier_call tier_value in
      Returned (Some member)
    else Returned None in
  let? duration := py_get data "duration" PNone in
  Returned {| step_number := step_number; action := action;
              description := description; importance := importance;
              success := success; url := url;
              user_annotation := user_annotation; tier := tier;
              duration := duration |}.

(** The keys [from_dict] reads by subscript. *)
Definition required : list string :=
  ["stepNumber"; "action"; "description"; "importance"; "success"].
End WorkflowStep.

Module DomainIntelligence.
Record t : Type := {
  domain : pyval;
  known_patterns : pyval;
  selector_chains : pyval;
  validators : pyval;
  pagination_patterns : pyval;
  recent_failures : pyval;
  success_rate : pyval;
  domain_group : pyval;
  recommended_wait_strategy : pyval;
  should_use_session : pyval
}.

Definition from_dict (data : pyval) : outcome t :=
  let? domain := py_getitem data "domain" in
  let? known_patterns := py_get data "knownPatterns" (PInt 0) in
  let? selector_chains := py_get data "selectorChains" (PInt 0) in
  let? validators := py_get data "validators" (PInt 0) in
  let? pagination_patterns := py_get data "paginationPatterns" (PInt 0) in
  let? recent_failures := py_get data "recentFailures" (PInt 0) in
  let? success_rate := py_get data "successRate" (PFloat (S754_zero false)) in
  let? domain_group := py_get data "domainGroup" PNone in
  let? recommended_wait_strategy :=
    py_get data "recommendedWaitStrategy" (PStr "load") in
  let? should_use_session := py_get data "shouldUseSession" (PBool false) in
  Returned {| domain := domain; known_patterns := known_patterns;
              selector_chains := selector_chains; validators := validators;
              pagination_patterns := pagination_patterns;
              recent_failures := recent_failures;
              success_rate := success_rate; domain_group := domain_group;
              recommended_wait_strategy := recommended_wait_strategy;
              should_use_session := should_use_session |}.

(** The keys [from_dict] reads by subscript, in the order it reads them. *)
Definition required : list string := ["domain"].
End DomainIntelligence.

Module BatchResultItem.
Record t : Type := {
  url : pyval;
  success : pyval;
  data : option BrowseResult.t;
  error : pyval
}.
End BatchResultItem.

Module BatchResult.
Record t : Type := {
  results : list BatchResultItem.t;
  total_time : pyval
}.

(** The body of the loop over [data["results"]]. *)
Definition item_of (r : pyval) : outcome BatchResultItem.t :=
  let? url := py_getitem r "url" in
  let? success := py_getitem r "success" in
  let? present := py_get r "data" PNone in
  let? data :=
    if truthy present then
      let? raw := py_getitem r "data" in
      let? parsed := BrowseResult.from_dict raw in
      Returned (Some parsed)
    else Returned None in
  let? error := py_get r "error" PNone in
  Returned {| BatchResultItem.url := url; BatchResultItem.success := success;
              BatchResultItem.data := data; BatchResultItem.error := error |}.

Definition from_dict (data : pyval) : outcome t :=
  let? raw := py_getitem data "results" in
  let? items := py_iter raw in
  let? results := map_outcome item_of items in
  let? total_time := py_getitem data "totalTime" in
  Returned {| results := results; total_time := total_time |}.
End BatchResult.

Module WorkflowInfo.
Record t : Type := {
  id : pyval;
  name : pyval;
  description : pyval;
  domain : pyval;
  tags : pyval;
  steps : pyval;
  version : pyval;
  usage_count : pyval;
  success_rate : pyval;
  created_at : pyval;
  updated_at : pyval
}.

Definition from_dict (data : pyval) : outcome t :=
  let? id := py_getitem data "id" in
  let? name := py_getitem data "name" in
  let? description := py_getitem data "description" in
  let? domain := py_getitem data "domain" in
  let? tags := py_get data "tags" (PList []) in
  let? steps := py_getitem data "steps" in
  let? version := py_getitem data "version" in
  let? usage_count := py_get data "usageCount" (PInt 0) in
  let? success_rate := py_get data "successRate" (PFloat (S754_zero false)) in
  let? created_at := py_getitem data "createdAt" in
  let? updated_at := py_getitem data "updatedAt" in
  Returned {| id := id; name := name; description := description;
              domain := domain; tags := tags; steps := steps;
              version := version; usage_count := usage_count;
              success_rate := success_rate; created_at := created_at;
              updated_at := updated_at |}.

(** The keys [from_dict] reads by subscript, in the order it reads them. *)
Definition required : list string :=
  ["id"; "name"; "description"; "domain"; "steps"; "version"; "createdAt";
   "updatedAt"].
End WorkflowInfo.

Module WorkflowDetails.
Record t : Type := {
  id : pyval;
  name : pyval;
  description : pyval;
  domain : pyval;
  tags : pyval;
  version : pyval;
  usage_count : pyval;
  success_rate : pyval;
  steps : list WorkflowStep.t;
  skill_id : pyval;
  created_at : pyval;
  updated_at : pyval
}.

Definition from_dict (data : pyval) : outcome t :=
  let? raw := py_getitem data "steps" in
  let? items := py_iter raw in
  let? steps := map_outcome WorkflowStep.from_dict items in
  let? id := py_getitem data "id" in
  let? name := py_getitem data "name" in
  let? description := py_getitem data "description" in
  let? domain := py_getitem data "domain" in
  let? tags := py_get data "tags" (PList []) in
  let? version := py_getitem data "version" in
  let? usage_count := py_get data "usageCount" (PInt 0) in
  let? success_rate := py_get data "successRate" (PFloat (S754_zero false)) in
  let? skill_id := py_get data "skillId" PNone in
  let? created_at := py_getitem data "createdAt" in
  let? updated_at := py_getitem data "updatedAt" in
  Returned {| id := id; name := name; description := description;
              domain := domain; tags := tags; version := version;
              usage_count := usage_count; success_rate := success_rate;
              steps := steps; skill_id := skill_id;
              created_at := created_at; updated_at := updated_at |}.

(** The keys [from_dict] reads by subscript once the steps are parsed, in
    the order it reads them. *)
Definition required : list string :=
  ["id"; "name"; "description"; "domain"; "version"; "createdAt";
   "updatedAt"].
End WorkflowDetails.

Module ReplayStepResult.
Record t : Type := {
  step_number : pyval;
  success : pyval;
  duration : pyval;
  tier : option CostTier.t;
  error : pyval
}.
End ReplayStepResult.

Module ReplayResult.
Record t : Type := {
  workflow_id : pyval;
  overall_success : pyval;
  total_duration : pyval;
  results : list ReplayStepResult.t
}.

(** The body of the loop over [data["results"]]. *)
Definition step_of (r : pyval) : outcome ReplayStepResult.t :=
  let? step_number := py_getitem r "stepNumber" in
  let? success := py_getitem r "success" in
  let? duration := py_getitem r "duration" in
  let? tier_present := py_get r "tier" PNone in
  let? tier :=
    if truthy tier_present then
      let? tier_value := py_getitem r "tier" in
      let? member := CostTier_call tier_value in
      Returned (Some member)
    else Returned None in
  let? error := py_get r "error" PNone in
  Returned {| ReplayStepResult.step_number := step_number;
              ReplayStepResult.success := success;
              ReplayStepResult.duration := duration;
              ReplayStepResult.tier := tier;
              ReplayStepResult.error := error |}.

Definition from_dict (data : pyval) : outcome t :=
  let? raw := py_getitem data "results" in
  let? items := py_iter raw in
  let? results := map_outcome step_of items in
  let? workflow_id := py_getitem data "workflowId" in
  let? overall_success := py_getitem data "overallSuccess" in
  let? total_duration := py_getitem data "totalDuration" in
  Returned {| workflow_id := workflow_id;
              overall_success := overall_success;
              total_duration := total_duration; results := results |}.
End ReplayResult.

(** ** [types.py]: the preview of a browse *)

Module ExecutionPlan.
#[warnings="-register-all"]
Inductive t : Type := Build_t {
  steps : list ExecutionStep.t;
  tier : CostTier.t;
  reasoning : pyval;
  fallback_plan : option t
}.

(** The parser calls itself on [data["fallbackPlan"]].  [room] is the
    number of nested calls of the parser that the interpreter's stack has
    room for when it is called: the call that goes beyond it raises
    [RecursionError], as Python does at its recursion limit.  The other
    calls the parser makes are taken to find room. *)
Fixpoint from_dict (room : nat) (data : pyval) {struct room} : outcome t :=
  match room with
  | O => Raised RecursionError
  | S deeper =>
      let? raw := py_getitem data "steps" in
      let? items := py_iter raw in
      let? steps := map_outcome ExecutionStep.from_dict items in
      let? present := py_get data "fallbackPlan" PNone in
      let? fallback :=
        if truthy present then
          let? raw_plan := py_getitem data "fallbackPlan" in
          let? plan := from_dict deeper raw_plan in
          Returned (Some plan)
        else Returned None in
      let? tier_value := py_getitem data "tier" in
      let? tier := CostTier_call tier_value in
      let? reasoning := py_getitem data "reasoning" in
      Returned {| steps := steps; tier := tier; reasoning := reasoning;
                  fallback_plan := fallback |}
  end.

(** The plan reached by following [fallback_plan] [n] times. *)
Fixpoint descend (n : nat) (plan : t) : option t :=
  match n with
  | O => Some plan
  | S m =>
      match fallback_plan plan with
      | Some next => descend m next
      | None => None
      end
  end.
End ExecutionPlan.

Module TimeEstimate.
Record t : Type := {
  min : pyval;
  max : pyval;
  expected : pyval;
  breakdown : pyval
}.

Definition from_dict (data : pyval) : outcome t :=
  let? min := py_getitem data "min" in
  let? max := py_getitem data "max" in
  let? expected := py_getitem data "expected" in
  let? breakdown := py_getitem data "breakdown" in
  Returned {| min := min; max := max; expected := expected;
              breakdown := breakdown |}.
End TimeEstimate.

Module BrowsePreview.
Record t : Type := {
  schema_version : pyval;
  plan : ExecutionPlan.t;
  estimated_time : TimeEstimate.t;
  confidence : ConfidenceLevel.t;
  alternative_plans : option (list ExecutionPlan.t)
}.

(** [room] is the room the calls of [ExecutionPlan.from_dict] find. *)
Definition from_dict (room : nat) (data : pyval) : outcome t :=
  let? alt_plans :=
    BrowseResult.optional_list data "alternativePlans"
      (ExecutionPlan.from_dict room) in
  let? schema_version := py_getitem data "schemaVersion" in
  let? raw_plan := py_getitem data "plan" in
  let? plan := ExecutionPlan.from_dict room raw_plan in
  let? raw_time := py_getitem data "estimatedTime" in
  let? estimated_time := TimeEstimate.from_dict raw_time in
  let? raw_confidence := py_getitem data "confidence" in
  let? confidence := ConfidenceLevel.from_dict raw_confidence in
  Returned {| schema_version := schema_version; plan := plan;
              estimated_time := estimated_time; confidence := confidence;
              alternative_plans := alt_plans |}.
End BrowsePreview.

(** ** [client.py]: the public methods of [UnbrowserClient] *)

Module Operations.

Section Methods.

Variable srv : server.

(** The request body of [browse], [fetch] and [batch]: the target, then
    [options] and [session] when given (an instance of either class is
    always true). *)
Definition request_body (target : string * pyval)
    (options : option BrowseOptions.t) (session : option SessionData.t)
  : pydict :=
  let body : pydict := [target] in
  let body :=
    match options with
    | Some o => dict_setitem body "options" (PDict (BrowseOptions.to_dict o))
    | None => body
    end in
  let body :=
    match session with
    | Some s => dict_setitem body "session" (PDict (SessionData.to_dict s))
    | None => body
    end in
  body.

Definition browse (c : UnbrowserClient.t) (url : string)
    (options : option BrowseOptions.t) (session : option SessionData.t)
  : exec BrowseResult.t :=
  let body := request_body ("url", PStr url) options session in
  data <- UnbrowserClient._request srv c "POST" "/v1/browse"
            (Some (PDict body)) ;;
  lift (BrowseResult.from_dict data).

(** [preview_browse] has no [session] argument; [room] is the room its
    parser finds for the fallback plans. *)
Definition preview_browse (room : nat) (c : UnbrowserClient.t)
    (url : string) (options : option BrowseOptions.t)
  : exec BrowsePreview.t :=
  let body := request_body ("url", PStr url) options None in
  data <- UnbrowserClient._request srv c "POST" "/v1/browse/preview"
            (Some (PDict body)) ;;
  lift (BrowsePreview.from_dict room data).

Definition fetch (c : UnbrowserClient.t) (url : string)
    (options : option BrowseOptions.t) (session : option SessionData.t)
  : exec BrowseResult.t :=
  let body := request_body ("url", PStr url) options session in
  data <- UnbrowserClient._request srv c "POST" "/v1/fetch"
            (Some (PDict body)) ;;
  lift (BrowseResult.from_dict data).

Definition batch (c : UnbrowserClient.t) (urls : list string)
    (options : option BrowseOptions.t) (session : option SessionData.t)
  : exec BatchResult.t :=
  let body := request_body ("urls", PList (map PStr urls)) options session in
  data <- UnbrowserClient._request srv c "POST" "/v1/batch"
            (Some (PDict body)) ;;
  lift (BatchResult.from_dict data).

Definition get_domain_intelligence (c : UnbrowserClient.t) (domain : string)
  : exec DomainIntelligence.t :=
  data <- UnbrowserClient._request srv c "GET"
            ("/v1/domains/" ++ domain ++ "/intelligence")%string None ;;
  lift (DomainIntelligence.from_dict data).

(** [health] calls [requests.get] itself, outside the session and outside
    [_request]; the log records the call like any other. *)
Definition health (c : UnbrowserClient.t) : exec pyval :=
  let url := (UnbrowserClient.base_url c ++ "/health")%string in
  response <- UnbrowserClient.session_send srv "GET" url None
                (UnbrowserClient.timeout c) ;;
  lift (response_json response).

Definition start_recording (c : UnbrowserClient.t)
    (name description domain : string) (tags : option (list string))
  : exec pyval :=
  let body : pydict :=
    [("name", PStr name); ("description", PStr description);
     ("domain", PStr domain)] in
  let body :=
    match tags with
    | Some (tag :: more) =>
        dict_setitem body "tags" (PList (map PStr (tag :: more)))
    | _ => body
    end in
  UnbrowserClient._request srv c "POST" "/v1/workflows/record/start"
    (Some (PDict body)).

Definition stop_recording (c : UnbrowserClient.t) (recording_id : string)
    (save : bool) : exec pyval :=
  UnbrowserClient._request srv c "POST"
    ("/v1/workflows/record/" ++ recording_id ++ "/stop")%string
    (Some (PDict [("save", PBool save)])).

Definition annotate_recording (c : UnbrowserClient.t)
    (recording_id : string) (step_number : Z) (annotation : string)
    (importance : option string) : exec pyval :=
  let body : pydict :=
    [("stepNumber", PInt step_number); ("annotation", PStr annotation)] in
  let body :=
    match importance with
    | Some i =>
        if truthy (PStr i) then dict_setitem body "importance" (PStr i)
        else body
    | None => body
    end in
  UnbrowserClient._request srv c "POST"
    ("/v1/workflows/record/" ++ recording_id ++ "/annotate")%string
    (Some (PDict body)).

Definition replay_workflow (c : UnbrowserClient.t) (workflow_id : string)
    (variables : option pydict) : exec ReplayResult.t :=
  let body : pydict := [] in
  let body :=
    match variables with
    | Some (entry :: more) =>
        dict_setitem body "variables" (PDict (entry :: more))
    | _ => body
    end in
  data <- UnbrowserClient._request srv c "POST"
            ("/v1/workflows/" ++ workflow_id ++ "/replay")%string
            (Some (PDict body)) ;;
  lift (ReplayResult.from_dict data).

Definition get_workflow (c : UnbrowserClient.t) (workflow_id : string)
  : exec WorkflowDetails.t :=
  data <- UnbrowserClient._request srv c "GET"
            ("/v1/workflows/" ++ workflow_id)%string None ;;
  lift (WorkflowDetails.from_dict data).

Definition delete_workflow (c : UnbrowserClient.t) (workflow_id : string)
  : exec pyval :=
  UnbrowserClient._request srv c "DELETE"
    ("/v1/workflows/" ++ workflow_id)%string None.

End Methods.

End Operations.

(** *** Vocabulary for statements about the public methods *)

(** [r] is read as an envelope, is a success, and [data] is its [data]
    member ([None] when it has none). *)
Definition success_response (r : Response) (data : pyval) : Prop :=
  UnbrowserClient.reads_envelope r = true
  /\ exists d,
       content r = JsonBody (PDict d)
       /\ truthy (UnbrowserClient.lookup_default d "success" (PBool false))
          = true
       /\ data = UnbrowserClient.lookup_default d "data" PNone.

(** A request that started with an empty log ended with [log] because some
    call within the budget, the last one made, was answered with a success
    envelope holding [data]. *)
Definition served (srv : server) (c : UnbrowserClient.t) (log : list event)
    (data : pyval) : Prop :=
  exists j r,
    Z.of_nat j < UnbrowserClient.attempts_of c
    /\ UnbrowserClient.all_retried srv j
    /\ srv j = NetResponds r
    /\ success_response r data
    /\ count_sends log = S j.

(** The characters of a query string built by [urlencode]. *)
Definition query_char (ch : ascii) : bool :=
  always_safe ch || Ascii.eqb ch "+" || Ascii.eqb ch "%"
  || Ascii.eqb ch "=" || Ascii.eqb ch "&".

Definition is_dict (v : pyval) : bool :=
  match v with PDict _ => true | _ => false end.

(** What the dict holds under the key: [None] when it has no such key. *)
Definition looks_up (k : string) (found : option pyval) (d : pydict) : Prop :=
  dict_lookup d k = found.

(** The payload of a plan with its fallback plans: each object of [layers]
    holds the next one under [fallbackPlan], the last one holds
    [innermost]. *)
Fixpoint nest_fallbacks (layers : list pydict) (innermost : pyval) : pyval :=
  match layers with
  | [] => innermost
  | d :: rest =>
      PDict (dict_setitem d "fallbackPlan" (nest_fallbacks rest innermost))
  end.

(** The object holds what a plan needs besides its fallback: steps that
    parse, the value of a cost tier and a reasoning. *)
Definition plan_layer (d : pydict) : Prop :=
  (exists raw items steps,
     dict_lookup d "steps" = Some raw
     /\ py_iter raw = Returned items
     /\ map_outcome ExecutionStep.from_dict items = Returned steps)
  /\ (exists tier, dict_lookup d "tier" = Some (PStr (CostTier.value tier)))
  /\ (exists reasoning, dict_lookup d "reasoning" = Some reasoning).

(** What the members of an object must hold for [BrowsePreview.from_dict]
    to build the given preview from it, but for the alternative plans. *)
Definition preview_members (room : nat) (d : pydict) (pv : BrowsePreview.t)
  : Prop :=
  dict_lookup d "schemaVersion" = Some (BrowsePreview.schema_version pv)
  /\ (exists raw,
        dict_lookup d "plan" = Some raw
        /\ ExecutionPlan.from_dict room raw
           = Returned (BrowsePreview.plan pv))
  /\ (exists raw,
        dict_lookup d "estimatedTime" = Some raw
        /\ TimeEstimate.from_dict raw
           = Returned (BrowsePreview.estimated_time pv))
  /\ (exists raw,
        dict_lookup d "confidence" = Some raw
        /\ ConfidenceLevel.from_dict raw
           = Returned (BrowsePreview.confidence pv)).

(** The same for the alternative plans. *)
Definition preview_alternatives (room : nat) (d : pydict)
    (pv : BrowsePreview.t) : Prop :=
  match BrowsePreview.alternative_plans pv with
  | None =>
      truthy (UnbrowserClient.lookup_default d "alternativePlans" PNone)
      = false
  | Some plans =>
      exists raw items,
        dict_lookup d "alternativePlans" = Some raw
        /\ truthy raw = true
        /\ py_iter raw = Returned items
        /\ Forall2
             (fun x plan => ExecutionPlan.from_dict room x = Returned plan)
             items plans
  end.

(** The exceptions of a subscript, of [get], of an iteration and of an
    enumeration called on a value it does not have. *)
Definition is_parse_failure (e : exn) : bool :=
  match e with
  | KeyError _ | TypeError | AttributeError
  | ValueError (NotAMember _ _) => true
  | _ => false
  end.

Definition is_RecursionError (e : exn) : bool :=
  match e with RecursionError => true | _ => false end.

(** The exceptions [_request] raises itself or lets through: those of the
    service, the [ValueError] of an unsupported verb, of a [Retry-After]
    that is no integer or of a body with too long an integer, the
    [AttributeError] of a body that is no object, the [RecursionError] of a
    body nested too deep, and the exceptions of [requests] other than
    timeouts and connection failures. *)
Definition is_request_failure (e : exn) : bool :=
  match e with
  | UnbrowserError _ _ | AuthenticationError _ | RateLimitError _ _ => true
  | ValueError (UnsupportedMethod _) | ValueError (InvalidIntLiteral _) => true
  | AttributeError | RecursionError => true
  | RequestsError InvalidJSONError _ | RequestsError RequestException _ => true
  | _ => false
  end.

(** How deep the lists and objects of a value are nested. *)
Fixpoint depth (v : pyval) : nat :=
  match v with
  | PList items => S (list_max (map depth items))
  | PDict entries => S (list_max (map (fun kv => depth (snd kv)) entries))
  | _ => 1%nat
  end.

(** The computation raises nothing but the allowed exceptions. *)
Definition only_raises {A : Type} (allowed : exn -> bool) (x : outcome A)
  : Prop :=
  forall e, x = Raised e -> allowed e = true.

(** The log holds nothing but calls equal to [ev], at most as many as the
    client has attempts and at least one when it has one, with the sleeps
    of [_request] between them. *)
Definition sends_only (c : UnbrowserClient.t) (ev : event)
    (log : list event) : Prop :=
  exists n,
    log = UnbrowserClient.request_trace ev n
    /\ Z.of_nat n <= Z.max 0 (UnbrowserClient.attempts_of c)
    /\ (1 <= UnbrowserClient.attempts_of c -> (1 <= n)%nat).

(** The member of a request body that is written only when its argument is
    given. *)
Definition given_member (key : string) (value : option pyval) : pydict :=
  match value with
  | Some v => [(key, v)]
  | None => []
  end.

(** The value is an object with all the keys. *)
Definition holds (v : pyval) (keys : list string) : Prop :=
  exists d, v = PDict d /\ forall k, In k keys -> dict_lookup d k <> None.

(** [v.get(k)] on an object: [None] for a missing key. *)
Definition member (v : pyval) (k : string) : pyval :=
  match v with
  | PDict d => UnbrowserClient.lookup_default d k PNone
  | _ => PNone
  end.

(** Every item of the iteration over the value has the property. *)
Definition each_item (v : pyval) (P : pyval -> Prop) : Prop :=
  forall items, py_iter v = Returned items -> Forall P items.

(** The property is asked of a value only when it is true. *)
Definition when_true (v : pyval) (P : pyval -> Prop) : Prop :=
  truthy v = true -> P v.

(** The value is one of the strings. *)
Definition one_of (values : list string) (v : pyval) : Prop :=
  py_in_strs v values = true.

(** What each parser asks of its payload: the keys it reads by subscript,
    in the payload and in the objects and list items it goes through, and
    the values it hands to an enumeration. *)
Definition well_formed_step (data : pyval) : Prop :=
  holds data ExecutionStep.required
  /\ one_of CostTier.values (member data "tier")
  /\ one_of ConfidenceRating.values (member data "confidence").

Fixpoint well_formed_plan (room : nat) (data : pyval) : Prop :=
  match room with
  | O => False
  | S deeper =>
      holds data ["steps"; "tier"; "reasoning"]
      /\ each_item (member data "steps") well_formed_step
      /\ one_of CostTier.values (member data "tier")
      /\ when_true (member data "fallbackPlan") (well_formed_plan deeper)
  end.

Definition well_formed_time (data : pyval) : Prop :=
  holds data ["min"; "max"; "expected"; "breakdown"].

Definition well_formed_factors (data : pyval) : Prop :=
  holds data ConfidenceFactors.required
  /\ one_of DomainFamiliarity.values (member data "domainFamiliarity").

Definition well_formed_confidence (data : pyval) : Prop :=
  holds data ConfidenceLevel.required
  /\ one_of ConfidenceRating.values (member data "overall")
  /\ well_formed_factors (member data "factors").

Definition well_formed_preview (room : nat) (data : pyval) : Prop :=
  holds data ["schemaVersion"; "plan"; "estimatedTime"; "confidence"]
  /\ well_formed_plan room (member data "plan")
  /\ well_formed_time (member data "estimatedTime")
  /\ well_formed_confidence (member data "confidence")
  /\ when_true (member data "alternativePlans")
       (fun v => each_item v (well_formed_plan room)).

Definition well_formed_browse (data : pyval) : Prop :=
  holds data BrowseResult.required
  /\ holds (member data "content") ["markdown"; "text"]
  /\ holds (member data "metadata") ["loadTime"; "tier"; "tiersAttempted"]
  /\ when_true (member data "tables")
       (fun v => each_item v (fun t => holds t ["headers"; "rows"]))
  /\ when_true (member data "discoveredApis")
       (fun v =>
          each_item v (fun a => holds a ["url"; "method"; "contentType"]))
  /\ when_true (member data "newCookies")
       (fun v => each_item v (fun c => holds c ["name"; "value"]))
  /\ when_true (member data "verification")
       (fun v => holds v ["passed"; "confidence"; "checksRun"]).

Definition well_formed_batch (data : pyval) : Prop :=
  holds data ["results"; "totalTime"]
  /\ each_item (member data "results")
       (fun r =>
          holds r ["url"; "success"]
          /\ when_true (member r "data") well_formed_browse).

Definition well_formed_workflow_step (data : pyval) : Prop :=
  holds data WorkflowStep.required
  /\ one_of Importance.values (member data "importance")
  /\ when_true (member data "tier") (one_of CostTier.values).

Definition well_formed_workflow (data : pyval) : Prop :=
  holds data ("steps" :: WorkflowDetails.required)
  /\ each_item (member data "steps") well_formed_workflow_step.

Definition well_formed_replay (data : pyval) : Prop :=
  holds data ["results"; "workflowId"; "overallSuccess"; "totalDuration"]
  /\ each_item (member data "results")
       (fun r =>
          holds r ["stepNumber"; "success"; "duration"]
          /\ when_true (member r "tier") (one_of CostTier.values)).

(** The first of the keys, in their order, that the dict does not hold. *)
Definition first_missing (d : pydict) (keys : list string) : option string :=
  find (fun k => match dict_lookup d k with None => true | Some _ => false end)
    keys.

(** What one element of [data["results"]] must hold for
    [BatchResult.from_dict] to build the given item from it. *)
Definition batch_item_reads (r : pyval) (item : BatchResultItem.t) : Prop :=
  exists rd,
    r = PDict rd
    /\ dict_lookup rd "url" = Some (BatchResultItem.url item)
    /\ dict_lookup rd "success" = Some (BatchResultItem.success item)
    /\ BatchResultItem.error item
       = UnbrowserClient.lookup_default rd "error" PNone
    /\ match BatchResultItem.data item with
       | None => truthy (UnbrowserClient.lookup_default rd "data" PNone) = false
       | Some res =>
           exists raw,
             dict_lookup rd "data" = Some raw /\ truthy raw = true
             /\ BrowseResult.from_dict raw = Returned res
       end.

(** The same for one element of the [results] of a replay. *)
Definition replay_step_reads (r : pyval) (step : ReplayStepResult.t) : Prop :=
  exists rd,
    r = PDict rd
    /\ dict_lookup rd "stepNumber" = Some (ReplayStepResult.step_number step)
    /\ dict_lookup rd "success" = Some (ReplayStepResult.success step)
    /\ dict_lookup rd "duration" = Some (ReplayStepResult.duration step)
    /\ ReplayStepResult.error step
       = UnbrowserClient.lookup_default rd "error" PNone
    /\ match ReplayStepResult.tier step with
       | None => truthy (UnbrowserClient.lookup_default rd "tier" PNone) = false
       | Some m => dict_lookup rd "tier" = Some (PStr (CostTier.value m))
       end.

(** ** Sample clients, servers and payloads *)

Module Samples.

(** [UnbrowserClient(api_key="ub_live_test123")] *)
Definition client : UnbrowserClient.t :=
  {| UnbrowserClient.api_key := "ub_live_test123";
     UnbrowserClient.base_url := "https://api.unbrowser.ai";
     UnbrowserClient.timeout := 60;
     UnbrowserClient.retry := true;
     UnbrowserClient.max_retries := 3;
     UnbrowserClient._session :=
       {| UnbrowserClient.session_headers :=
            [("Content-Type", "application/json");
             ("Authorization", "Bearer ub_live_test123");
             ("User-Agent", "unbrowser-python/0.1.0")] |} |}.

(** The same client built with [retry=False]. *)
Definition client_no_retry : UnbrowserClient.t :=
  {| UnbrowserClient.api_key := "ub_live_test123";
     UnbrowserClient.base_url := "https://api.unbrowser.ai";
     UnbrowserClient.timeout := 60;
     UnbrowserClient.retry := false;
     UnbrowserClient.max_retries := 3;
     UnbrowserClient._session := UnbrowserClient._session client |}.

Definition json_response (status : Z) (hs : list (string * string))
    (v : pyval) : Response :=
  {| status_code := status; headers := hs; content := JsonBody v |}.

Definition usage_ok : Response :=
  json_response 200 []
    (PDict [("success", PBool true);
            ("data", PDict [("limits", PDict [("daily", PInt 1000)])])]).

Definition error_envelope (code message : string) : pyval :=
  PDict [("success", PBool false);
         ("error", PDict [("code", PStr code); ("message", PStr message)])].

(** A connection that is refused once, then a success. *)
Definition refused_then_ok : server :=
  fun k =>
    match k with
    | O => NetRaises ConnectionError "Connection refused"
    | _ => NetResponds usage_ok
    end.

(** A read timeout once, then a success. *)
Definition timeout_then_ok : server :=
  fun k =>
    match k with
    | O => NetRaises ReadTimeout "Read timed out"
    | _ => NetResponds usage_ok
    end.

(** Every call times out. *)
Definition always_timeout : server :=
  fun _ => NetRaises ReadTimeout "Read timed out".

(** Every call is answered with the given response. *)
Definition always (r : Response) : server := fun _ => NetResponds r.

(** The payload of the browse tests, with one discovered API whose content
    type is [content_type] and with the metadata tier [tier]. *)
Definition browse_payload (content_type tier : pyval) : pyval :=
  PDict [("url", PStr "https://example.com");
         ("finalUrl", PStr "https://example.com/");
         ("title", PStr "Example Domain");
         ("content", PDict [("markdown", PStr "content");
                            ("text", PStr "content")]);
         ("metadata", PDict [("loadTime", PInt 150);
                             ("tier", tier);
                             ("tiersAttempted", PList [tier])]);
         ("discoveredApis",
          PList [PDict [("url", PStr "https://example.com/api/items");
                        ("method", PStr "GET");
                        ("contentType", content_type)]])].

Definition workflow_step_payload (tier : pyval) : pyval :=
  PDict [("stepNumber", PInt 1);
         ("action", PStr "browse");
         ("description", PStr "Open the product page");
         ("importance", PStr "critical");
         ("success", PBool true);
         ("tier", tier)].

Definition execution_step_payload (tier confidence : pyval) : pyval :=
  PDict [("order", PInt 1);
         ("action", PStr "fetch");
         ("description", PStr "Fetch the page");
         ("tier", tier);
         ("expectedDuration", PInt 200);
         ("confidence", confidence)].

Definition usage_event : event :=
  EvSend "GET" "https://api.unbrowser.ai/v1/usage" None 60.

End Samples.

Module MoreSamples.

Definition success_with (data : pyval) : Response :=
  Samples.json_response 200 []
    (PDict [("success", PBool true); ("data", data)]).

(** A read timeout once, then a success holding [data]. *)
Definition timeout_then (data : pyval) : server :=
  fun k =>
    match k with
    | O => NetRaises ReadTimeout "Read timed out"
    | _ => NetResponds (success_with data)
    end.

Definition intelligence_event : event :=
  EvSend "GET" "https://api.unbrowser.ai/v1/domains/example.com/intelligence"
    None 60.

(** The [data] of a preview whose plan has one fallback and whose list of
    alternative plans is empty, and the preview parsed from it. *)
Definition preview_payload : pydict :=
  [("schemaVersion", PStr "1.0");
   ("plan",
    PDict [("steps", PList []); ("tier", PStr "intelligence");
           ("reasoning", PStr "learned patterns");
           ("fallbackPlan",
            PDict [("steps", PList []); ("tier", PStr "playwright");
                   ("reasoning", PStr "full browser")])]);
   ("estimatedTime",
    PDict [("min", PInt 20); ("max", PInt 900); ("expected", PInt 45);
           ("breakdown", PDict [("intelligence", PInt 45)])]);
   ("confidence",
    PDict [("overall", PStr "high");
           ("factors",
            PDict [("hasLearnedPatterns", PBool true);
                   ("domainFamiliarity", PStr "medium");
                   ("apiDiscovered", PBool false);
                   ("requiresAuth", PBool false);
                   ("botDetectionLikely", PBool false);
                   ("skillsAvailable", PBool true);
                   ("patternCount", PInt 3);
                   ("patternSuccessRate", PInt 1)])]);
   ("alternativePlans", PList [])].

Definition preview : BrowsePreview.t :=
  {| BrowsePreview.schema_version := PStr "1.0";
     BrowsePreview.plan :=
       {| ExecutionPlan.steps := [];
          ExecutionPlan.tier := CostTier.INTELLIGENCE;
          ExecutionPlan.reasoning := PStr "learned patterns";
          ExecutionPlan.fallback_plan :=
            Some {| ExecutionPlan.steps := [];
                    ExecutionPlan.tier := CostTier.PLAYWRIGHT;
                    ExecutionPlan.reasoning := PStr "full browser";
                    ExecutionPlan.fallback_plan := None |} |};
     BrowsePreview.estimated_time :=
       {| TimeEstimate.min := PInt 20; TimeEstimate.max := PInt 900;
          TimeEstimate.expected := PInt 45;
          TimeEstimate.breakdown := PDict [("intelligence", PInt 45)] |};
     BrowsePreview.confidence :=
       {| ConfidenceLevel.overall := ConfidenceRating.HIGH;
          ConfidenceLevel.factors :=
            {| ConfidenceFactors.has_learned_patterns := PBool true;
               ConfidenceFactors.domain_familiarity :=
                 DomainFamiliarity.MEDIUM;
               ConfidenceFactors.api_discovered := PBool false;
               ConfidenceFactors.requires_auth := PBool false;
               ConfidenceFactors.bot_detection_likely := PBool false;
               ConfidenceFactors.skills_available := PBool true;
               ConfidenceFactors.pattern_count := PInt 3;
               ConfidenceFactors.pattern_success_rate := PInt 1 |} |};
     BrowsePreview.alternative_plans := None |}.

(** The call of [Samples.client.preview_browse("https://example.com")]. *)
Definition preview_event : event :=
  EvSend "POST" "https://api.unbrowser.ai/v1/browse/preview"
    (Some (PDict [("url", PStr "https://example.com")])) 60.

End MoreSamples.

(** * Properties *)

Import UnbrowserClient.

(** ** The event log *)

Lemma count_sends_app (l1 l2 : list event) :
  count_sends (l1 ++ l2) = (count_sends l1 + count_sends l2)%nat.
Proof.
  unfold count_sends. now rewrite filter_app, length_app.
Qed.

Lemma count_sends_retry_trace (ev : event) (n : nat) :
  is_send ev = true ->
  forall first, count_sends (retry_trace ev first n) = n.
Proof.
  intros Hev. unfold retry_trace.
  induction n as [|n IH]; intros first; simpl.
  - reflexivity.
  - change (ev :: EvSleep (2 ^ first)
              :: flat_map (fun a => [ev; EvSleep (2 ^ a)])
                   (range_from (first + 1) n))
      with ([ev; EvSleep (2 ^ first)]
              ++ flat_map (fun a => [ev; EvSleep (2 ^ a)])
                   (range_from (first + 1) n)).
    rewrite count_sends_app, IH. unfold count_sends. simpl.
    now rewrite Hev.
Qed.

Lemma send_event_is_send (c : t) (method path : string)
    (body : option pyval) :
  is_send (send_event c method path body) = true.
Proof. reflexivity. Qed.

Lemma count_sends_request_trace (ev : event) (n : nat) :
  is_send ev = true -> count_sends (request_trace ev n) = n.
Proof.
  intros Hev. destruct n as [|m]; simpl.
  - reflexivity.
  - rewrite count_sends_app, count_sends_retry_trace by assumption.
    unfold count_sends. simpl. rewrite Hev. simpl. lia.
Qed.

Lemma retry_trace_snoc (ev : event) (n : nat) :
  forall first,
    retry_trace ev first (S n)
    = retry_trace ev first n
        ++ [ev; EvSleep (2 ^ (first + Z.of_nat n))].
Proof.
  unfold retry_trace.
  induction n as [|n IH]; intros first.
  - simpl. now rewrite Z.add_0_r.
  - change (range_from first (S (S n)))
      with (first :: range_from (first + 1) (S n)).
    cbn [flat_map]. rewrite (IH (first + 1)).
    cbn [range_from flat_map].
    replace (first + 1 + Z.of_nat n) with (first + Z.of_nat (S n)) by lia.
    now rewrite <- !app_assoc.
Qed.

Lemma sleeps_app (l1 l2 : list event) :
  sleeps (l1 ++ l2) = sleeps l1 ++ sleeps l2.
Proof. unfold sleeps. apply flat_map_app. Qed.

Lemma sleeps_retry_trace (ev : event) (n : nat) :
  is_send ev = true ->
  forall first,
    sleeps (retry_trace ev first n) = map (Z.pow 2) (range_from first n).
Proof.
  intros Hev. unfold retry_trace.
  induction n as [|n IH]; intros first; simpl.
  - reflexivity.
  - destruct ev; try discriminate. simpl. f_equal. apply IH.
Qed.

Lemma sleeps_request_trace (ev : event) (n : nat) :
  is_send ev = true ->
  sleeps (request_trace ev n) = map (Z.pow 2) (range_from 1 (pred n)).
Proof.
  intros Hev. destruct n as [|m]; simpl.
  - reflexivity.
  - rewrite sleeps_app, sleeps_retry_trace by assumption.
    destruct ev; try discriminate. simpl. now rewrite app_nil_r.
Qed.

(** ** One pass of the retry loop *)

Section PassFacts.

Variable srv : server.
Variable c : t.
Variables method path : string.
Variable body : option pyval.
Hypothesis method_ok : supported method = true.

Let url : string := (base_url c ++ path)%string.
Let ev : event := send_event c method path body.

Lemma request_try_supported (log : list event) :
  request_try srv c method url body log
  = (attempt_result (srv (count_sends log)), log ++ [ev]).
Proof.
  unfold request_try, bind, session_send, lift, attempt_result, ev,
    send_event, url.
  unfold supported in method_ok.
  destruct (String.eqb method "GET") eqn:HG.
  - apply String.eqb_eq in HG. subst method. simpl.
    destruct (srv (count_sends log)); reflexivity.
  - destruct (String.eqb method "POST") eqn:HP.
    + apply String.eqb_eq in HP. subst method. simpl.
      destruct (srv (count_sends log)); reflexivity.
    + destruct (String.eqb method "DELETE") eqn:HD; [|discriminate].
      apply String.eqb_eq in HD. subst method. simpl.
      destruct (srv (count_sends log)); reflexivity.
Qed.

Lemma request_except_retry (attempts attempt : Z) (last : option exn)
    (e : exn) (log : list event) :
  retryable e = true -> attempt < attempts ->
  request_except attempts attempt last e log
  = ((Continue, Some e), log ++ [EvSleep (2 ^ attempt)]).
Proof.
  intros Hr Hlt. apply Z.ltb_lt in Hlt.
  unfold request_except.
  destruct e as [code m| | | |cls m| | | | |]; try discriminate.
  - simpl in *. apply negb_true_iff in Hr. rewrite Hr, Hlt. reflexivity.
  - destruct cls; try discriminate; simpl; rewrite Hlt; reflexivity.
Qed.

Lemma request_except_final (attempts attempt : Z) (last : option exn)
    (e : exn) (log : list event) :
  retryable e = false \/ attempts <= attempt ->
  exists last',
    request_except attempts attempt last e log
    = ((Raise (as_raised e), last'), log).
Proof.
  intros H. unfold request_except, as_raised.
  destruct e as [code m|m|m ra|m|cls m|d|k| | |]; simpl;
    try (eexists; reflexivity).
  - destruct (py_in_strs code NO_RETRY_CODES) eqn:Hin;
      [eexists; reflexivity|].
    destruct H as [H|H]; [simpl in H; rewrite Hin in H; discriminate|].
    apply Z.ltb_ge in H. rewrite H. eexists; reflexivity.
  - destruct cls; simpl; try (eexists; reflexivity);
      (destruct H as [H|H]; [discriminate|]);
      apply Z.ltb_ge in H; rewrite H; eexists; reflexivity.
Qed.

Lemma request_pass_supported (attempts attempt : Z) (last : option exn)
    (log : list event) :
  request_pass srv c attempts attempt method url body last log
  = match attempt_result (srv (count_sends log)) with
    | Returned v => ((Return v, last), log ++ [ev])
    | Raised e => request_except attempts attempt last e (log ++ [ev])
    end.
Proof.
  unfold request_pass. rewrite request_try_supported.
  destruct (attempt_result (srv (count_sends log))); reflexivity.
Qed.

Lemma request_loop_stop (attempts attempt : Z) (rest : list Z)
    (last : option exn) (log : list event) :
  stops attempts attempt (attempt_result (srv (count_sends log))) ->
  request_loop srv c attempts method url body (attempt :: rest) last log
  = (Completed (final_result (attempt_result (srv (count_sends log)))),
     log ++ [ev]).
Proof.
  intros Hs. cbn [request_loop]. rewrite request_pass_supported.
  destruct (attempt_result (srv (count_sends log))) as [v|e]; simpl.
  - reflexivity.
  - destruct (request_except_final attempts attempt last e (log ++ [ev]) Hs)
      as [last' ->].
    reflexivity.
Qed.

Lemma request_loop_retry (attempts attempt : Z) (rest : list Z)
    (last : option exn) (log : list event) (e : exn) :
  attempt_result (srv (count_sends log)) = Raised e ->
  retryable e = true -> attempt < attempts ->
  request_loop srv c attempts method url body (attempt :: rest) last log
  = request_loop srv c attempts method url body rest (Some e)
      (log ++ [ev; EvSleep (2 ^ attempt)]).
Proof.
  intros He Hr Hlt. cbn [request_loop]. rewrite request_pass_supported, He.
  rewrite request_except_retry by assumption.
  now rewrite <- app_assoc.
Qed.

End PassFacts.

(** ** The retry loop as a whole *)

Section LoopFacts.

Variable srv : server.
Variable c : t.
Variables method path : string.
Variable body : option pyval.
Hypothesis method_ok : supported method = true.

Let url : string := (base_url c ++ path)%string.
Let ev : event := send_event c method path body.
Let attempts : Z := attempts_of c.

(** [n] passes that fail and are retried carry the loop [n] attempts on. *)
Lemma request_loop_chain (n : nat) :
  forall (first : Z) (m : nat) (last : option exn) (log : list event),
    first + Z.of_nat n <= attempts ->
    (forall i, (i < n)%nat ->
       exists e, attempt_result (srv (count_sends log + i)%nat) = Raised e
                 /\ retryable e = true) ->
    exists last',
      request_loop srv c attempts method url body
        (range_from first (n + m)) last log
      = request_loop srv c attempts method url body
          (range_from (first + Z.of_nat n) m) last'
          (log ++ retry_trace ev first n).
Proof.
  induction n as [|n IH]; intros first m last log Hle Hall.
  - exists last. simpl. now rewrite Z.add_0_r, app_nil_r.
  - destruct (Hall 0%nat ltac:(lia)) as (e & He & Hr).
    rewrite Nat.add_0_r in He.
    cbn [Nat.add range_from].
    rewrite (request_loop_retry srv c method path body method_ok
               attempts first _ last log e He Hr) by lia.
    destruct (IH (first + 1) m (Some e)
                (log ++ [ev; EvSleep (2 ^ first)])) as (last' & Heq).
    + lia.
    + intros i Hi. rewrite count_sends_app.
      change (count_sends [ev; EvSleep (2 ^ first)]) with 1%nat.
      replace (count_sends log + 1 + i)%nat with (count_sends log + S i)%nat
        by lia.
      apply Hall. lia.
    + exists last'. fold url in Heq |- *. fold ev. rewrite Heq.
      replace (first + 1 + Z.of_nat n) with (first + Z.of_nat (S n)) by lia.
      f_equal. rewrite <- app_assoc. reflexivity.
Qed.

(** The loop of [_request] when the first [k] calls are retried and the
    loop stops at call [k]. *)
Lemma request_loop_stops_after (k : nat) :
  Z.of_nat k < attempts ->
  all_retried srv k ->
  stops attempts (Z.of_nat (S k)) (attempt_result (srv k)) ->
  request_loop srv c attempts method url body
    (py_range 1 (attempts + 1)) None []
  = (Completed (final_result (attempt_result (srv k))),
     request_trace ev (S k)).
Proof.
  intros Hk Hall Hstop.
  unfold py_range.
  replace (Z.to_nat (attempts + 1 - 1))
    with (k + S (Z.to_nat attempts - S k))%nat by lia.
  destruct (request_loop_chain k 1 (S (Z.to_nat attempts - S k)) None [])
    as (last' & Heq).
  - lia.
  - intros i Hi. simpl. apply Hall, Hi.
  - rewrite Heq. cbn [range_from app].
    assert (Hcount : count_sends (retry_trace ev 1 k) = k)
      by (apply count_sends_retry_trace; reflexivity).
    rewrite (request_loop_stop srv c method path body method_ok).
    + rewrite Hcount. reflexivity.
    + rewrite Hcount.
      replace (1 + Z.of_nat k) with (Z.of_nat (S k)) by lia.
      exact Hstop.
Qed.

Lemma request_stops_after (k : nat) :
  Z.of_nat k < attempts ->
  all_retried srv k ->
  stops attempts (Z.of_nat (S k)) (attempt_result (srv k)) ->
  _request srv c method path body []
  = (final_result (attempt_result (srv k)), request_trace ev (S k)).
Proof.
  intros Hk Hall Hstop. unfold _request.
  fold attempts url.
  rewrite (request_loop_stops_after k Hk Hall Hstop). reflexivity.
Qed.

(** Some call within the budget stops the loop. *)
Lemma stopping_call_exists (n : nat) :
  forall k,
    Z.of_nat k + Z.of_nat n = attempts -> (0 < n)%nat ->
    all_retried srv k ->
    exists j,
      (k <= j)%nat /\ Z.of_nat j < attempts /\ all_retried srv j
      /\ stops attempts (Z.of_nat (S j)) (attempt_result (srv j)).
Proof.
  induction n as [|n IH]; intros k Hsum Hpos Hall; [lia|].
  destruct (attempt_result (srv k)) as [v|e] eqn:Hres.
  - exists k. rewrite Hres. simpl. repeat split; [lia|lia|assumption].
  - destruct (retryable e) eqn:Hr.
    + destruct n as [|n'].
      * exists k. rewrite Hres. simpl.
        repeat split; [lia|lia|assumption|right; lia].
      * destruct (IH (S k)) as (j & Hj1 & Hj2 & Hj3 & Hj4); [lia|lia| |].
        -- intros i Hi. destruct (Nat.eq_dec i k) as [->|Hne].
           ++ exists e. split; assumption.
           ++ apply Hall. lia.
        -- exists j. repeat split; [lia|assumption|assumption|assumption].
    + exists k. rewrite Hres. simpl.
      repeat split; [lia|lia|assumption|left; assumption].
Qed.

(** With at least one attempt, the loop ends inside a pass: its exit is
    [Completed], after [j + 1] calls for some [j] within the budget. *)
Lemma request_loop_completes :
  1 <= attempts ->
  exists j,
    Z.of_nat j < attempts /\ all_retried srv j
    /\ request_loop srv c attempts method url body
         (py_range 1 (attempts + 1)) None []
       = (Completed (final_result (attempt_result (srv j))),
          request_trace ev (S j)).
Proof.
  intros Hone.
  destruct (stopping_call_exists (Z.to_nat attempts) 0%nat)
    as (j & _ & Hj & Hall & Hstop).
  - lia.
  - lia.
  - intros i Hi. lia.
  - exists j. repeat split; try assumption.
    apply request_loop_stops_after; assumption.
Qed.

(** With no attempt to make, the loop body never runs. *)
Lemma request_loop_no_attempt (log : list event) :
  attempts <= 0 ->
  request_loop srv c attempts method url body
    (py_range 1 (attempts + 1)) None log
  = (Exhausted None, log).
Proof.
  intros Hle. unfold py_range.
  replace (Z.to_nat (attempts + 1 - 1)) with 0%nat by lia.
  reflexivity.
Qed.

End LoopFacts.

(** ** What a response is turned into *)

Lemma read_response_envelope (r : Response) :
  reads_envelope r = true ->
  read_response r
  = (let? result := response_json r in
     let? success := py_get result "success" (PBool false) in
     if negb (truthy success) then
       let? error := py_get result "error" (PDict []) in
       let? code := py_get error "code" (PStr "UNKNOWN_ERROR") in
       let? message := py_get error "message" (PStr "Unknown error") in
       Raised (UnbrowserError code message)
     else py_get result "data" PNone).
Proof.
  unfold reads_envelope, read_response. intros H.
  apply andb_true_iff in H. destruct H as [H H403].
  apply andb_true_iff in H. destruct H as [H429 H401].
  apply negb_true_iff in H429, H401, H403.
  now rewrite H429, H401, H403.
Qed.

Lemma py_get_lookup_default (d : pydict) (k : string) (default : pyval) :
  py_get (PDict d) k default = Returned (lookup_default d k default).
Proof.
  unfold py_get, lookup_default. destruct (dict_lookup d k); reflexivity.
Qed.


Lemma read_response_success_without_data (r : Response) :
  success_without_data r -> read_response r = Returned PNone.
Proof.
  intros (Henv & d & Hbody & Hsucc & Hdata).
  rewrite (read_response_envelope r Henv).
  unfold response_json. rewrite Hbody. cbn [obind].
  rewrite py_get_lookup_default. cbn [obind]. rewrite Hsucc. cbn [negb].
  unfold py_get. now rewrite Hdata.
Qed.

Lemma read_response_429 (r : Response) :
  status_code r = 429 ->
  read_response r
  = match headers_get (headers r) "Retry-After" with
    | None => Raised (RateLimitError "Daily request limit exceeded" None)
    | Some s =>
        if String.eqb s "" then
          Raised (RateLimitError "Daily request limit exceeded" None)
        else
          match py_int s with
          | Some n =>
              Raised (RateLimitError "Daily request limit exceeded" (Some n))
          | None => Raised (ValueError (InvalidIntLiteral s))
          end
    end.
Proof.
  intros H. unfold read_response. rewrite H. cbn [Z.eqb Pos.eqb].
  destruct (headers_get (headers r) "Retry-After") as [s|]; [|reflexivity].
  destruct (String.eqb s ""); cbn [negb]; [reflexivity|].
  unfold int_of_str. destruct (py_int s); reflexivity.
Qed.


(** ** Construction of the client *)

(** C6. A key that starts with [ub_] gives a fully built client holding
    that key; any other key, the empty one included, raises
    [ValidationError].  In both cases the event log is left as it was: no
    call is made. *)
Theorem init_validates_api_key_prefix (key : string)
    (base_url : option string) (timeout : option Z) (retry : option bool)
    (max_retries : option Z) (log : list event) :
  match __init__ key base_url timeout retry max_retries log with
  | (Returned client, log') =>
      String.prefix "ub_" key = true /\ api_key client = key /\ log' = log
  | (Raised e, log') =>
      String.prefix "ub_" key = false /\ is_ValidationError e = true
      /\ log' = log
  end.
Proof.
  unfold __init__, raise, ret.
  destruct (String.eqb key "") eqn:Hempty.
  - apply String.eqb_eq in Hempty. subst key. cbn. auto.
  - destruct (String.prefix "ub_" key) eqn:Hp; cbn; auto.
Qed.

(** ** Timeouts and connection failures *)

Lemma timeouts_all_retried (srv : server) (k : nat) :
  (forall i, (i < k)%nat ->
     exists cls msg,
       srv i = NetRaises cls msg
       /\ is_Timeout (RequestsError cls msg) = true) ->
  all_retried srv k.
Proof.
  intros H i Hi. destruct (H i Hi) as (cls & msg & Hs & Ht).
  exists (RequestsError cls msg). rewrite Hs. split; [reflexivity|].
  destruct cls; try discriminate; reflexivity.
Qed.

(** C1, as the code has it.  After [k] attempts that timed out, with an
    attempt still left: a connection failure that is not a timeout is
    raised at once as a TIMEOUT error, without a further attempt; a timeout
    on the last attempt of the budget is raised as a TIMEOUT error; a
    success is returned, after [k + 1] calls, which is within the budget.
    The log shows that each retried attempt [j] was followed by a sleep of
    [2 ^ j]. *)
Theorem timeout_retried_connection_failure_raised (srv : server) (c : t)
    (method path : string) (body : option pyval) (k : nat) :
  supported method = true ->
  Z.of_nat k < attempts_of c ->
  (forall i, (i < k)%nat ->
     exists cls msg,
       srv i = NetRaises cls msg
       /\ is_Timeout (RequestsError cls msg) = true) ->
  let ev := send_event c method path body in
  (forall msg,
     srv k = NetRaises ConnectionError msg ->
     _request srv c method path body []
     = (Raised (UnbrowserError (PStr "TIMEOUT") (PStr msg)),
        request_trace ev (S k)))
  /\ (forall cls msg,
        srv k = NetRaises cls msg ->
        is_Timeout (RequestsError cls msg) = true ->
        Z.of_nat (S k) = attempts_of c ->
        _request srv c method path body []
        = (Raised (UnbrowserError (PStr "TIMEOUT") (PStr msg)),
           request_trace ev (S k)))
  /\ (forall r v,
        srv k = NetResponds r ->
        read_response r = Returned v ->
        _request srv c method path body []
        = (Returned v, request_trace ev (S k))
        /\ Z.of_nat (count_sends (request_trace ev (S k))) <= attempts_of c).
Proof.
  intros Hm Hk Hto ev.
  pose proof (timeouts_all_retried srv k Hto) as Hall.
  split; [|split].
  - intros msg Hs.
    rewrite (request_stops_after srv c method path body Hm k Hk Hall).
    + now rewrite Hs.
    + rewrite Hs. simpl. now left.
  - intros cls msg Hs Ht Hlast.
    rewrite (request_stops_after srv c method path body Hm k Hk Hall).
    + rewrite Hs. destruct cls; try discriminate; reflexivity.
    + rewrite Hs. simpl. right. lia.
  - intros r v Hs Hv. split.
    + rewrite (request_stops_after srv c method path body Hm k Hk Hall).
      * rewrite Hs. simpl. now rewrite Hv.
      * rewrite Hs. simpl. now rewrite Hv.
    + rewrite count_sends_request_trace by reflexivity. lia.
Qed.

Lemma timeout_retried_witness :
  _request Samples.timeout_then_ok Samples.client "GET" "/v1/usage" None []
  = (Returned (PDict [("limits", PDict [("daily", PInt 1000)])]),
     [Samples.usage_event; EvSleep 2; Samples.usage_event])
  /\ Z.of_nat 2 <= attempts_of Samples.client.
Proof.
  refine (proj2 (proj2
            (timeout_retried_connection_failure_raised
               Samples.timeout_then_ok Samples.client "GET" "/v1/usage" None
               1%nat eq_refl eq_refl _))
            Samples.usage_ok _ eq_refl eq_refl).
  intros i Hi. exists ReadTimeout, "Read timed out".
  destruct i as [|i]; [split; reflexivity|].
  exfalso. apply (Nat.nlt_0_r i). apply (proj2 (Nat.succ_lt_mono i 0) Hi).
Defined.

(** C1, as stated, fails: the connection is refused on the first attempt,
    the second attempt would succeed and two attempts of the budget of
    three remain, yet the request ends after one call with a TIMEOUT
    error. *)
Lemma connection_failure_not_retried :
  attempts_of Samples.client = 3
  /\ Samples.refused_then_ok 0%nat
     = NetRaises ConnectionError "Connection refused"
  /\ attempt_result (Samples.refused_then_ok 1%nat)
     = Returned (PDict [("limits", PDict [("daily", PInt 1000)])])
  /\ _request Samples.refused_then_ok Samples.client "GET" "/v1/usage" None []
     = (Raised (UnbrowserError (PStr "TIMEOUT") (PStr "Connection refused")),
        [Samples.usage_event])
  /\ ~ (exists v log,
          _request Samples.refused_then_ok Samples.client "GET" "/v1/usage"
            None []
          = (Returned v, log)).
Proof.
  repeat split. intros (v & log & H). discriminate H.
Qed.

(** ** HTTP 429 *)

Lemma py_int_empty : py_int "" = None.
Proof. reflexivity. Qed.



(** C2.  The failing input: a 429 response whose [Retry-After] header
    holds an HTTP date.  [int] rejects the value while the
    [RateLimitError] is being built, and no clause catches its
    [ValueError]: the request ends with it after its single call, and no
    [RateLimitError] is raised. *)
Lemma rate_limit_http_date_raises_value_error :
  let r :=
    Samples.json_response 429
      [("Retry-After", "Wed, 21 Oct 2015 07:28:00 GMT")]
      (Samples.error_envelope "RATE_LIMITED" "Limit exceeded") in
  status_code r = 429
  /\ _request (Samples.always r) Samples.client "GET" "/v1/usage" None []
     = (Raised (ValueError
                  (InvalidIntLiteral "Wed, 21 Oct 2015 07:28:00 GMT")),
        [Samples.usage_event])
  /\ is_RateLimitError
       (ValueError (InvalidIntLiteral "Wed, 21 Oct 2015 07:28:00 GMT"))
     = false.
Proof. repeat split. Qed.



(** C5.  The failing input: a 429 response with [Retry-After: 1.5].  The
    hint is not dropped: the request raises the [ValueError] of [int], and
    no [RateLimitError]. *)
Lemma rate_limit_non_integer_hint_not_dropped :
  let r := Samples.json_response 429 [("Retry-After", "1.5")] PNone in
  py_int "1.5" = None
  /\ fst (_request (Samples.always r) Samples.client "GET" "/v1/usage" None [])
     = Raised (ValueError (InvalidIntLiteral "1.5"))
  /\ fst (_request (Samples.always r) Samples.client "GET" "/v1/usage" None [])
     <> Raised (RateLimitError "Daily request limit exceeded" None).
Proof. repeat split. discriminate. Qed.

(** ** Non-success envelopes *)


Section EnvelopeFacts.

Variable srv : server.
Variable c : t.
Variables method path : string.
Variable body : option pyval.
Hypothesis method_ok : supported method = true.


End EnvelopeFacts.



(** C3.  The failing input: a response with status 200 whose body is the
    envelope [{"success": false, "error": null}].  [result.get("error", {})]
    gives [None], the default being that of an absent member only, and
    [error.get] raises [AttributeError], which no clause catches: the
    request ends with it after its single call, and no service error is
    raised. *)
Lemma null_error_member_raises_attribute_error :
  let r :=
    Samples.json_response 200 []
      (PDict [("success", PBool false); ("error", PNone)]) in
  reads_envelope r = true
  /\ _request (Samples.always r) Samples.client "GET" "/v1/usage" None []
     = (Raised AttributeError, [Samples.usage_event])
  /\ is_UnbrowserError AttributeError = false.
Proof. repeat split. Qed.

(** ** Success envelopes without data *)

(** C10.  A response that [_request] reads as an envelope, with a true
    [success] member and no [data] member, makes [_request] return [None];
    [get_usage] and [list_workflows] hand that [None] to their caller. *)
Theorem success_without_data_returns_none (srv : server) (c : t) (k : nat)
    (r : Response) :
  Z.of_nat k < attempts_of c ->
  all_retried srv k ->
  srv k = NetResponds r ->
  success_without_data r ->
  (forall method path body,
     supported method = true ->
     _request srv c method path body []
     = (Returned PNone, request_trace (send_event c method path body) (S k)))
  /\ fst (get_usage srv c []) = Returned PNone
  /\ (forall domain tags,
        fst (list_workflows srv c domain tags []) = Returned PNone).
Proof.
  intros Hk Hall Hs Hok.
  assert (Hreq : forall method path body,
             supported method = true ->
             _request srv c method path body []
             = (Returned PNone,
                request_trace (send_event c method path body) (S k))).
  { intros method path body Hm.
    rewrite (request_stops_after srv c method path body Hm k Hk Hall).
    - rewrite Hs. cbn [attempt_result].
      now rewrite (read_response_success_without_data r Hok).
    - rewrite Hs. cbn [attempt_result].
      now rewrite (read_response_success_without_data r Hok). }
  split; [exact Hreq|]. split.
  - unfold get_usage. now rewrite Hreq.
  - intros domain tags. unfold list_workflows. now rewrite Hreq.
Qed.

Lemma success_without_data_witness :
  fst (get_usage
         (Samples.always
            (Samples.json_response 200 [] (PDict [("success", PBool true)])))
         Samples.client [])
  = Returned PNone.
Proof.
  refine (proj1 (proj2
            (success_without_data_returns_none
               (Samples.always
                  (Samples.json_response 200 []
                     (PDict [("success", PBool true)])))
               Samples.client 0%nat _ eq_refl _ eq_refl _))).
  - intros i Hi. exfalso. exact (Nat.nlt_0_r i Hi).
  - split; [reflexivity|].
    exists [("success", PBool true)]. repeat split.
Defined.

(** ** Attempt budget and backoff *)

Lemma nth_error_range_from (n : nat) :
  forall first i,
    (i < n)%nat -> nth_error (range_from first n) i = Some (first + Z.of_nat i).
Proof.
  induction n as [|n IH]; intros first i Hi; [lia|].
  destruct i as [|i]; simpl.
  - now rewrite Z.add_0_r.
  - rewrite IH by lia. f_equal. lia.
Qed.

Lemma request_log_shape (srv : server) (c : t) (method path : string)
    (body : option pyval) :
  supported method = true ->
  exists n,
    snd (_request srv c method path body [])
    = request_trace (send_event c method path body) n
    /\ Z.of_nat n <= Z.max 0 (attempts_of c)
    /\ (1 <= attempts_of c -> (1 <= n)%nat).
Proof.
  intros Hm.
  destruct (Z_le_gt_dec 1 (attempts_of c)) as [Hone|Hnone].
  - destruct (request_loop_completes srv c method path body Hm Hone)
      as (j & Hj & _ & Hloop).
    exists (S j). unfold _request. rewrite Hloop. cbn [snd].
    split; [reflexivity|]. split; lia.
  - exists 0%nat. unfold _request.
    rewrite request_loop_no_attempt by lia. cbn [snd request_trace].
    split; [reflexivity|]. split; lia.
Qed.

(** The call that ends a request: the calls before it failed and were
    retried, and the loop stops at it. *)
Lemma request_last_call (srv : server) (c : t) (method path : string)
    (body : option pyval) :
  supported method = true ->
  1 <= attempts_of c ->
  exists j,
    Z.of_nat j < attempts_of c
    /\ all_retried srv j
    /\ stops (attempts_of c) (Z.of_nat (S j)) (attempt_result (srv j))
    /\ snd (_request srv c method path body [])
       = request_trace (send_event c method path body) (S j).
Proof.
  intros Hm Hone.
  destruct (stopping_call_exists srv c (Z.to_nat (attempts_of c)) 0%nat)
    as (j & _ & Hj & Hall & Hstop).
  - lia.
  - lia.
  - intros i Hi. lia.
  - exists j. repeat split; try assumption.
    now rewrite (request_stops_after srv c method path body Hm j Hj Hall
                   Hstop).
Qed.

(** A call that stops the loop is not one of the retried calls. *)
Lemma retried_before_stop (srv : server) (attempts : Z) (j k : nat) :
  stops attempts (Z.of_nat (S j)) (attempt_result (srv j)) ->
  all_retried srv k -> Z.of_nat k < attempts -> (k <= j)%nat.
Proof.
  intros Hstop Hall Hk.
  destruct (Nat.le_gt_cases k j) as [Hle|Hgt]; [exact Hle|exfalso].
  destruct (Hall j Hgt) as (e & He & Hr).
  rewrite He in Hstop. cbn [stops] in Hstop.
  destruct Hstop as [Hstop|Hstop]; [congruence|lia].
Qed.

(** C4.  The number of attempts is [max_retries] when [retry] is set and 1
    otherwise; [max_retries] is 3 unless the caller gives it.  A request
    makes at most that many calls, and exactly one call when [retry] is
    off.  It makes no fewer calls than the server forces: as long as the
    calls fail with a failure that is retried and attempts remain, another
    call follows, so that a server whose every answer is such a failure is
    called exactly as many times as there are attempts; the last call is
    the first that ends otherwise or that uses up the attempts.  The log
    is a call, a sleep of [2 ^ 1], a call, a sleep of [2 ^ 2], and so on
    up to the last call: the sleep that follows the failed attempt [k]
    lasts [2 ^ k]. *)
Theorem retry_budget_and_backoff (srv : server) (c : t)
    (method path : string) (body : option pyval) :
  supported method = true ->
  let log := snd (_request srv c method path body []) in
  attempts_of c = (if retry c then max_retries c else 1)
  /\ DEFAULT_MAX_RETRIES = 3
  /\ (forall key l client,
        __init__ key None None None None l = (Returned client, l) ->
        retry client = true /\ max_retries client = 3)
  /\ exists n,
       log = request_trace (send_event c method path body) n
       /\ count_sends log = n
       /\ Z.of_nat n <= Z.max 0 (attempts_of c)
       /\ (retry c = true -> Z.of_nat n <= Z.max 0 (max_retries c))
       /\ (retry c = false -> n = 1%nat)
       /\ (1 <= attempts_of c -> (1 <= n)%nat)
       /\ (forall k,
             Z.of_nat k < attempts_of c -> all_retried srv k -> (k < n)%nat)
       /\ ((1 <= n)%nat ->
           all_retried srv (pred n)
           /\ stops (attempts_of c) (Z.of_nat n)
                (attempt_result (srv (pred n))))
       /\ ((forall i,
              exists e,
                attempt_result (srv i) = Raised e /\ retryable e = true) ->
           Z.of_nat n = Z.max 0 (attempts_of c))
       /\ sleeps log = map (Z.pow 2) (range_from 1 (pred n))
       /\ (forall k,
             (1 <= k)%nat -> (k < n)%nat ->
             nth_error (sleeps log) (pred k) = Some (2 ^ Z.of_nat k)).
Proof.
  intros Hm log.
  split; [reflexivity|]. split; [reflexivity|]. split.
  - intros key l client. unfold __init__, raise, ret.
    destruct (String.eqb key ""); [discriminate|].
    destruct (negb (String.prefix "ub_" key)); [discriminate|].
    intros H. injection H as <-. split; reflexivity.
  - assert (Hshape : exists n,
               log = request_trace (send_event c method path body) n
               /\ Z.of_nat n <= Z.max 0 (attempts_of c)
               /\ (1 <= attempts_of c -> (1 <= n)%nat)
               /\ (forall k,
                     Z.of_nat k < attempts_of c -> all_retried srv k ->
                     (k < n)%nat)
               /\ ((1 <= n)%nat ->
                   all_retried srv (pred n)
                   /\ stops (attempts_of c) (Z.of_nat n)
                        (attempt_result (srv (pred n))))).
    { destruct (Z_le_gt_dec 1 (attempts_of c)) as [Hone|Hnone].
      - destruct (request_last_call srv c method path body Hm Hone)
          as (j & Hj & Hall & Hstop & Hlog).
        exists (S j). split; [exact Hlog|]. split; [lia|].
        split; [intros _; lia|]. split.
        + intros k Hk Hk'. apply Nat.lt_succ_r.
          now apply (retried_before_stop srv (attempts_of c) j k).
        + intros _. cbn [pred]. split; assumption.
      - exists 0%nat. split.
        + unfold log, _request.
          now rewrite request_loop_no_attempt by lia.
        + split; [lia|]. split; [lia|]. split; [intros k Hk; lia|].
          intros H. inversion H. }
    destruct Hshape as (n & Hlog & Hle & Hone & Hlow & Hlast).
    assert (Hsleeps : sleeps log = map (Z.pow 2) (range_from 1 (pred n))).
    { rewrite Hlog. apply sleeps_request_trace. reflexivity. }
    exists n. split; [exact Hlog|]. split.
    { rewrite Hlog. apply count_sends_request_trace. reflexivity. }
    split; [exact Hle|]. split.
    { intros Hr. unfold attempts_of in Hle. now rewrite Hr in Hle. }
    split.
    { intros Hr. unfold attempts_of in Hle, Hone. rewrite Hr in Hle, Hone.
      specialize (Hone ltac:(lia)). lia. }
    split; [exact Hone|]. split; [exact Hlow|]. split; [exact Hlast|].
    split.
    { intros Hfail.
      destruct (Z_le_gt_dec 1 (attempts_of c)) as [Hge|Hlt]; [|lia].
      assert (Hk : (Z.to_nat (attempts_of c) - 1 < n)%nat).
      { apply Hlow; [lia|]. intros i _. apply Hfail. }
      lia. }
    split; [exact Hsleeps|].
    intros k Hk1 Hk2. rewrite Hsleeps, nth_error_map.
    rewrite nth_error_range_from by lia. cbn [option_map].
    f_equal. f_equal. lia.
Qed.

Lemma retry_budget_witness :
  snd (_request Samples.always_timeout Samples.client "GET" "/v1/usage"
         None [])
  = [Samples.usage_event; EvSleep 2; Samples.usage_event; EvSleep 4;
     Samples.usage_event].
Proof.
  destruct (proj2 (proj2 (proj2
              (retry_budget_and_backoff Samples.always_timeout Samples.client
                 "GET" "/v1/usage" None eq_refl))))
    as (n & Hlog & _ & _ & _ & _ & _ & _ & _ & Hall & _).
  assert (Hn : n = 3%nat).
  { apply Nat2Z.inj. rewrite Hall; [reflexivity|].
    intros i. exists (RequestsError ReadTimeout "Read timed out").
    split; reflexivity. }
  rewrite Hlog, Hn. reflexivity.
Defined.

(** ** Exhausted budget *)

Lemma request_loop_unsupported (srv : server) (c : t)
    (method url : string) (body : option pyval) (attempts attempt : Z)
    (rest : list Z) (last : option exn) (log : list event) :
  supported method = false ->
  exists e,
    request_loop srv c attempts method url body (attempt :: rest) last log
    = (Completed (Raised e), log).
Proof.
  unfold supported. intros H.
  apply orb_false_iff in H. destruct H as [H HD].
  apply orb_false_iff in H. destruct H as [HG HP].
  eexists. cbn [request_loop]. unfold request_pass, request_try, bind.
  rewrite HG, HP, HD. unfold raise. cbn. reflexivity.
Qed.

(** C7.  With at least one attempt to make, the loop always ends inside
    one of its passes, by a return or a raise, so the statements after
    the loop, the unknown-error fallback among them, are not reached; they
    are reached, and raise the unknown error, only when there is no attempt
    to make.  When every attempt of the budget failed and was retried, the
    error raised is that of the last attempt: a service error as it was
    observed, a timeout as a TIMEOUT error with its message. *)
Theorem exhausted_budget_raises_last_error (srv : server) (c : t)
    (method path : string) (body : option pyval) :
  (1 <= attempts_of c ->
   exists result log,
     request_loop srv c (attempts_of c) method (base_url c ++ path)%string
       body (py_range 1 (attempts_of c + 1)) None []
     = (Completed result, log))
  /\ (attempts_of c <= 0 ->
      _request srv c method path body []
      = (Raised (UnbrowserError (PStr "UNKNOWN_ERROR") (PStr "Request failed")),
         []))
  /\ (supported method = true ->
      forall n,
        Z.of_nat (S n) = attempts_of c ->
        all_retried srv n ->
        (forall code message,
           attempt_result (srv n) = Raised (UnbrowserError code message) ->
           _request srv c method path body []
           = (Raised (UnbrowserError code message),
              request_trace (send_event c method path body) (S n)))
        /\ (forall cls msg,
              srv n = NetRaises cls msg ->
              is_Timeout (RequestsError cls msg) = true ->
              _request srv c method path body []
              = (Raised (UnbrowserError (PStr "TIMEOUT") (PStr msg)),
                 request_trace (send_event c method path body) (S n)))).
Proof.
  split; [|split].
  - intros Hone.
    destruct (supported method) eqn:Hm.
    + destruct (request_loop_completes srv c method path body Hm Hone)
        as (j & _ & _ & Hloop).
      rewrite Hloop. eexists. eexists. reflexivity.
    + unfold py_range.
      replace (Z.to_nat (attempts_of c + 1 - 1))
        with (S (Z.to_nat (attempts_of c) - 1)) by lia.
      cbn [range_from].
      destruct (request_loop_unsupported srv c method
                  (base_url c ++ path)%string body (attempts_of c) 1
                  (range_from (1 + 1) (Z.to_nat (attempts_of c) - 1))
                  None [] Hm) as (e & ->).
      eexists. eexists. reflexivity.
  - intros Hnone. unfold _request.
    destruct (supported method) eqn:Hm.
    + now rewrite request_loop_no_attempt.
    + unfold py_range.
      replace (Z.to_nat (attempts_of c + 1 - 1)) with 0%nat by lia.
      reflexivity.
  - intros Hm n Hn Hall. split.
    + intros code message Hres.
      rewrite (request_stops_after srv c method path body Hm n) ;
        [now rewrite Hres|lia|assumption|].
      rewrite Hres. right. lia.
    + intros cls msg Hs Ht.
      rewrite (request_stops_after srv c method path body Hm n);
        [|lia|assumption|].
      * rewrite Hs. destruct cls; try discriminate; reflexivity.
      * rewrite Hs. right. lia.
Qed.

Lemma exhausted_budget_witness :
  _request Samples.always_timeout Samples.client "GET" "/v1/usage" None []
  = (Raised (UnbrowserError (PStr "TIMEOUT") (PStr "Read timed out")),
     [Samples.usage_event; EvSleep 2; Samples.usage_event; EvSleep 4;
      Samples.usage_event]).
Proof.
  refine (proj2 (proj2 (proj2
            (exhausted_budget_raises_last_error Samples.always_timeout
               Samples.client "GET" "/v1/usage" None))
            eq_refl 2%nat eq_refl _)
            ReadTimeout "Read timed out" eq_refl eq_refl).
  intros i Hi. exists (RequestsError ReadTimeout "Read timed out").
  split; reflexivity.
Defined.

(** ** Request payloads *)

Lemma dict_lookup_setitem (d : pydict) (k k' : string) (v : pyval) :
  dict_lookup (dict_setitem d k v) k'
  = if String.eqb k k' then Some v else dict_lookup d k'.
Proof.
  induction d as [|[k0 v0] d IH]; simpl.
  - reflexivity.
  - destruct (String.eqb k0 k) eqn:H0; simpl.
    + apply String.eqb_eq in H0. subst k0.
      destruct (String.eqb k k'); reflexivity.
    + destruct (String.eqb k0 k') eqn:H1.
      * apply String.eqb_eq in H1. subst k0.
        rewrite String.eqb_sym in H0. now rewrite H0.
      * exact IH.
Qed.

Lemma null_free_setitem (d : pydict) (k : string) (v : pyval) :
  null_free d -> is_None v = false -> has_null_entry v = false ->
  null_free (dict_setitem d k v).
Proof.
  unfold null_free. intros Hd Hv Hn.
  induction d as [|[k0 v0] d IH]; simpl in *.
  - now rewrite Hv, Hn.
  - apply orb_false_iff in Hd. destruct Hd as [H0 Hd].
    destruct (String.eqb k0 k); simpl.
    + now rewrite Hv, Hn, Hd.
    + rewrite H0. simpl. now apply IH.
Qed.

Lemma lacks_setitem (k k' : string) (v : pyval) (d : pydict) :
  String.eqb k' k = false -> lacks k d -> lacks k (dict_setitem d k' v).
Proof.
  unfold lacks. intros Hk Hd. now rewrite dict_lookup_setitem, Hk.
Qed.

(** Turn the chain of [let result := ...] of a [to_dict] into named
    intermediate dicts. *)
Ltac name_lets :=
  repeat match goal with
  | |- ?P (let x := ?v in @?b x) =>
      let r := fresh "result" in
      pose (r := v); change (P (b r)); cbv beta
  end.

Ltac split_branches P :=
  repeat match goal with
  | |- P (if ?b then _ else _) => destruct b
  | |- P (match ?x with _ => _ end) => destruct x
  end.

(** Carry a property of dicts through the named intermediate dicts, with
    [close] proving it across one [dict_setitem]. *)
Ltac through_lets P close :=
  repeat match goal with
  | r := _ : pydict |- _ =>
      first [ assert (P r)
                by (unfold r; split_branches P;
                    first [assumption | reflexivity | close])
            | fail 1 ];
      clearbody r
  | r := _ : list (string * pyval) |- _ =>
      first [ assert (P r)
                by (unfold r; split_branches P;
                    first [assumption | reflexivity | close])
            | fail 1 ];
      clearbody r
  end.

Ltac lacks_in_to_dict H :=
  cbv beta delta [BrowseOptions.to_dict SessionData.to_dict];
  rewrite H;
  name_lets;
  match goal with
  | |- lacks ?k _ =>
      through_lets (lacks k)
        ltac:(apply lacks_setitem; [reflexivity|assumption])
  end;
  assumption.

Lemma browse_options_null_free (o : BrowseOptions.t) :
  null_free (BrowseOptions.to_dict o).
Proof.
  cbv beta delta [BrowseOptions.to_dict]. name_lets.
  through_lets null_free
    ltac:(apply null_free_setitem; [assumption|reflexivity|reflexivity]).
  assumption.
Qed.

Lemma cookie_dict_null (c : Cookie.t) :
  Cookie.well_typed c = true ->
  has_null_entry (SessionData.cookie_dict c)
  = is_None (Cookie.domain c) || is_None (Cookie.path c).
Proof.
  destruct c as [n v d p]. unfold Cookie.well_typed. cbn.
  destruct n, v, d, p; cbn; try discriminate; reflexivity.
Qed.

Lemma cookie_dicts_null (cs : list Cookie.t) :
  forallb Cookie.well_typed cs = true ->
  existsb has_null_entry (map SessionData.cookie_dict cs)
  = existsb (fun c => is_None (Cookie.domain c) || is_None (Cookie.path c)) cs.
Proof.
  induction cs as [|c cs IH]; intros H.
  - reflexivity.
  - cbn [forallb] in H. apply andb_true_iff in H. destruct H as [Hc Hcs].
    cbn [map existsb]. rewrite (cookie_dict_null c Hc), (IH Hcs).
    reflexivity.
Qed.

Lemma local_storage_null_free (kvs : list (string * string)) :
  existsb (fun kv : string * pyval =>
             match kv with (_, x) => is_None x || has_null_entry x end)
    (map (fun kv => (fst kv, PStr (snd kv))) kvs)
  = false.
Proof.
  induction kvs as [|[k v] kvs IH]; [reflexivity|]. cbn. exact IH.
Qed.

(** C8, as the code has it.  In the payload of [BrowseOptions] each of the
    five optional fields that is [None] has no key, and no entry at any
    depth is null.  In the payload of [SessionData] an empty [cookies] or
    [local_storage] has no key and no top-level entry is null; but every
    cookie is written with its four keys, so that, for cookies typed as
    the class declares, the payload holds a null exactly when some cookie
    has no domain or no path. *)
Theorem to_dict_omits_unset_fields :
  (forall o : BrowseOptions.t,
     let d := BrowseOptions.to_dict o in
     (BrowseOptions.wait_for_selector o = None ->
      dict_lookup d "waitForSelector" = None)
     /\ (BrowseOptions.max_chars o = None -> dict_lookup d "maxChars" = None)
     /\ (BrowseOptions.max_latency_ms o = None ->
         dict_lookup d "maxLatencyMs" = None)
     /\ (BrowseOptions.max_cost_tier o = None ->
         dict_lookup d "maxCostTier" = None)
     /\ (BrowseOptions.verify o = None -> dict_lookup d "verify" = None)
     /\ has_null_entry (PDict d) = false)
  /\ (forall s : SessionData.t,
        let d := SessionData.to_dict s in
        (SessionData.cookies s = [] -> dict_lookup d "cookies" = None)
        /\ (SessionData.local_storage s = [] ->
            dict_lookup d "localStorage" = None)
        /\ (forall k v, In (k, v) d -> v <> PNone)
        /\ (SessionData.cookies s <> [] ->
            dict_lookup d "cookies"
            = Some (PList (map SessionData.cookie_dict
                             (SessionData.cookies s))))
        /\ (forallb Cookie.well_typed (SessionData.cookies s) = true ->
            has_null_entry (PDict d)
            = existsb (fun c => is_None (Cookie.domain c)
                                || is_None (Cookie.path c))
                (SessionData.cookies s))).
Proof.
  split.
  - intros o d. subst d.
    repeat split.
    + intros H. change (lacks "waitForSelector" (BrowseOptions.to_dict o)).
      lacks_in_to_dict H.
    + intros H. change (lacks "maxChars" (BrowseOptions.to_dict o)).
      lacks_in_to_dict H.
    + intros H. change (lacks "maxLatencyMs" (BrowseOptions.to_dict o)).
      lacks_in_to_dict H.
    + intros H. change (lacks "maxCostTier" (BrowseOptions.to_dict o)).
      lacks_in_to_dict H.
    + intros H. change (lacks "verify" (BrowseOptions.to_dict o)).
      lacks_in_to_dict H.
    + apply browse_options_null_free.
  - intros [cs ls] d. subst d. unfold SessionData.to_dict.
    cbn [SessionData.cookies SessionData.local_storage].
    split; [|split; [|split; [|split]]].
    + intros ->. destruct ls; reflexivity.
    + intros ->. destruct cs; reflexivity.
    + intros k v Hin. destruct cs, ls; cbn in Hin;
        repeat (destruct Hin as [Hin|Hin];
                [injection Hin as <- <-; discriminate|]);
        contradiction.
    + intros Hne. destruct cs as [|c cs]; [contradiction|].
      destruct ls; reflexivity.
    + intros Hwt. destruct cs as [|c cs], ls as [|l ls];
        try reflexivity.
      * cbn [dict_setitem has_null_entry existsb is_None].
        cbn [orb]. rewrite local_storage_null_free. reflexivity.
      * cbn [dict_setitem has_null_entry existsb is_None orb].
        rewrite (cookie_dicts_null (c :: cs) Hwt).
        now rewrite orb_false_r.
      * cbn [dict_setitem has_null_entry existsb is_None orb String.eqb
               Ascii.eqb Bool.eqb].
        rewrite (cookie_dicts_null (c :: cs) Hwt).
        cbn. rewrite local_storage_null_free.
        now rewrite !orb_false_r.
Qed.

Lemma to_dict_omits_unset_witness :
  dict_lookup (BrowseOptions.to_dict BrowseOptions.default) "maxChars" = None
  /\ dict_lookup (BrowseOptions.to_dict BrowseOptions.default) "verify" = None.
Proof.
  split.
  - exact (proj1 (proj2 (proj1 to_dict_omits_unset_fields
                           BrowseOptions.default)) eq_refl).
  - exact (proj1 (proj2 (proj2 (proj2 (proj2
             (proj1 to_dict_omits_unset_fields BrowseOptions.default)))))
             eq_refl).
Defined.

(** C8, as stated, fails: a cookie built without a domain, as the class
    allows, is written with the key [domain] holding null. *)
Lemma cookie_without_domain_serialized_as_null :
  let s := {| SessionData.cookies := [Cookie.make "session_id" "abc123"];
              SessionData.local_storage := [] |} in
  SessionData.to_dict s
  = [("cookies",
      PList [PDict [("name", PStr "session_id"); ("value", PStr "abc123");
                    ("domain", PNone); ("path", PStr "/")]])]
  /\ has_null_entry (PDict (SessionData.to_dict s)) = true.
Proof. split; reflexivity. Qed.

(** ** Response payloads *)

Lemma enum_call_outside {E : Type} (name : string) (value : E -> string)
    (members : list E) (v : pyval) :
  py_in_strs v (map value members) = false ->
  enum_call name value members v = Raised (ValueError (NotAMember name v)).
Proof.
  destruct v; try reflexivity. simpl. intros H.
  induction members as [|m ms IH]; simpl in *; [reflexivity|].
  apply orb_false_iff in H. destruct H as [Hm Hms].
  rewrite String.eqb_sym, Hm. now apply IH.
Qed.

Lemma enum_call_raised {E : Type} (name : string) (value : E -> string)
    (members : list E) (v : pyval) (e : exn) :
  enum_call name value members v = Raised e -> is_enum_ValueError e = true.
Proof.
  unfold enum_call.
  destruct v; try (intros H; injection H as <-; reflexivity).
  destruct (find _ members); [discriminate|].
  intros H; injection H as <-; reflexivity.
Qed.

Lemma enum_call_returned {E : Type} (name : string) (value : E -> string)
    (members : list E) (v : pyval) (m : E) :
  enum_call name value members v = Returned m ->
  v = PStr (value m) /\ py_in_strs v (map value members) = true.
Proof.
  unfold enum_call. destruct v; try discriminate.
  destruct (find _ members) as [m'|] eqn:Hf; [|discriminate].
  intros H; injection H as <-.
  apply find_some in Hf. destruct Hf as [Hin Heq].
  apply String.eqb_eq in Heq. subst s. split; [reflexivity|].
  simpl. apply existsb_exists. exists (value m'). split.
  - now apply in_map.
  - apply String.eqb_refl.
Qed.

Lemma py_getitem_dict_raised (d : pydict) (k : string) (e : exn) :
  py_getitem (PDict d) k = Raised e -> e = KeyError k /\ dict_lookup d k = None.
Proof.
  simpl. destruct (dict_lookup d k); [discriminate|].
  intros H; injection H as <-. split; reflexivity.
Qed.

Lemma py_getitem_returned (data : pyval) (k : string) (v : pyval) :
  py_getitem data k = Returned v ->
  exists d, data = PDict d /\ dict_lookup d k = Some v.
Proof.
  destruct data; try discriminate. simpl.
  destruct (dict_lookup entries k) eqn:H; [|discriminate].
  intros Hv; injection Hv as <-. now exists entries.
Qed.

Lemma py_getitem_missing (d : pydict) (k : string) :
  dict_lookup d k = None -> py_getitem (PDict d) k = Raised (KeyError k).
Proof. simpl. now intros ->. Qed.

Lemma py_get_dict_not_raised (d : pydict) (k : string) (default : pyval)
    (e : exn) :
  py_get (PDict d) k default = Raised e -> False.
Proof. rewrite py_get_lookup_default. discriminate. Qed.

Lemma obind_assoc {A B C : Type} (x : outcome A) (g : A -> outcome B)
    (f : B -> outcome C) :
  obind (obind x g) f = obind x (fun a => obind (g a) f).
Proof. destruct x; reflexivity. Qed.

(** A chain of steps fails as soon as one step fails. *)
Ltac fails_somewhere :=
  repeat (cbn [obind];
          match goal with
          | |- exists e, Raised _ = Raised e => eexists; reflexivity
          | H : ?b = true |- context [if ?b then _ else _] => rewrite H
          | |- exists e, obind (obind _ _) _ = Raised e => rewrite obind_assoc
          | H : ?x = Raised _ |- exists e, obind ?x _ = Raised e => rewrite H
          | H : ?x = Returned _ |- exists e, obind ?x _ = Raised e =>
              rewrite H
          | |- exists e, obind ?x _ = Raised e => destruct x eqn:?
          end).

(** The failure of a chain of steps on a dict is that of a subscript or
    that of an enumeration. *)
Ltac failure_kind :=
  repeat (cbn [obind];
          match goal with
          | |- Returned _ = Raised _ -> _ => discriminate
          | H : py_getitem (PDict _) _ = Raised ?e0
            |- Raised ?e0 = Raised _ -> _ =>
              intros He; injection He as <-;
              destruct (py_getitem_dict_raised _ _ _ H) as [-> _];
              reflexivity
          | H : enum_call _ _ _ _ = Raised ?e0
            |- Raised ?e0 = Raised _ -> _ =>
              intros He; injection He as <-;
              rewrite (enum_call_raised _ _ _ _ _ H);
              apply orb_true_r
          | H : py_get (PDict _) _ _ = Raised ?e0 |- _ =>
              destruct (py_get_dict_not_raised _ _ _ _ H)
          | |- obind (obind _ _) _ = Raised _ -> _ => rewrite obind_assoc
          | |- obind (if ?b then _ else _) _ = Raised _ -> _ => destruct b
          | |- obind ?x _ = Raised _ -> _ => destruct x eqn:?
          end).

Section ExecutionStepFacts.
Import ExecutionStep.

Lemma execution_step_tier_checked (data v : pyval) :
  py_getitem data "tier" = Returned v ->
  py_in_strs v CostTier.values = false ->
  exists e, from_dict data = Raised e.
Proof.
  intros Hv Hout.
  pose proof (enum_call_outside "CostTier" _ _ _ Hout) as Hcall.
  fold CostTier_call in Hcall.
  unfold from_dict. fails_somewhere.
Qed.

Lemma execution_step_confidence_checked (data v : pyval) :
  py_getitem data "confidence" = Returned v ->
  py_in_strs v ConfidenceRating.values = false ->
  exists e, from_dict data = Raised e.
Proof.
  intros Hv Hout.
  pose proof (enum_call_outside "ConfidenceRating" _ _ _ Hout) as Hcall.
  fold ConfidenceRating_call in Hcall.
  unfold from_dict. fails_somewhere.
Qed.

Lemma execution_step_missing (d : pydict) (k : string) :
  In k required -> dict_lookup d k = None ->
  exists e, from_dict (PDict d) = Raised e.
Proof.
  intros Hin Hk. unfold from_dict.
  apply py_getitem_missing in Hk.
  repeat (destruct Hin as [<-|Hin]; [fails_somewhere|]).
  contradiction.
Qed.

Lemma execution_step_failure_kind (d : pydict) (e : exn) :
  from_dict (PDict d) = Raised e ->
  is_KeyError e || is_enum_ValueError e = true.
Proof.
  unfold from_dict, CostTier_call, ConfidenceRating_call. failure_kind.
Qed.

End ExecutionStepFacts.

Section WorkflowStepFacts.
Import WorkflowStep.

Lemma workflow_step_importance_checked (data v : pyval) :
  py_getitem data "importance" = Returned v ->
  py_in_strs v Importance.values = false ->
  exists e, from_dict data = Raised e.
Proof.
  intros Hv Hout.
  pose proof (enum_call_outside "Importance" _ _ _ Hout) as Hcall.
  fold Importance_call in Hcall.
  unfold from_dict. fails_somewhere.
Qed.

Lemma workflow_step_true_tier_checked (data v : pyval) :
  py_getitem data "tier" = Returned v ->
  truthy v = true ->
  py_in_strs v CostTier.values = false ->
  exists e, from_dict data = Raised e.
Proof.
  intros Hv Htrue Hout.
  pose proof (enum_call_outside "CostTier" _ _ _ Hout) as Hcall.
  fold CostTier_call in Hcall.
  assert (Hget : py_get data "tier" PNone = Returned v).
  { destruct (py_getitem_returned _ _ _ Hv) as (d & -> & Hd).
    simpl. now rewrite Hd. }
  unfold from_dict. fails_somewhere.
Qed.

Lemma workflow_step_false_tier_dropped (tier : pyval) :
  truthy tier = false ->
  exists step,
    from_dict (Samples.workflow_step_payload tier) = Returned step
    /\ WorkflowStep.tier step = None.
Proof.
  intros Hfalse. unfold from_dict, Samples.workflow_step_payload.
  cbn. rewrite Hfalse. cbn. eexists. split; reflexivity.
Qed.

Lemma workflow_step_missing (d : pydict) (k : string) :
  In k required -> dict_lookup d k = None ->
  exists e, from_dict (PDict d) = Raised e.
Proof.
  intros Hin Hk. unfold from_dict.
  apply py_getitem_missing in Hk.
  repeat (destruct Hin as [<-|Hin]; [fails_somewhere|]).
  contradiction.
Qed.

Lemma workflow_step_failure_kind (d : pydict) (e : exn) :
  from_dict (PDict d) = Raised e ->
  is_KeyError e || is_enum_ValueError e = true.
Proof.
  unfold from_dict, Importance_call, CostTier_call. failure_kind.
Qed.

End WorkflowStepFacts.

Section ConfidenceFacts.

Lemma confidence_factors_familiarity_checked (data v : pyval) :
  py_getitem data "domainFamiliarity" = Returned v ->
  py_in_strs v DomainFamiliarity.values = false ->
  exists e, ConfidenceFactors.from_dict data = Raised e.
Proof.
  intros Hv Hout.
  pose proof (enum_call_outside "DomainFamiliarity" _ _ _ Hout) as Hcall.
  fold DomainFamiliarity_call in Hcall.
  unfold ConfidenceFactors.from_dict. fails_somewhere.
Qed.

Lemma confidence_factors_missing (d : pydict) (k : string) :
  In k ConfidenceFactors.required -> dict_lookup d k = None ->
  exists e, ConfidenceFactors.from_dict (PDict d) = Raised e.
Proof.
  intros Hin Hk. unfold ConfidenceFactors.from_dict.
  apply py_getitem_missing in Hk.
  repeat (destruct Hin as [<-|Hin]; [fails_somewhere|]).
  contradiction.
Qed.

Lemma confidence_factors_failure_kind (d : pydict) (e : exn) :
  ConfidenceFactors.from_dict (PDict d) = Raised e ->
  is_KeyError e || is_enum_ValueError e = true.
Proof.
  unfold ConfidenceFactors.from_dict, DomainFamiliarity_call. failure_kind.
Qed.

Lemma confidence_level_overall_checked (data v : pyval) :
  py_getitem data "overall" = Returned v ->
  py_in_strs v ConfidenceRating.values = false ->
  exists e, ConfidenceLevel.from_dict data = Raised e.
Proof.
  intros Hv Hout.
  pose proof (enum_call_outside "ConfidenceRating" _ _ _ Hout) as Hcall.
  fold ConfidenceRating_call in Hcall.
  unfold ConfidenceLevel.from_dict. fails_somewhere.
Qed.

Lemma confidence_level_missing (d : pydict) (k : string) :
  In k ConfidenceLevel.required -> dict_lookup d k = None ->
  exists e, ConfidenceLevel.from_dict (PDict d) = Raised e.
Proof.
  intros Hin Hk. unfold ConfidenceLevel.from_dict.
  apply py_getitem_missing in Hk.
  repeat (destruct Hin as [<-|Hin]; [fails_somewhere|]).
  contradiction.
Qed.

End ConfidenceFacts.

Section BrowseResultFacts.

Lemma browse_result_missing (d : pydict) (k : string) :
  In k BrowseResult.required -> dict_lookup d k = None ->
  exists e, BrowseResult.from_dict (PDict d) = Raised e.
Proof.
  intros Hin Hk. unfold BrowseResult.from_dict.
  apply py_getitem_missing in Hk.
  repeat (destruct Hin as [<-|Hin]; [fails_somewhere|]).
  contradiction.
Qed.

(** The content type of a discovered API and the tier of the metadata are
    stored as they come. *)
Lemma browse_result_keeps_content_type_and_tier (content_type tier : pyval) :
  exists result api,
    BrowseResult.from_dict (Samples.browse_payload content_type tier)
    = Returned result
    /\ BrowseResult.discovered_apis result = Some [api]
    /\ DiscoveredApi.content_type api = content_type
    /\ BrowseMetadata.tier (BrowseResult.metadata result) = tier.
Proof.
  eexists. eexists. cbn. repeat split.
Qed.

End BrowseResultFacts.

(** * Further properties of the executor *)

Lemma read_response_401 (r : Response) :
  status_code r = 401 ->
  read_response r = Raised (AuthenticationError "Invalid or missing API key").
Proof. intros H. unfold read_response. now rewrite H. Qed.

Lemma read_response_403 (r : Response) :
  status_code r = 403 ->
  read_response r
  = Raised (UnbrowserError (PStr "FORBIDDEN")
              (PStr "API key does not have access to this resource")).
Proof. intros H. unfold read_response. now rewrite H. Qed.

(** X1.  A response with status 401 raises [AuthenticationError] with the
    fixed message, and one with status 403 raises the FORBIDDEN error with
    its fixed message, whatever the body holds, be it JSON or not; no
    attempt follows, even when attempts remain. *)
Theorem auth_statuses_raise_at_once (srv : server) (c : t)
    (method path : string) (body : option pyval) (k : nat) (r : Response) :
  supported method = true ->
  Z.of_nat k < attempts_of c ->
  all_retried srv k ->
  srv k = NetResponds r ->
  let ev := send_event c method path body in
  (status_code r = 401 ->
   _request srv c method path body []
   = (Raised (AuthenticationError "Invalid or missing API key"),
      request_trace ev (S k)))
  /\ (status_code r = 403 ->
      _request srv c method path body []
      = (Raised (UnbrowserError (PStr "FORBIDDEN")
                   (PStr "API key does not have access to this resource")),
         request_trace ev (S k))).
Proof.
  intros Hm Hk Hall Hs ev. split; intros Hst.
  - rewrite (request_stops_after srv c method path body Hm k Hk Hall).
    + rewrite Hs. cbn [attempt_result].
      now rewrite (read_response_401 r Hst).
    + rewrite Hs. cbn [attempt_result].
      rewrite (read_response_401 r Hst). now left.
  - rewrite (request_stops_after srv c method path body Hm k Hk Hall).
    + rewrite Hs. cbn [attempt_result].
      now rewrite (read_response_403 r Hst).
    + rewrite Hs. cbn [attempt_result].
      rewrite (read_response_403 r Hst). now left.
Qed.

Lemma auth_statuses_witness :
  _request
    (Samples.always
       (Samples.json_response 401 []
          (Samples.error_envelope "UNAUTHORIZED" "Invalid API key")))
    Samples.client "POST" "/v1/browse"
    (Some (PDict [("url", PStr "https://example.com")])) []
  = (Raised (AuthenticationError "Invalid or missing API key"),
     [EvSend "POST" "https://api.unbrowser.ai/v1/browse"
        (Some (PDict [("url", PStr "https://example.com")])) 60]).
Proof.
  refine (proj1
            (auth_statuses_raise_at_once
               (Samples.always
                  (Samples.json_response 401 []
                     (Samples.error_envelope "UNAUTHORIZED" "Invalid API key")))
               Samples.client "POST" "/v1/browse"
               (Some (PDict [("url", PStr "https://example.com")]))
               0%nat _ eq_refl eq_refl _ eq_refl)
            eq_refl).
  intros i Hi. exfalso. exact (Nat.nlt_0_r i Hi).
Defined.

(** X2.  A verb other than GET, POST and DELETE raises [ValueError] in the
    first pass of the loop, before any call: the log is left as it was,
    with no call and no sleep. *)
Theorem unsupported_method_makes_no_call (srv : server) (c : t)
    (method path : string) (body : option pyval) (log : list event) :
  supported method = false ->
  1 <= attempts_of c ->
  _request srv c method path body log
  = (Raised (ValueError
               (UnsupportedMethod ("Unsupported HTTP method: " ++ method)%string)),
     log).
Proof.
  unfold supported. intros H Hone.
  apply orb_false_iff in H. destruct H as [H HD].
  apply orb_false_iff in H. destruct H as [HG HP].
  unfold _request, py_range.
  replace (Z.to_nat (attempts_of c + 1 - 1))
    with (S (Z.to_nat (attempts_of c) - 1)) by lia.
  cbn [range_from request_loop].
  unfold request_pass, request_try, bind.
  rewrite HG, HP, HD. unfold raise. cbn. reflexivity.
Qed.

Lemma unsupported_method_witness :
  _request Samples.always_timeout Samples.client "PATCH" "/v1/usage" None []
  = (Raised (ValueError (UnsupportedMethod "Unsupported HTTP method: PATCH")),
     []).
Proof.
  exact (unsupported_method_makes_no_call Samples.always_timeout
           Samples.client "PATCH" "/v1/usage" None [] eq_refl
           ltac:(discriminate)).
Defined.

Lemma read_response_returned (r : Response) (v : pyval) :
  read_response r = Returned v ->
  reads_envelope r = true
  /\ exists d,
       content r = JsonBody (PDict d)
       /\ truthy (lookup_default d "success" (PBool false)) = true
       /\ v = lookup_default d "data" PNone.
Proof.
  intros H.
  destruct (reads_envelope r) eqn:Henv.
  - split; [reflexivity|].
    rewrite (read_response_envelope r Henv) in H.
    unfold response_json in H.
    destruct (content r) as [j|msg| |lit]; try discriminate.
    cbn [obind] in H.
    destruct j as [| | | | | |d]; try discriminate.
    rewrite py_get_lookup_default in H. cbn [obind] in H.
    destruct (truthy (lookup_default d "success" (PBool false))) eqn:Hs.
    + cbn [negb] in H. rewrite py_get_lookup_default in H.
      injection H as <-. exists d.
      split; [reflexivity|]. split; [exact Hs|reflexivity].
    + cbn [negb] in H.
      destruct (py_get (PDict d) "error" (PDict [])) as [err|]; [|discriminate].
      cbn [obind] in H.
      destruct (py_get err "code" (PStr "UNKNOWN_ERROR")); [|discriminate].
      cbn [obind] in H.
      destruct (py_get err "message" (PStr "Unknown error")); discriminate.
  - exfalso. unfold reads_envelope in Henv.
    destruct (Z.eqb (status_code r) 429) eqn:H429.
    + apply Z.eqb_eq in H429. rewrite (read_response_429 r H429) in H.
      destruct (headers_get (headers r) "Retry-After") as [s|];
        [destruct (String.eqb s ""); [|destruct (py_int s)]|];
        discriminate.
    + destruct (Z.eqb (status_code r) 401) eqn:H401.
      * apply Z.eqb_eq in H401. rewrite (read_response_401 r H401) in H.
        discriminate.
      * destruct (Z.eqb (status_code r) 403) eqn:H403; [|discriminate].
        apply Z.eqb_eq in H403. rewrite (read_response_403 r H403) in H.
        discriminate.
Qed.

Lemma read_response_success (r : Response) (d : pydict) :
  reads_envelope r = true ->
  content r = JsonBody (PDict d) ->
  truthy (lookup_default d "success" (PBool false)) = true ->
  read_response r = Returned (lookup_default d "data" PNone).
Proof.
  intros Henv Hbody Hs.
  rewrite (read_response_envelope r Henv).
  unfold response_json. rewrite Hbody. cbn [obind].
  rewrite py_get_lookup_default. cbn [obind]. rewrite Hs. cbn [negb].
  apply py_get_lookup_default.
Qed.

Lemma request_returns_served_data (srv : server) (c : t)
    (method path : string) (body : option pyval) (k : nat) (r : Response)
    (d : pydict) :
  supported method = true ->
  Z.of_nat k < attempts_of c ->
  all_retried srv k ->
  srv k = NetResponds r ->
  reads_envelope r = true ->
  content r = JsonBody (PDict d) ->
  truthy (lookup_default d "success" (PBool false)) = true ->
  _request srv c method path body []
  = (Returned (lookup_default d "data" PNone),
     request_trace (send_event c method path body) (S k)).
Proof.
  intros Hm Hk Hall Hs Henv Hbody Hsucc.
  rewrite (request_stops_after srv c method path body Hm k Hk Hall).
  - rewrite Hs. cbn [attempt_result].
    now rewrite (read_response_success r d Henv Hbody Hsucc).
  - rewrite Hs. cbn [attempt_result].
    now rewrite (read_response_success r d Henv Hbody Hsucc).
Qed.

(** X3.  A response read as an envelope whose [success] member is true
    makes [_request] return the [data] member as it is, whatever JSON value
    it holds, and [None] when there is none; no attempt follows. *)
Theorem success_envelope_returns_data (srv : server) (c : t)
    (method path : string) (body : option pyval) (k : nat) (r : Response)
    (d : pydict) :
  supported method = true ->
  Z.of_nat k < attempts_of c ->
  all_retried srv k ->
  srv k = NetResponds r ->
  reads_envelope r = true ->
  content r = JsonBody (PDict d) ->
  truthy (lookup_default d "success" (PBool false)) = true ->
  _request srv c method path body []
  = (Returned (lookup_default d "data" PNone),
     request_trace (send_event c method path body) (S k)).
Proof.
  exact (request_returns_served_data srv c method path body k r d).
Qed.

Lemma success_envelope_witness :
  _request Samples.timeout_then_ok Samples.client "GET" "/v1/usage" None []
  = (Returned (PDict [("limits", PDict [("daily", PInt 1000)])]),
     [Samples.usage_event; EvSleep 2; Samples.usage_event]).
Proof.
  refine (success_envelope_returns_data Samples.timeout_then_ok
            Samples.client "GET" "/v1/usage" None 1%nat Samples.usage_ok
            [("success", PBool true);
             ("data", PDict [("limits", PDict [("daily", PInt 1000)])])]
            eq_refl eq_refl _ eq_refl eq_refl eq_refl eq_refl).
  intros i Hi. exists (RequestsError ReadTimeout "Read timed out").
  destruct i as [|i]; [split; reflexivity|].
  exfalso. apply (Nat.nlt_0_r i). apply (proj2 (Nat.succ_lt_mono i 0) Hi).
Defined.

Lemma request_returned_was_served (srv : server) (c : t)
    (method path : string) (body : option pyval) (v : pyval)
    (log : list event) :
  supported method = true ->
  _request srv c method path body [] = (Returned v, log) ->
  exists j r d,
    Z.of_nat j < attempts_of c
    /\ all_retried srv j
    /\ srv j = NetResponds r
    /\ reads_envelope r = true
    /\ content r = JsonBody (PDict d)
    /\ truthy (lookup_default d "success" (PBool false)) = true
    /\ v = lookup_default d "data" PNone
    /\ log = request_trace (send_event c method path body) (S j).
Proof.
  intros Hm Hrun.
  destruct (Z_le_gt_dec 1 (attempts_of c)) as [Hone|Hnone].
  - destruct (request_loop_completes srv c method path body Hm Hone)
      as (j & Hj & Hall & Hloop).
    unfold _request in Hrun. rewrite Hloop in Hrun.
    injection Hrun as Hres <-.
    destruct (srv j) as [cls msg|r] eqn:Hs; [discriminate|].
    cbn [attempt_result] in Hres.
    destruct (read_response r) as [v'|e] eqn:Hread; [|discriminate].
    injection Hres as ->.
    destruct (read_response_returned r v Hread) as (Henv & d & Hb & Ht & Hv).
    exists j, r, d. repeat split; assumption.
  - unfold _request in Hrun.
    rewrite (request_loop_no_attempt srv c method path body) in Hrun by lia.
    discriminate.
Qed.

(** X4.  Whenever [_request] returns a value, some call within the budget
    was answered with a status other than 429, 401 and 403 and with a JSON
    object whose [success] member is true; the value is the [data] member
    of that object, every earlier call failed and was retried, and that
    call was the last one made. *)
Theorem returned_value_comes_from_success_envelope (srv : server) (c : t)
    (method path : string) (body : option pyval) (v : pyval)
    (log : list event) :
  supported method = true ->
  _request srv c method path body [] = (Returned v, log) ->
  exists j r d,
    Z.of_nat j < attempts_of c
    /\ all_retried srv j
    /\ srv j = NetResponds r
    /\ reads_envelope r = true
    /\ content r = JsonBody (PDict d)
    /\ truthy (lookup_default d "success" (PBool false)) = true
    /\ v = lookup_default d "data" PNone
    /\ log = request_trace (send_event c method path body) (S j).
Proof.
  exact (request_returned_was_served srv c method path body v log).
Qed.

Lemma returned_value_witness :
  exists j r d,
    Z.of_nat j < attempts_of Samples.client
    /\ all_retried Samples.timeout_then_ok j
    /\ Samples.timeout_then_ok j = NetResponds r
    /\ reads_envelope r = true
    /\ content r = JsonBody (PDict d)
    /\ truthy (lookup_default d "success" (PBool false)) = true
    /\ PDict [("limits", PDict [("daily", PInt 1000)])]
       = lookup_default d "data" PNone
    /\ [Samples.usage_event; EvSleep 2; Samples.usage_event]
       = request_trace (send_event Samples.client "GET" "/v1/usage" None)
           (S j).
Proof.
  exact (returned_value_comes_from_success_envelope Samples.timeout_then_ok
           Samples.client "GET" "/v1/usage" None _ _ eq_refl eq_refl).
Defined.

(** X5.  A response read as an envelope whose body is not JSON raises the
    decoding error of [response.json()]; a JSON body that is not an object,
    or a non-success object whose [error] member is present but is not an
    object, raises [AttributeError].  None of these is wrapped in an
    [UnbrowserError], and none is retried. *)
Theorem malformed_body_raises_unretried (srv : server) (c : t)
    (method path : string) (body : option pyval) (k : nat) (r : Response) :
  supported method = true ->
  Z.of_nat k < attempts_of c ->
  all_retried srv k ->
  srv k = NetResponds r ->
  reads_envelope r = true ->
  let ev := send_event c method path body in
  (forall msg,
     content r = NotJson msg ->
     _request srv c method path body []
     = (Raised (RequestsError InvalidJSONError msg), request_trace ev (S k)))
  /\ (forall v,
        content r = JsonBody v ->
        (forall d, v <> PDict d) ->
        _request srv c method path body []
        = (Raised AttributeError, request_trace ev (S k)))
  /\ (forall d x,
        content r = JsonBody (PDict d) ->
        truthy (lookup_default d "success" (PBool false)) = false ->
        dict_lookup d "error" = Some x ->
        (forall err, x <> PDict err) ->
        _request srv c method path body []
        = (Raised AttributeError, request_trace ev (S k))).
Proof.
  intros Hm Hk Hall Hs Henv ev.
  assert (Hrun : forall e,
             read_response r = Raised e -> retryable e = false ->
             as_raised e = e ->
             _request srv c method path body []
             = (Raised e, request_trace ev (S k))).
  { intros e Hread Hr Has.
    rewrite (request_stops_after srv c method path body Hm k Hk Hall).
    - rewrite Hs. cbn [attempt_result]. rewrite Hread. cbn [final_result].
      now rewrite Has.
    - rewrite Hs. cbn [attempt_result]. rewrite Hread. now left. }
  split; [|split].
  - intros msg Hb. apply Hrun; try reflexivity.
    rewrite (read_response_envelope r Henv). unfold response_json.
    now rewrite Hb.
  - intros v Hb Hv. apply Hrun; try reflexivity.
    rewrite (read_response_envelope r Henv). unfold response_json.
    rewrite Hb. cbn [obind].
    destruct v; try reflexivity. now destruct (Hv entries).
  - intros d x Hb Hsucc Hx Hnd. apply Hrun; try reflexivity.
    rewrite (read_response_envelope r Henv). unfold response_json.
    rewrite Hb. cbn [obind]. rewrite py_get_lookup_default. cbn [obind].
    rewrite Hsucc. cbn [negb]. unfold py_get at 1. rewrite Hx. cbn [obind].
    destruct x; try reflexivity. now destruct (Hnd entries).
Qed.

Lemma malformed_body_witness :
  _request
    (Samples.always
       {| status_code := 502; headers := [];
          content := NotJson "Expecting value: line 1 column 1 (char 0)" |})
    Samples.client "GET" "/v1/usage" None []
  = (Raised (RequestsError InvalidJSONError
               "Expecting value: line 1 column 1 (char 0)"),
     [Samples.usage_event]).
Proof.
  refine (proj1
            (malformed_body_raises_unretried
               (Samples.always
                  {| status_code := 502; headers := [];
                     content :=
                       NotJson "Expecting value: line 1 column 1 (char 0)" |})
               Samples.client "GET" "/v1/usage" None 0%nat _
               eq_refl eq_refl _ eq_refl eq_refl)
            _ eq_refl).
  intros i Hi. exfalso. exact (Nat.nlt_0_r i Hi).
Defined.

Lemma sum_pow2_range (m : nat) :
  forall a,
    0 <= a ->
    fold_right Z.add 0 (map (Z.pow 2) (range_from a m))
    = 2 ^ (a + Z.of_nat m) - 2 ^ a.
Proof.
  induction m as [|m IH]; intros a Ha.
  - simpl. rewrite Z.add_0_r. lia.
  - cbn [range_from map fold_right]. rewrite IH by lia.
    replace (a + 1 + Z.of_nat m) with (a + Z.of_nat (S m)) by lia.
    rewrite (Z.pow_add_r 2 a 1) by lia. lia.
Qed.

(** X6.  The sleeps of one request add up to [2 ^ n - 2] seconds, [n]
    being the number of calls it made (none for a single call); this is at
    most [2 ^ attempts - 2], and a client built with [retry] off never
    sleeps. *)
Theorem total_backoff_bounded (srv : server) (c : t)
    (method path : string) (body : option pyval) :
  supported method = true ->
  let log := snd (_request srv c method path body []) in
  fold_right Z.add 0 (sleeps log)
  = 2 ^ Z.of_nat (Nat.max 1 (count_sends log)) - 2
  /\ fold_right Z.add 0 (sleeps log) <= 2 ^ Z.max 1 (attempts_of c) - 2
  /\ (retry c = false -> sleeps log = []).
Proof.
  intros Hm log.
  destruct (request_log_shape srv c method path body Hm)
    as (n & Hlog & Hle & Hone).
  fold log in Hlog.
  assert (Hcount : count_sends log = n)
    by (rewrite Hlog; apply count_sends_request_trace; reflexivity).
  assert (Hsleeps : sleeps log = map (Z.pow 2) (range_from 1 (pred n)))
    by (rewrite Hlog; apply sleeps_request_trace; reflexivity).
  assert (Hsum : fold_right Z.add 0 (sleeps log)
                 = 2 ^ Z.of_nat (Nat.max 1 n) - 2).
  { rewrite Hsleeps, sum_pow2_range by lia.
    replace (1 + Z.of_nat (pred n)) with (Z.of_nat (Nat.max 1 n)) by lia.
    reflexivity. }
  rewrite Hcount. split; [exact Hsum|]. split.
  - rewrite Hsum.
    assert (2 ^ Z.of_nat (Nat.max 1 n) <= 2 ^ Z.max 1 (attempts_of c))
      by (apply Z.pow_le_mono_r; lia).
    lia.
  - intros Hr. rewrite Hsleeps.
    unfold attempts_of in Hle. rewrite Hr in Hle.
    replace (pred n) with 0%nat by lia. reflexivity.
Qed.

Lemma total_backoff_witness :
  fold_right Z.add 0
    (sleeps (snd (_request Samples.always_timeout Samples.client "GET"
                    "/v1/usage" None [])))
  <= 6.
Proof.
  exact (proj1 (proj2
           (total_backoff_bounded Samples.always_timeout Samples.client
              "GET" "/v1/usage" None eq_refl))).
Defined.

(** * Further properties of the construction *)

Lemma rstrip_by_split (drop : ascii -> bool) (s : string) :
  exists tail,
    s = (rstrip_by drop s ++ tail)%string
    /\ Forall (fun ch => drop ch = true) (list_ascii_of_string tail).
Proof.
  induction s as [|a rest IH].
  - exists "". split; [reflexivity|constructor].
  - destruct IH as (tail & Heq & Hall). cbn [rstrip_by].
    destruct (rstrip_by drop rest) as [|b r'] eqn:Hr.
    + destruct (drop a) eqn:Ha.
      * exists (String a rest). split; [reflexivity|].
        cbn in Heq. subst tail. cbn. constructor; assumption.
      * exists rest. split; [reflexivity|].
        cbn in Heq. now subst tail.
    + exists tail. split; [|assumption].
      cbn. f_equal. exact Heq.
Qed.

Lemma rstrip_by_last (drop : ascii -> bool) (s : string) :
  forall t ch,
    rstrip_by drop s = (t ++ String ch "")%string -> drop ch = false.
Proof.
  induction s as [|a rest IH]; intros t ch H.
  - destruct t; discriminate.
  - cbn [rstrip_by] in H.
    destruct (rstrip_by drop rest) as [|b r'] eqn:Hr.
    + destruct (drop a) eqn:Ha.
      * destruct t; discriminate.
      * destruct t as [|x t']; cbn in H.
        -- injection H as <-. exact Ha.
        -- injection H as _ H. destruct t'; discriminate.
    + destruct t as [|x t']; cbn in H.
      * discriminate.
      * injection H as _ H. apply (IH t' ch). exact H.
Qed.

(** X7.  The base URL of a constructed client never ends with a slash.  It
    is the default origin when the argument is left out or empty, and
    otherwise the given URL with its trailing slashes, and nothing else,
    removed. *)
Theorem init_base_url_without_trailing_slash (key : string)
    (given : option string) (timeout : option Z) (retry : option bool)
    (max_retries : option Z) (log : list event) (client : t) :
  __init__ key given timeout retry max_retries log = (Returned client, log) ->
  (forall prefix, base_url client <> (prefix ++ "/")%string)
  /\ (given = None \/ given = Some "" -> base_url client = DEFAULT_BASE_URL)
  /\ (forall u,
        given = Some u -> u <> "" ->
        exists tail,
          u = (base_url client ++ tail)%string
          /\ Forall (fun ch => ch = "/"%char) (list_ascii_of_string tail)).
Proof.
  unfold __init__, raise, ret.
  destruct (String.eqb key ""); [discriminate|].
  destruct (negb (String.prefix "ub_" key)); [discriminate|].
  intros H. injection H as <-. cbn [base_url].
  split; [|split].
  - intros prefix Heq.
    apply rstrip_by_last in Heq. discriminate Heq.
  - intros [->| ->]; reflexivity.
  - intros u -> Hu.
    destruct (String.eqb u "") eqn:He.
    + apply String.eqb_eq in He. contradiction.
    + destruct (rstrip_by_split (Ascii.eqb "/") u) as (tail & Heq & Hall).
      exists tail. split; [exact Heq|].
      eapply Forall_impl; [|exact Hall].
      intros ch Hch. apply Ascii.eqb_eq in Hch. now subst ch.
Qed.

Lemma init_base_url_witness :
  base_url
    {| api_key := "ub_live_x";
       base_url := "https://custom.api.com";
       timeout := 60; retry := true; max_retries := 3;
       _session :=
         {| session_headers :=
              [("Content-Type", "application/json");
               ("Authorization", "Bearer ub_live_x");
               ("User-Agent", "unbrowser-python/0.1.0")] |} |}
  <> ("https://custom.api.com" ++ "/")%string.
Proof.
  exact (proj1
           (init_base_url_without_trailing_slash "ub_live_x"
              (Some "https://custom.api.com/") None None None [] _ eq_refl)
           "https://custom.api.com").
Defined.

(** * Properties of the public methods *)

Section ParsedRequests.

Variable srv : server.
Variable c : t.

Lemma request_served (method path : string) (body : option pyval)
    (v : pyval) (log : list event) :
  supported method = true ->
  _request srv c method path body [] = (Returned v, log) ->
  served srv c log v.
Proof.
  intros Hm Hrun.
  destruct (request_returned_was_served srv c method path body v log
              Hm Hrun)
    as (j & r & d & Hj & Hall & Hs & Henv & Hb & Ht & Hv & Hlog).
  exists j, r. repeat split; try assumption.
  - exists d. repeat split; assumption.
  - rewrite Hlog. apply count_sends_request_trace. reflexivity.
Qed.

(** A method that parses what [_request] returns gives a result only from
    served data that parses to it. *)
Lemma parsed_request_served {A : Type} (parse : pyval -> outcome A)
    (method path : string) (body : option pyval) (res : A)
    (log : list event) :
  supported method = true ->
  (data <- _request srv c method path body ;; lift (parse data)) []
  = (Returned res, log) ->
  exists data, served srv c log data /\ parse data = Returned res.
Proof.
  intros Hm. unfold bind, lift.
  destruct (_request srv c method path body []) as [[v|e] log'] eqn:Hrun.
  - intros H. injection H as Hp <-.
    exists v. split; [|exact Hp].
    now apply (request_served method path body).
  - discriminate.
Qed.

(** A method that parses what [_request] returns raises [TypeError] on a
    success whose data is not an object, when its parser starts with a
    subscript. *)
Lemma parsed_request_not_object {A : Type} (parse : pyval -> outcome A)
    (method path : string) (body : option pyval) (k : nat) (r : Response)
    (data : pyval) :
  supported method = true ->
  Z.of_nat k < attempts_of c ->
  all_retried srv k ->
  srv k = NetResponds r ->
  success_response r data ->
  parse data = Raised TypeError ->
  (data <- _request srv c method path body ;; lift (parse data)) []
  = (Raised TypeError,
     request_trace (send_event c method path body) (S k)).
Proof.
  intros Hm Hk Hall Hs (Henv & d & Hb & Ht & Hd) Hp.
  unfold bind, lift.
  rewrite (request_returns_served_data srv c method path body k r d
             Hm Hk Hall Hs Henv Hb Ht).
  rewrite <- Hd, Hp. reflexivity.
Qed.

End ParsedRequests.

(** X8.  A method that returns a typed result never builds it from
    anything but a served success: when [browse], [fetch], [batch],
    [get_domain_intelligence], [replay_workflow] or [get_workflow] returns,
    some call within the budget, the last one made, was answered with a
    success envelope, and the result is the parse of its [data] member. *)
Theorem typed_results_come_from_served_data (srv : server) (c : t) :
  (forall url o s res log,
     Operations.browse srv c url o s [] = (Returned res, log) ->
     exists data,
       served srv c log data /\ BrowseResult.from_dict data = Returned res)
  /\ (forall url o s res log,
        Operations.fetch srv c url o s [] = (Returned res, log) ->
        exists data,
          served srv c log data /\ BrowseResult.from_dict data = Returned res)
  /\ (forall urls o s res log,
        Operations.batch srv c urls o s [] = (Returned res, log) ->
        exists data,
          served srv c log data /\ BatchResult.from_dict data = Returned res)
  /\ (forall domain res log,
        Operations.get_domain_intelligence srv c domain []
        = (Returned res, log) ->
        exists data,
          served srv c log data
          /\ DomainIntelligence.from_dict data = Returned res)
  /\ (forall id vars res log,
        Operations.replay_workflow srv c id vars [] = (Returned res, log) ->
        exists data,
          served srv c log data /\ ReplayResult.from_dict data = Returned res)
  /\ (forall id res log,
        Operations.get_workflow srv c id [] = (Returned res, log) ->
        exists data,
          served srv c log data
          /\ WorkflowDetails.from_dict data = Returned res).
Proof.
  repeat split; intros;
    eapply parsed_request_served; try eassumption; reflexivity.
Qed.

Lemma typed_results_witness :
  exists data,
    served
      (MoreSamples.timeout_then (PDict [("domain", PStr "example.com")]))
      Samples.client
      [MoreSamples.intelligence_event; EvSleep 2;
       MoreSamples.intelligence_event]
      data
    /\ DomainIntelligence.from_dict data
       = Returned
           {| DomainIntelligence.domain := PStr "example.com";
              DomainIntelligence.known_patterns := PInt 0;
              DomainIntelligence.selector_chains := PInt 0;
              DomainIntelligence.validators := PInt 0;
              DomainIntelligence.pagination_patterns := PInt 0;
              DomainIntelligence.recent_failures := PInt 0;
              DomainIntelligence.success_rate := PFloat (S754_zero false);
              DomainIntelligence.domain_group := PNone;
              DomainIntelligence.recommended_wait_strategy := PStr "load";
              DomainIntelligence.should_use_session := PBool false |}.
Proof.
  exact (proj1 (proj2 (proj2 (proj2
           (typed_results_come_from_served_data
              (MoreSamples.timeout_then
                 (PDict [("domain", PStr "example.com")]))
              Samples.client))))
           "example.com" _ _ eq_refl).
Defined.

Lemma py_getitem_not_dict (data : pyval) (k : string) :
  is_dict data = false -> py_getitem data k = Raised TypeError.
Proof. destruct data; try reflexivity. discriminate. Qed.

(** X9.  When the served [data] member is not an object, or is absent,
    each method that parses it raises [TypeError], after the successful
    call and without a further attempt: [browse], [fetch], [batch],
    [get_domain_intelligence], [replay_workflow] and [get_workflow] do not
    return [None] the way [get_usage] does. *)
Theorem typed_methods_need_object_data (srv : server) (c : t) (k : nat)
    (r : Response) (data : pyval) :
  Z.of_nat k < attempts_of c ->
  all_retried srv k ->
  srv k = NetResponds r ->
  success_response r data ->
  is_dict data = false ->
  (forall url o s,
     fst (Operations.browse srv c url o s []) = Raised TypeError
     /\ count_sends (snd (Operations.browse srv c url o s [])) = S k)
  /\ (forall url o s, fst (Operations.fetch srv c url o s []) = Raised TypeError)
  /\ (forall urls o s,
        fst (Operations.batch srv c urls o s []) = Raised TypeError)
  /\ (forall domain,
        fst (Operations.get_domain_intelligence srv c domain [])
        = Raised TypeError)
  /\ (forall id vars,
        fst (Operations.replay_workflow srv c id vars []) = Raised TypeError)
  /\ (forall id, fst (Operations.get_workflow srv c id []) = Raised TypeError).
Proof.
  intros Hk Hall Hs Hok Hnd.
  assert (Hrun : forall (A : Type) (parse : pyval -> outcome A)
                        method path body,
             supported method = true ->
             parse data = Raised TypeError ->
             (x <- _request srv c method path body ;; lift (parse x)) []
             = (Raised TypeError,
                request_trace (send_event c method path body) (S k))).
  { intros A parse method path body Hm Hp.
    now apply (parsed_request_not_object srv c parse method path body k r data). }
  repeat split; intros.
  - unfold Operations.browse. rewrite Hrun; [reflexivity|reflexivity|].
    unfold BrowseResult.from_dict.
    now rewrite (py_getitem_not_dict data "content" Hnd).
  - unfold Operations.browse. rewrite Hrun; [|reflexivity|].
    + cbn [snd]. apply count_sends_request_trace. reflexivity.
    + unfold BrowseResult.from_dict.
      now rewrite (py_getitem_not_dict data "content" Hnd).
  - unfold Operations.fetch. rewrite Hrun; [reflexivity|reflexivity|].
    unfold BrowseResult.from_dict.
    now rewrite (py_getitem_not_dict data "content" Hnd).
  - unfold Operations.batch. rewrite Hrun; [reflexivity|reflexivity|].
    unfold BatchResult.from_dict.
    now rewrite (py_getitem_not_dict data "results" Hnd).
  - unfold Operations.get_domain_intelligence.
    rewrite Hrun; [reflexivity|reflexivity|].
    unfold DomainIntelligence.from_dict.
    now rewrite (py_getitem_not_dict data "domain" Hnd).
  - unfold Operations.replay_workflow.
    rewrite Hrun; [reflexivity|reflexivity|].
    unfold ReplayResult.from_dict.
    now rewrite (py_getitem_not_dict data "results" Hnd).
  - unfold Operations.get_workflow. rewrite Hrun; [reflexivity|reflexivity|].
    unfold WorkflowDetails.from_dict.
    now rewrite (py_getitem_not_dict data "steps" Hnd).
Qed.

Lemma typed_methods_witness :
  fst (Operations.browse
         (Samples.always
            (Samples.json_response 200 [] (PDict [("success", PBool true)])))
         Samples.client "https://example.com" None None [])
  = Raised TypeError
  /\ count_sends
       (snd (Operations.browse
               (Samples.always
                  (Samples.json_response 200 []
                     (PDict [("success", PBool true)])))
               Samples.client "https://example.com" None None []))
     = 1%nat.
Proof.
  refine (proj1
            (typed_methods_need_object_data
               (Samples.always
                  (Samples.json_response 200 []
                     (PDict [("success", PBool true)])))
               Samples.client 0%nat _ PNone eq_refl _ eq_refl _ eq_refl)
            "https://example.com" None None).
  - intros i Hi. exfalso. exact (Nat.nlt_0_r i Hi).
  - split; [reflexivity|].
    exists [("success", PBool true)]. repeat split.
Defined.

(** X10.  [health] makes exactly one call and never sleeps.  It does not
    look at the status: the JSON body of any response is returned as it
    is, and an exception of the call, a timeout included, is raised as it
    is, so that [health] never raises an [UnbrowserError]. *)
Theorem health_is_one_unclassified_call (srv : server) (c : t)
    (log : list event) :
  let run := Operations.health srv c log in
  snd run
  = log ++ [EvSend "GET" (base_url c ++ "/health")%string None (timeout c)]
  /\ (forall cls msg,
        srv (count_sends log) = NetRaises cls msg ->
        fst run = Raised (RequestsError cls msg))
  /\ (forall r v,
        srv (count_sends log) = NetResponds r ->
        content r = JsonBody v ->
        fst run = Returned v)
  /\ (forall e, fst run = Raised e -> is_UnbrowserError e = false).
Proof.
  unfold Operations.health, bind, session_send, lift, response_json.
  destruct (srv (count_sends log)) as [cls msg|r] eqn:Hs; cbn.
  - repeat split.
    + intros cls' msg' H. injection H as <- <-. reflexivity.
    + intros r v H. discriminate H.
    + intros e H. injection H as <-. reflexivity.
  - repeat split.
    + intros cls msg H. discriminate H.
    + intros r' v H Hb. injection H as <-. now rewrite Hb.
    + intros e. destruct (content r); [discriminate| | |];
        intros H; injection H as <-; reflexivity.
Qed.

Lemma health_witness :
  fst (Operations.health
         (Samples.always
            (Samples.json_response 401 []
               (PDict [("status", PStr "degraded")])))
         Samples.client [])
  = Returned (PDict [("status", PStr "degraded")]).
Proof.
  exact (proj1 (proj2 (proj2
           (health_is_one_unclassified_call
              (Samples.always
                 (Samples.json_response 401 []
                    (PDict [("status", PStr "degraded")])))
              Samples.client [])))
           _ _ eq_refl eq_refl).
Defined.

Lemma chars_append (a b : string) :
  list_ascii_of_string (a ++ b)
  = list_ascii_of_string a ++ list_ascii_of_string b.
Proof. induction a as [|x a IH]; cbn; [reflexivity|now rewrite IH]. Qed.

Lemma hex_digit_safe (n : nat) :
  (n < 16)%nat -> always_safe (hex_digit n) = true.
Proof.
  intros H.
  do 16 (destruct n as [|n]; [reflexivity|]).
  exfalso. lia.
Qed.

Lemma safe_is_query_char (ch : ascii) :
  always_safe ch = true -> query_char ch = true.
Proof. unfold query_char. now intros ->. Qed.

Lemma quote_plus_chars (s : string) :
  forallb query_char (list_ascii_of_string (quote_plus s)) = true.
Proof.
  induction s as [|ch rest IH]; [reflexivity|].
  cbn [quote_plus].
  destruct (always_safe ch) eqn:Hsafe.
  - cbn. now rewrite (safe_is_query_char ch Hsafe).
  - destruct (Ascii.eqb ch " ").
    + cbn. exact IH.
    + cbn [list_ascii_of_string forallb].
      rewrite (safe_is_query_char (hex_digit (nat_of_ascii ch / 16))),
        (safe_is_query_char (hex_digit (nat_of_ascii ch mod 16))).
      * rewrite IH. reflexivity.
      * apply hex_digit_safe. apply Nat.mod_upper_bound. discriminate.
      * apply hex_digit_safe.
        pose proof (nat_ascii_bounded ch) as Hb.
        apply Nat.Div0.div_lt_upper_bound. exact Hb.
Qed.

Lemma urlencode_chars (params : list (string * string)) :
  forallb query_char (list_ascii_of_string (urlencode params)) = true.
Proof.
  unfold urlencode.
  induction params as [|[k v] rest IH]; [reflexivity|].
  cbn [map fst snd String.concat].
  assert (Hone : forallb query_char
                   (list_ascii_of_string
                      (quote_plus k ++ "=" ++ quote_plus v)%string) = true).
  { rewrite !chars_append, !forallb_app, !quote_plus_chars. reflexivity. }
  destruct (map _ rest) eqn:Hrest.
  - exact Hone.
  - rewrite !chars_append, !forallb_app. rewrite IH.
    rewrite <- !forallb_app, <- !chars_append. rewrite Hone. reflexivity.
Qed.

(** X11.  [list_workflows] is a GET of [/v1/workflows] followed by a query
    string.  The query string is empty exactly when no filter is given, an
    empty domain and an empty tag list counting as none; otherwise it is a
    question mark followed only by unreserved characters, [+], [%], [=]
    and [&], so that no character of a domain or of a tag reaches the URL
    unescaped. *)
Theorem list_workflows_query_is_escaped (srv : server) (c : t)
    (domain : option string) (tags : option (list string)) :
  exists query,
    list_workflows srv c domain tags
    = _request srv c "GET" ("/v1/workflows" ++ query)%string None
    /\ (query = ""
        <-> (domain = None \/ domain = Some "")
            /\ (tags = None \/ tags = Some []))
    /\ (query = ""
        \/ exists q,
             query = String "?" q
             /\ forallb query_char (list_ascii_of_string q) = true).
Proof.
  unfold list_workflows.
  destruct domain as [[|dc ds]|], tags as [[|tag more]|]; cbn [negb String.eqb app];
    try (exists ""; split; [reflexivity|];
         split; [split; [intros _; split; auto|reflexivity]|now left]).
  all: eexists; split; [reflexivity|];
    split; [split; [discriminate|intros [[H|H] [H'|H']]; discriminate]|];
    right; eexists; split; [reflexivity|]; apply urlencode_chars.
Qed.

Lemma list_workflows_query_witness :
  exists query,
    list_workflows Samples.always_timeout Samples.client (Some "a b.com")
      (Some ["x"; "y&z"])
    = _request Samples.always_timeout Samples.client "GET"
        ("/v1/workflows" ++ query)%string None
    /\ (query = ""
        <-> (Some "a b.com" = None \/ Some "a b.com" = Some "")
            /\ (Some ["x"; "y&z"] = None \/ Some ["x"; "y&z"] = Some []))
    /\ (query = ""
        \/ exists q,
             query = String "?" q
             /\ forallb query_char (list_ascii_of_string q) = true).
Proof.
  exact (list_workflows_query_is_escaped Samples.always_timeout
           Samples.client (Some "a b.com") (Some ["x"; "y&z"])).
Defined.

(** * Further properties of the response parsers *)

Lemma map_outcome_Forall2 {A B : Type} (f : A -> outcome B)
    (items : list A) :
  forall ys,
    map_outcome f items = Returned ys <->
    Forall2 (fun x y => f x = Returned y) items ys.
Proof.
  induction items as [|x rest IH]; intros ys; cbn [map_outcome].
  - split.
    + intros H. injection H as <-. constructor.
    + intros H. inversion H. reflexivity.
  - split.
    + destruct (f x) as [y|e] eqn:Hx; cbn [obind]; [|discriminate].
      destruct (map_outcome f rest) as [ys'|e] eqn:Hr; cbn [obind];
        [|discriminate].
      intros H. injection H as <-. constructor; [exact Hx|].
      now apply IH.
    + intros H. inversion H as [|x' y l l' Hx Hrest]; subst.
      rewrite Hx. cbn [obind].
      apply IH in Hrest. rewrite Hrest. reflexivity.
Qed.

Lemma map_outcome_length {A B : Type} (f : A -> outcome B)
    (items : list A) (ys : list B) :
  map_outcome f items = Returned ys -> List.length ys = List.length items.
Proof.
  intros H. apply map_outcome_Forall2 in H.
  symmetry. eapply Forall2_length. exact H.
Qed.

Lemma map_outcome_fails {A B : Type} (f : A -> outcome B)
    (items : list A) (x : A) (e : exn) :
  In x items -> f x = Raised e ->
  exists e', map_outcome f items = Raised e'.
Proof.
  induction items as [|y rest IH]; intros Hin Hx; [contradiction|].
  cbn [map_outcome].
  destruct (f y) as [b|e0] eqn:Hy; cbn [obind]; [|eexists; reflexivity].
  destruct Hin as [->|Hin]; [congruence|].
  destruct (IH Hin Hx) as (e' & ->). eexists; reflexivity.
Qed.

Lemma map_outcome_map {A B : Type} (f : A -> outcome B) (g : B -> A)
    (ys : list B) :
  (forall y, f (g y) = Returned y) ->
  map_outcome f (map g ys) = Returned ys.
Proof.
  intros H. induction ys as [|y rest IH]; [reflexivity|].
  cbn [map map_outcome]. rewrite H, IH. reflexivity.
Qed.

Lemma py_iter_truthy_nonempty (v : pyval) (items : list pyval) :
  truthy v = true -> py_iter v = Returned items -> items <> [].
Proof.
  destruct v as [| | | |s|l|d]; try discriminate; cbn.
  - destruct s; [discriminate|]. intros _ H. injection H as <-. discriminate.
  - destruct l; [discriminate|]. intros _ H. injection H as <-. discriminate.
  - destruct d; [discriminate|]. intros _ H. injection H as <-. discriminate.
Qed.

Section OptionalList.

Context {A : Type}.
Variable item_of : pyval -> outcome A.

Lemma optional_list_absent (d : pydict) (key : string) :
  truthy (lookup_default d key PNone) = false ->
  BrowseResult.optional_list (PDict d) key item_of = Returned None.
Proof.
  intros H. unfold BrowseResult.optional_list.
  rewrite py_get_lookup_default. cbn [obind]. now rewrite H.
Qed.

Lemma optional_list_present (d : pydict) (key : string)
    (items : list pyval) :
  dict_lookup d key = Some (PList items) -> items <> [] ->
  BrowseResult.optional_list (PDict d) key item_of
  = (let? parsed := map_outcome item_of items in Returned (Some parsed)).
Proof.
  intros H Hne. unfold BrowseResult.optional_list.
  rewrite py_get_lookup_default. cbn [obind].
  unfold lookup_default. rewrite H.
  destruct items as [|x rest]; [contradiction|].
  cbn [truthy py_getitem]. rewrite H. reflexivity.
Qed.

Lemma optional_list_never_empty (d : pydict) (key : string)
    (parsed : list A) :
  BrowseResult.optional_list (PDict d) key item_of = Returned (Some parsed) ->
  parsed <> [].
Proof.
  unfold BrowseResult.optional_list.
  rewrite py_get_lookup_default. cbn [obind].
  destruct (truthy (lookup_default d key PNone)) eqn:Ht; [|discriminate].
  unfold py_getitem, lookup_default in *.
  destruct (dict_lookup d key) as [raw|]; [|discriminate]. cbn [obind].
  destruct (py_iter raw) as [items|] eqn:Hi; [|discriminate]. cbn [obind].
  destruct (map_outcome item_of items) as [ys|] eqn:Hm; [|discriminate].
  cbn [obind]. intros H. injection H as <-.
  pose proof (py_iter_truthy_nonempty raw items Ht Hi) as Hne.
  apply map_outcome_length in Hm.
  destruct ys; [|discriminate]. destruct items; [contradiction|discriminate].
Qed.

End OptionalList.

(** The members of a parsed browse result, read back from the steps of
    [from_dict]. *)
Lemma browse_result_parts (data : pyval) (res : BrowseResult.t) :
  BrowseResult.from_dict data = Returned res ->
  BrowseResult.optional_list data "tables" BrowseResult.table_of
  = Returned (BrowseResult.tables res)
  /\ BrowseResult.optional_list data "discoveredApis" BrowseResult.api_of
     = Returned (BrowseResult.discovered_apis res)
  /\ BrowseResult.optional_list data "newCookies" BrowseResult.cookie_of
     = Returned (BrowseResult.new_cookies res)
  /\ (forall present,
        py_get data "verification" PNone = Returned present ->
        truthy present = false -> BrowseResult.verification res = None)
  /\ py_getitem data "url" = Returned (BrowseResult.url res)
  /\ py_getitem data "finalUrl" = Returned (BrowseResult.final_url res)
  /\ py_getitem data "title" = Returned (BrowseResult.title res).
Proof.
  unfold BrowseResult.from_dict.
  repeat (cbn [obind];
          match goal with
          | |- obind ?x _ = Returned _ -> _ =>
              destruct x eqn:?; [|cbn [obind]; discriminate]
          end).
  cbn [obind]. intros H. injection H as <-.
  cbn [BrowseResult.tables BrowseResult.discovered_apis
       BrowseResult.new_cookies BrowseResult.verification BrowseResult.url
       BrowseResult.final_url BrowseResult.title].
  repeat split; try assumption.
  intros present Hp Hf. injection Hp as ->.
  match goal with
  | H : (if truthy present then _ else _) = Returned ?o |- ?o = None =>
      rewrite Hf in H; now injection H as <-
  end.
Qed.

Lemma cookie_of_cookie_dict (ck : Cookie.t) :
  BrowseResult.cookie_of (SessionData.cookie_dict ck) = Returned ck.
Proof. destruct ck. reflexivity. Qed.

(** X12.  Cookies survive the wire: parsing the object that
    [SessionData.to_dict] writes for a cookie gives the cookie back, unset
    domain and path included; and a browse result whose [newCookies] member
    is the list written under [cookies] holds exactly the cookies of the
    session, in order. *)
Theorem cookies_round_trip :
  (forall ck,
     BrowseResult.cookie_of (SessionData.cookie_dict ck) = Returned ck)
  /\ (forall s d res,
        SessionData.cookies s <> [] ->
        dict_lookup d "newCookies"
        = dict_lookup (SessionData.to_dict s) "cookies" ->
        BrowseResult.from_dict (PDict d) = Returned res ->
        BrowseResult.new_cookies res = Some (SessionData.cookies s)).
Proof.
  split; [exact cookie_of_cookie_dict|].
  intros [cs ls] d res Hne Hwire Hres.
  cbn [SessionData.cookies] in *.
  assert (Hw : dict_lookup d "newCookies"
               = Some (PList (map SessionData.cookie_dict cs))).
  { rewrite Hwire. unfold SessionData.to_dict.
    cbn [SessionData.cookies SessionData.local_storage].
    destruct cs as [|ck cs]; [contradiction|]. destruct ls; reflexivity. }
  destruct (browse_result_parts _ _ Hres) as (_ & _ & Hck & _).
  rewrite (optional_list_present BrowseResult.cookie_of d "newCookies"
             (map SessionData.cookie_dict cs) Hw) in Hck.
  - rewrite (map_outcome_map BrowseResult.cookie_of SessionData.cookie_dict
               cs cookie_of_cookie_dict) in Hck.
    cbn [obind] in Hck. now injection Hck as <-.
  - destruct cs; [contradiction|discriminate].
Qed.

Lemma cookies_round_trip_witness :
  BrowseResult.new_cookies
    {| BrowseResult.url := PStr "https://example.com";
       BrowseResult.final_url := PStr "https://example.com/";
       BrowseResult.title := PStr "Example";
       BrowseResult.content :=
         {| ContentResult.markdown := PStr "content";
            ContentResult.text := PStr "content";
            ContentResult.html := PNone |};
       BrowseResult.metadata :=
         {| BrowseMetadata.load_time := PInt 100;
            BrowseMetadata.tier := PStr "intelligence";
            BrowseMetadata.tiers_attempted := PList [PStr "intelligence"] |};
       BrowseResult.tables := None;
       BrowseResult.discovered_apis := None;
       BrowseResult.new_cookies := Some [Cookie.make "session_id" "abc123"];
       BrowseResult.verification := None |}
  = Some [Cookie.make "session_id" "abc123"].
Proof.
  exact (proj2 cookies_round_trip
           {| SessionData.cookies := [Cookie.make "session_id" "abc123"];
              SessionData.local_storage := [] |}
           [("url", PStr "https://example.com");
            ("finalUrl", PStr "https://example.com/");
            ("title", PStr "Example");
            ("content", PDict [("markdown", PStr "content");
                               ("text", PStr "content")]);
            ("metadata", PDict [("loadTime", PInt 100);
                                ("tier", PStr "intelligence");
                                ("tiersAttempted",
                                 PList [PStr "intelligence"])]);
            ("newCookies",
             PList [PDict [("name", PStr "session_id");
                           ("value", PStr "abc123");
                           ("domain", PNone); ("path", PStr "/")]])]
           _ ltac:(discriminate) eq_refl eq_refl).
Defined.

(** X13.  In a parsed browse result each of [tables], [discovered_apis]
    and [new_cookies] is [None] when the member is absent, null or an empty
    list, and is never an empty list; a non-empty list member is parsed
    item by item into a list of the same length.  [verification] is [None]
    when its member is absent, null or an empty object. *)
Theorem browse_result_optional_members (d : pydict) (res : BrowseResult.t) :
  BrowseResult.from_dict (PDict d) = Returned res ->
  (truthy (lookup_default d "tables" PNone) = false ->
   BrowseResult.tables res = None)
  /\ (truthy (lookup_default d "discoveredApis" PNone) = false ->
      BrowseResult.discovered_apis res = None)
  /\ (truthy (lookup_default d "newCookies" PNone) = false ->
      BrowseResult.new_cookies res = None)
  /\ (truthy (lookup_default d "verification" PNone) = false ->
      BrowseResult.verification res = None)
  /\ BrowseResult.tables res <> Some []
  /\ BrowseResult.discovered_apis res <> Some []
  /\ BrowseResult.new_cookies res <> Some []
  /\ (forall items,
        items <> [] ->
        (dict_lookup d "tables" = Some (PList items) ->
         exists ts,
           BrowseResult.tables res = Some ts
           /\ List.length ts = List.length items)
        /\ (dict_lookup d "discoveredApis" = Some (PList items) ->
            exists apis,
              BrowseResult.discovered_apis res = Some apis
              /\ List.length apis = List.length items)
        /\ (dict_lookup d "newCookies" = Some (PList items) ->
            exists cks,
              BrowseResult.new_cookies res = Some cks
              /\ List.length cks = List.length items)).
Proof.
  intros Hres.
  destruct (browse_result_parts _ _ Hres) as (Ht & Ha & Hc & Hv & _).
  assert (Habsent : forall (A : Type) (f : pyval -> outcome A) key o,
             BrowseResult.optional_list (PDict d) key f = Returned o ->
             truthy (lookup_default d key PNone) = false -> o = None).
  { intros A f key o Ho Hf.
    rewrite (optional_list_absent f d key Hf) in Ho. now injection Ho. }
  assert (Hfull : forall (A : Type) (f : pyval -> outcome A) key o items,
             BrowseResult.optional_list (PDict d) key f = Returned o ->
             items <> [] -> dict_lookup d key = Some (PList items) ->
             exists ys, o = Some ys /\ List.length ys = List.length items).
  { intros A f key o items Ho Hne Hk.
    rewrite (optional_list_present f d key items Hk Hne) in Ho.
    destruct (map_outcome f items) as [ys|] eqn:Hm; [|discriminate].
    cbn [obind] in Ho. injection Ho as <-.
    exists ys. split; [reflexivity|]. now apply (map_outcome_length f). }
  split; [now apply (Habsent _ _ _ _ Ht)|].
  split; [now apply (Habsent _ _ _ _ Ha)|].
  split; [now apply (Habsent _ _ _ _ Hc)|].
  split.
  { intros Hf. apply (Hv (lookup_default d "verification" PNone));
      [apply py_get_lookup_default|exact Hf]. }
  split.
  { intros H. rewrite H in Ht.
    now apply (optional_list_never_empty _ _ _ _ Ht). }
  split.
  { intros H. rewrite H in Ha.
    now apply (optional_list_never_empty _ _ _ _ Ha). }
  split.
  { intros H. rewrite H in Hc.
    now apply (optional_list_never_empty _ _ _ _ Hc). }
  intros items Hne. repeat split; intros Hk.
  - now apply (Hfull _ _ _ _ items Ht).
  - now apply (Hfull _ _ _ _ items Ha).
  - now apply (Hfull _ _ _ _ items Hc).
Qed.

Lemma browse_result_optional_witness :
  BrowseResult.tables
    {| BrowseResult.url := PStr "https://example.com";
       BrowseResult.final_url := PStr "https://example.com/";
       BrowseResult.title := PStr "Example";
       BrowseResult.content :=
         {| ContentResult.markdown := PStr "content";
            ContentResult.text := PStr "content";
            ContentResult.html := PNone |};
       BrowseResult.metadata :=
         {| BrowseMetadata.load_time := PInt 100;
            BrowseMetadata.tier := PStr "intelligence";
            BrowseMetadata.tiers_attempted := PList [PStr "intelligence"] |};
       BrowseResult.tables := None;
       BrowseResult.discovered_apis := None;
       BrowseResult.new_cookies := None;
       BrowseResult.verification := None |}
  = None.
Proof.
  exact (proj1
           (browse_result_optional_members
              [("url", PStr "https://example.com");
               ("finalUrl", PStr "https://example.com/");
               ("title", PStr "Example");
               ("content", PDict [("markdown", PStr "content");
                                  ("text", PStr "content")]);
               ("metadata", PDict [("loadTime", PInt 100);
                                   ("tier", PStr "intelligence");
                                   ("tiersAttempted",
                                    PList [PStr "intelligence"])]);
               ("tables", PList [])]
              _ eq_refl)
           eq_refl).
Defined.

(** * Further properties of the request payloads *)

Lemma looks_up_setitem (k k' : string) (found : option pyval) (v : pyval)
    (d : pydict) :
  String.eqb k' k = false -> looks_up k found d ->
  looks_up k found (dict_setitem d k' v).
Proof.
  unfold looks_up. intros Hk Hd. now rewrite dict_lookup_setitem, Hk.
Qed.

(** The step of a [to_dict] that writes the key looked up. *)
Ltac written_here :=
  match goal with
  | |- looks_up ?k ?f _ =>
    match goal with
    | r := _ : pydict |- _ =>
        first [ assert (looks_up k f r)
                  by (unfold r, looks_up in *; cbn;
                      repeat (match goal with
                              | |- context [String.eqb ?s ""] =>
                                  destruct (String.eqb s "")
                              | |- context [negb ?b] => destruct b
                              | |- context [match ?x with _ => _ end] =>
                                  destruct x
                              end; cbn);
                      rewrite ?dict_lookup_setitem; cbn;
                      solve [assumption | reflexivity])
              | fail 1 ];
        clearbody r
    end
  end.

(** The key is absent up to the step that writes it and keeps its value
    through the steps that follow. *)
Ltac key_of_to_dict :=
  cbv beta delta [BrowseOptions.to_dict]; name_lets;
  match goal with
  | |- looks_up ?k ?f _ =>
      through_lets (looks_up k None)
        ltac:(apply looks_up_setitem; [reflexivity|assumption]);
      written_here;
      through_lets (looks_up k f)
        ltac:(apply looks_up_setitem; [reflexivity|assumption])
  end;
  assumption.

Lemma browse_options_other_keys (o : BrowseOptions.t) (k : string) :
  ~ In k ["contentType"; "waitForSelector"; "scrollToLoad"; "maxChars";
          "includeTables"; "maxLatencyMs"; "maxCostTier"; "verify"] ->
  looks_up k None (BrowseOptions.to_dict o).
Proof.
  intros Hk.
  assert (Hne : forall k',
             In k' ["contentType"; "waitForSelector"; "scrollToLoad";
                    "maxChars"; "includeTables"; "maxLatencyMs";
                    "maxCostTier"; "verify"] ->
             String.eqb k' k = false).
  { intros k' Hin. apply String.eqb_neq. intros ->. contradiction. }
  cbv beta delta [BrowseOptions.to_dict]; name_lets.
  through_lets (looks_up k None)
    ltac:(apply looks_up_setitem; [apply Hne; cbn; tauto|assumption]).
  assumption.
Qed.

(** X14.  The payload of [BrowseOptions.to_dict], member by member: the
    content type is always sent; a selector is sent unless it is unset or
    empty; [scrollToLoad] is sent only when true and [includeTables] only
    when false, so that defaults are left out; [maxChars] and
    [maxLatencyMs] are sent whenever set, zero included; the cost tier and
    the verify options are sent whenever set; no other key is ever
    written. *)
Theorem browse_options_wire_members (o : BrowseOptions.t) :
  let d := BrowseOptions.to_dict o in
  dict_lookup d "contentType"
  = Some (PStr (ContentType.value (BrowseOptions.content_type o)))
  /\ dict_lookup d "waitForSelector"
     = match BrowseOptions.wait_for_selector o with
       | Some s => if String.eqb s "" then None else Some (PStr s)
       | None => None
       end
  /\ dict_lookup d "scrollToLoad"
     = (if BrowseOptions.scroll_to_load o then Some (PBool true) else None)
  /\ dict_lookup d "maxChars" = option_map PInt (BrowseOptions.max_chars o)
  /\ dict_lookup d "includeTables"
     = (if BrowseOptions.include_tables o then None else Some (PBool false))
  /\ dict_lookup d "maxLatencyMs"
     = option_map PInt (BrowseOptions.max_latency_ms o)
  /\ dict_lookup d "maxCostTier"
     = option_map (fun tier => PStr (CostTier.value tier))
         (BrowseOptions.max_cost_tier o)
  /\ dict_lookup d "verify"
     = option_map
         (fun v =>
            PDict [("enabled", PBool (VerifyOptions.enabled v));
                   ("mode",
                    PStr (VerificationMode.value (VerifyOptions.mode v)))])
         (BrowseOptions.verify o)
  /\ (forall k,
        ~ In k ["contentType"; "waitForSelector"; "scrollToLoad"; "maxChars";
                "includeTables"; "maxLatencyMs"; "maxCostTier"; "verify"] ->
        dict_lookup d k = None).
Proof.
  cbv zeta.
  split.
  { change (looks_up "contentType"
              (Some (PStr (ContentType.value (BrowseOptions.content_type o))))
              (BrowseOptions.to_dict o)).
    destruct o as [[] ? ? ? ? ? ? ?]; cbn [BrowseOptions.content_type];
      key_of_to_dict. }
  split.
  { change (looks_up "waitForSelector"
              match BrowseOptions.wait_for_selector o with
              | Some s => if String.eqb s "" then None else Some (PStr s)
              | None => None
              end (BrowseOptions.to_dict o)).
    key_of_to_dict. }
  split.
  { change (looks_up "scrollToLoad"
              (if BrowseOptions.scroll_to_load o then Some (PBool true)
               else None) (BrowseOptions.to_dict o)).
    key_of_to_dict. }
  split.
  { change (looks_up "maxChars" (option_map PInt (BrowseOptions.max_chars o))
              (BrowseOptions.to_dict o)).
    key_of_to_dict. }
  split.
  { change (looks_up "includeTables"
              (if BrowseOptions.include_tables o then None
               else Some (PBool false)) (BrowseOptions.to_dict o)).
    key_of_to_dict. }
  split.
  { change (looks_up "maxLatencyMs"
              (option_map PInt (BrowseOptions.max_latency_ms o))
              (BrowseOptions.to_dict o)).
    key_of_to_dict. }
  split.
  { change (looks_up "maxCostTier"
              (option_map (fun tier => PStr (CostTier.value tier))
                 (BrowseOptions.max_cost_tier o))
              (BrowseOptions.to_dict o)).
    destruct o as [? ? ? ? ? ? [[]|] ?];
      cbn [BrowseOptions.max_cost_tier option_map]; key_of_to_dict. }
  split.
  { change (looks_up "verify"
              (option_map
                 (fun v =>
                    PDict [("enabled", PBool (VerifyOptions.enabled v));
                           ("mode",
                            PStr (VerificationMode.value
                                    (VerifyOptions.mode v)))])
                 (BrowseOptions.verify o))
              (BrowseOptions.to_dict o)).
    key_of_to_dict. }
  intros k Hk. now apply browse_options_other_keys.
Qed.

Lemma browse_options_wire_witness :
  dict_lookup
    (BrowseOptions.to_dict
       {| BrowseOptions.content_type := ContentType.MARKDOWN;
          BrowseOptions.wait_for_selector := Some "";
          BrowseOptions.scroll_to_load := false;
          BrowseOptions.max_chars := Some 0;
          BrowseOptions.include_tables := true;
          BrowseOptions.max_latency_ms := None;
          BrowseOptions.max_cost_tier := None;
          BrowseOptions.verify := None |})
    "timeout"
  = None.
Proof.
  refine (proj2 (proj2 (proj2 (proj2 (proj2 (proj2 (proj2 (proj2
            (browse_options_wire_members _)))))))) "timeout" _).
  cbn. intros H.
  repeat (destruct H as [H|H]; [discriminate H|]). exact H.
Defined.

(** * Enumerations on the wire *)

Lemma enum_call_member {E : Type} (name : string) (value : E -> string)
    (members : list E) (m : E) :
  NoDup (map value members) -> In m members ->
  enum_call name value members (PStr (value m)) = Returned m.
Proof.
  unfold enum_call.
  induction members as [|x rest IH]; intros Hnd Hin; [contradiction|].
  cbn [map] in Hnd. apply NoDup_cons_iff in Hnd. destruct Hnd as [Hx Hnd].
  cbn [find]. destruct (String.eqb (value x) (value m)) eqn:Heq.
  - destruct Hin as [->|Hin]; [reflexivity|].
    apply String.eqb_eq in Heq. exfalso. apply Hx. rewrite Heq.
    now apply in_map.
  - destruct Hin as [->|Hin]; [now rewrite String.eqb_refl in Heq|].
    now apply IH.
Qed.

Lemma enum_call_iff {E : Type} (name : string) (value : E -> string)
    (members : list E) :
  NoDup (map value members) -> (forall m, In m members) ->
  forall v m,
    enum_call name value members v = Returned m <-> v = PStr (value m).
Proof.
  intros Hnd Hall v m. split.
  - intros H. now apply enum_call_returned in H.
  - intros ->. now apply enum_call_member.
Qed.

(** No two members of the enumeration share a value. *)
Ltac distinct_values :=
  cbn;
  repeat (apply NoDup_cons;
          [cbn; intros H; repeat (destruct H as [H|H]; [discriminate H|]);
           exact H|]);
  apply NoDup_nil.

Lemma to_dict_max_cost_tier (o : BrowseOptions.t) :
  looks_up "maxCostTier"
    (option_map (fun tier => PStr (CostTier.value tier))
       (BrowseOptions.max_cost_tier o))
    (BrowseOptions.to_dict o).
Proof.
  destruct o as [? ? ? ? ? ? [[]|] ?];
    cbn [BrowseOptions.max_cost_tier option_map]; key_of_to_dict.
Qed.

(** X15.  Values and members of the enumerations parsed from responses
    correspond one to one: [CostTier(v)], [Importance(v)],
    [DomainFamiliarity(v)] and [ConfidenceRating(v)] return a member exactly
    when [v] is that member's value, and raise [ValueError] on every other
    value.  In particular the cost tier that [BrowseOptions.to_dict] sends
    is read back by [CostTier] as the tier that was set. *)
Theorem enum_values_round_trip :
  (forall v m, CostTier_call v = Returned m <-> v = PStr (CostTier.value m))
  /\ (forall v m,
        Importance_call v = Returned m <-> v = PStr (Importance.value m))
  /\ (forall v m,
        DomainFamiliarity_call v = Returned m
        <-> v = PStr (DomainFamiliarity.value m))
  /\ (forall v m,
        ConfidenceRating_call v = Returned m
        <-> v = PStr (ConfidenceRating.value m))
  /\ (forall v e,
        CostTier_call v = Raised e \/ Importance_call v = Raised e
        \/ DomainFamiliarity_call v = Raised e
        \/ ConfidenceRating_call v = Raised e ->
        is_enum_ValueError e = true)
  /\ (forall o tier,
        BrowseOptions.max_cost_tier o = Some tier ->
        exists v,
          dict_lookup (BrowseOptions.to_dict o) "maxCostTier" = Some v
          /\ CostTier_call v = Returned tier).
Proof.
  assert (Hc : forall v m,
             CostTier_call v = Returned m <-> v = PStr (CostTier.value m)).
  { apply enum_call_iff; [distinct_values|]. intros []; cbn; tauto. }
  split; [exact Hc|].
  split. { apply enum_call_iff; [distinct_values|]. intros []; cbn; tauto. }
  split. { apply enum_call_iff; [distinct_values|]. intros []; cbn; tauto. }
  split. { apply enum_call_iff; [distinct_values|]. intros []; cbn; tauto. }
  split.
  { intros v e [H|[H|[H|H]]]; eapply enum_call_raised; exact H. }
  intros o tier Ht. exists (PStr (CostTier.value tier)). split.
  - pose proof (to_dict_max_cost_tier o) as Hw. unfold looks_up in Hw.
    rewrite Hw, Ht. reflexivity.
  - now apply Hc.
Qed.

Lemma enum_values_round_trip_witness :
  exists v,
    dict_lookup
      (BrowseOptions.to_dict
         {| BrowseOptions.content_type := ContentType.MARKDOWN;
            BrowseOptions.wait_for_selector := None;
            BrowseOptions.scroll_to_load := false;
            BrowseOptions.max_chars := None;
            BrowseOptions.include_tables := true;
            BrowseOptions.max_latency_ms := None;
            BrowseOptions.max_cost_tier := Some CostTier.LIGHTWEIGHT;
            BrowseOptions.verify := None |})
      "maxCostTier" = Some v
    /\ CostTier_call v = Returned CostTier.LIGHTWEIGHT.
Proof.
  apply (proj2 (proj2 (proj2 (proj2 (proj2 enum_values_round_trip))))).
  reflexivity.
Defined.

(** * Results that hold a list *)

Lemma map_outcome_first_failure {A B : Type} (f : A -> outcome B)
    (pre : list A) (x : A) (post : list A) (e : exn) :
  (forall p, In p pre -> exists y, f p = Returned y) ->
  f x = Raised e ->
  map_outcome f (pre ++ x :: post) = Raised e.
Proof.
  induction pre as [|p pre IH]; intros Hpre Hx; cbn [app map_outcome].
  - now rewrite Hx.
  - destruct (Hpre p (or_introl eq_refl)) as [y Hy]. rewrite Hy.
    cbn [obind]. rewrite IH; [reflexivity| |assumption].
    intros q Hq. apply Hpre. now right.
Qed.

Lemma item_of_returned (r : pyval) (item : BatchResultItem.t) :
  BatchResult.item_of r = Returned item <-> batch_item_reads r item.
Proof.
  unfold batch_item_reads, BatchResult.item_of. split.
  - destruct r as [| | | | | |rd]; try discriminate.
    cbn [py_getitem]. rewrite !py_get_lookup_default.
    destruct (dict_lookup rd "url") as [u|] eqn:Hu; [|discriminate].
    destruct (dict_lookup rd "success") as [s|] eqn:Hs; [|discriminate].
    cbn [obind]. unfold lookup_default at 1 2.
    destruct (dict_lookup rd "data") as [raw|] eqn:Hd; cbn [obind].
    + destruct (truthy raw) eqn:Ht; cbn [obind].
      * destruct (BrowseResult.from_dict raw) as [res|e] eqn:Hp;
          [|discriminate]. cbn [obind].
        intros H; injection H as <-. exists rd. cbn.
        do 4 (split; [first [reflexivity|assumption]|]). exists raw.
        split; [exact Hd|]. split; assumption.
      * intros H; injection H as <-. exists rd. cbn.
        do 4 (split; [first [reflexivity|assumption]|]).
        unfold lookup_default. now rewrite Hd.
    + cbn [truthy obind]. intros H; injection H as <-. exists rd. cbn.
      do 4 (split; [first [reflexivity|assumption]|]).
      unfold lookup_default. now rewrite Hd.
  - intros (rd & -> & Hu & Hs & He & Hdata).
    cbn [py_getitem]. rewrite !py_get_lookup_default, Hu, Hs. cbn [obind].
    destruct item as [u s [res|] er];
      cbn [BatchResultItem.url BatchResultItem.success BatchResultItem.data
           BatchResultItem.error] in *.
    + destruct Hdata as (raw & Hd & Ht & Hp).
      unfold lookup_default at 1. rewrite Hd, Ht. cbn [obind].
      rewrite Hp. cbn [obind].
      now rewrite He.
    + rewrite Hdata. cbn [obind]. now rewrite He.
Qed.

(** X16.  [BatchResult.from_dict] on an object whose [results] member is a
    list returns exactly when every element is an object holding [url] and
    [success] and [totalTime] is present.  The items come in the order of
    the list; an item's [error] is the element's member or [None]; its
    [data] is [None] when the element's [data] is absent, null or an empty
    object, and the parsed browse result otherwise.  The first element
    that fails to parse fails the whole batch with its own exception, so
    that the items parsed before it are lost. *)
Theorem batch_result_items (d : pydict) (items : list pyval) :
  dict_lookup d "results" = Some (PList items) ->
  (forall b,
     BatchResult.from_dict (PDict d) = Returned b <->
     Forall2 batch_item_reads items (BatchResult.results b)
     /\ dict_lookup d "totalTime" = Some (BatchResult.total_time b))
  /\ (forall pre r post e,
        items = pre ++ r :: post ->
        Forall (fun p => exists item, batch_item_reads p item) pre ->
        BatchResult.item_of r = Raised e ->
        BatchResult.from_dict (PDict d) = Raised e).
Proof.
  intros Hr. unfold BatchResult.from_dict. cbn [py_getitem py_iter].
  rewrite Hr. cbn [obind py_iter]. split.
  - intros b. split.
    + destruct (map_outcome BatchResult.item_of items) as [ys|e] eqn:Hm;
        [|discriminate]. cbn [obind].
      destruct (dict_lookup d "totalTime") as [t|]; [|discriminate].
      cbn [obind]. intros H; injection H as <-. cbn. split; [|reflexivity].
      apply map_outcome_Forall2 in Hm.
      eapply Forall2_impl; [|exact Hm]. intros x y. apply item_of_returned.
    + intros [Hall Ht].
      assert (Hm : map_outcome BatchResult.item_of items
                   = Returned (BatchResult.results b)).
      { apply map_outcome_Forall2. eapply Forall2_impl; [|exact Hall].
        intros x y. apply item_of_returned. }
      rewrite Hm, Ht. cbn [obind]. now destruct b.
  - intros pre r post e -> Hpre Hx.
    rewrite (map_outcome_first_failure BatchResult.item_of pre r post e);
      [reflexivity| |exact Hx].
    intros p Hp. rewrite Forall_forall in Hpre.
    destruct (Hpre p Hp) as [item Hi]. exists item.
    now apply item_of_returned.
Qed.

Lemma batch_result_items_witness :
  BatchResult.from_dict
    (PDict
       [("results",
         PList [PDict [("url", PStr "https://a.example");
                       ("success", PBool false);
                       ("error", PStr "timed out")];
                PDict [("success", PBool true)]]);
        ("totalTime", PInt 5)])
  = Raised (KeyError "url").
Proof.
  refine (proj2 (batch_result_items
                   [("results",
                     PList [PDict [("url", PStr "https://a.example");
                                   ("success", PBool false);
                                   ("error", PStr "timed out")];
                            PDict [("success", PBool true)]]);
                    ("totalTime", PInt 5)]
                   [PDict [("url", PStr "https://a.example");
                           ("success", PBool false);
                           ("error", PStr "timed out")];
                    PDict [("success", PBool true)]] eq_refl)
            [PDict [("url", PStr "https://a.example");
                    ("success", PBool false);
                    ("error", PStr "timed out")]]
            (PDict [("success", PBool true)]) [] _ eq_refl _ eq_refl).
  constructor; [|constructor].
  exists {| BatchResultItem.url := PStr "https://a.example";
            BatchResultItem.success := PBool false;
            BatchResultItem.data := None;
            BatchResultItem.error := PStr "timed out" |}.
  exists [("url", PStr "https://a.example"); ("success", PBool false);
          ("error", PStr "timed out")].
  cbn. repeat split.
Defined.

Lemma step_of_returned (r : pyval) (step : ReplayStepResult.t) :
  ReplayResult.step_of r = Returned step <-> replay_step_reads r step.
Proof.
  unfold replay_step_reads, ReplayResult.step_of. split.
  - destruct r as [| | | | | |rd]; try discriminate.
    cbn [py_getitem]. rewrite !py_get_lookup_default.
    destruct (dict_lookup rd "stepNumber") as [n|] eqn:Hn; [|discriminate].
    destruct (dict_lookup rd "success") as [s|] eqn:Hs; [|discriminate].
    destruct (dict_lookup rd "duration") as [t|] eqn:Hdu; [|discriminate].
    cbn [obind]. unfold lookup_default at 1 2.
    destruct (dict_lookup rd "tier") as [tv|] eqn:Hd; cbn [obind].
    + destruct (truthy tv) eqn:Ht; cbn [obind].
      * destruct (CostTier_call tv) as [m|e] eqn:Hp; [|discriminate].
        cbn [obind]. apply enum_call_returned in Hp. destruct Hp as [-> _].
        intros H; injection H as <-. exists rd. cbn.
        do 5 (split; [first [reflexivity|assumption]|]). exact Hd.
      * intros H; injection H as <-. exists rd. cbn.
        do 5 (split; [first [reflexivity|assumption]|]).
        unfold lookup_default. now rewrite Hd.
    + cbn [truthy obind]. intros H; injection H as <-. exists rd. cbn.
      do 5 (split; [first [reflexivity|assumption]|]).
      unfold lookup_default. now rewrite Hd.
  - intros (rd & -> & Hn & Hs & Hdu & He & Htier).
    cbn [py_getitem]. rewrite !py_get_lookup_default, Hn, Hs, Hdu.
    cbn [obind].
    destruct step as [n s t [m|] er];
      cbn [ReplayStepResult.step_number ReplayStepResult.success
           ReplayStepResult.duration ReplayStepResult.tier
           ReplayStepResult.error] in *.
    + unfold lookup_default at 1. rewrite Htier.
      destruct m; cbn; now rewrite He.
    + rewrite Htier. cbn [obind]. now rewrite He.
Qed.

Lemma step_of_unknown_tier (rd : pydict) (n s t tv : pyval) :
  dict_lookup rd "stepNumber" = Some n ->
  dict_lookup rd "success" = Some s ->
  dict_lookup rd "duration" = Some t ->
  dict_lookup rd "tier" = Some tv ->
  truthy tv = true ->
  py_in_strs tv CostTier.values = false ->
  ReplayResult.step_of (PDict rd)
  = Raised (ValueError (NotAMember "CostTier" tv)).
Proof.
  intros Hn Hs Hdu Hd Ht Hout. unfold ReplayResult.step_of.
  cbn [py_getitem]. rewrite !py_get_lookup_default, Hn, Hs, Hdu.
  cbn [obind]. unfold lookup_default at 1. rewrite Hd, Ht. cbn [obind].
  unfold CostTier_call. rewrite enum_call_outside; [reflexivity|exact Hout].
Qed.

(** X17.  [ReplayResult.from_dict] on an object whose [results] member is
    a list returns exactly when every element is an object holding
    [stepNumber], [success] and [duration] whose [tier], if truthy, is the
    value of a cost tier, and [workflowId], [overallSuccess] and
    [totalDuration] are present.  A step's tier is [None] when the member
    is absent, null or empty, and the member of that value otherwise.  A
    step with any other tier fails the whole result with [ValueError],
    whatever the steps after it hold. *)
Theorem replay_result_steps (d : pydict) (items : list pyval) :
  dict_lookup d "results" = Some (PList items) ->
  (forall rr,
     ReplayResult.from_dict (PDict d) = Returned rr <->
     Forall2 replay_step_reads items (ReplayResult.results rr)
     /\ dict_lookup d "workflowId" = Some (ReplayResult.workflow_id rr)
     /\ dict_lookup d "overallSuccess"
        = Some (ReplayResult.overall_success rr)
     /\ dict_lookup d "totalDuration"
        = Some (ReplayResult.total_duration rr))
  /\ (forall pre rd post n s t tv,
        items = pre ++ PDict rd :: post ->
        Forall (fun p => exists step, replay_step_reads p step) pre ->
        dict_lookup rd "stepNumber" = Some n ->
        dict_lookup rd "success" = Some s ->
        dict_lookup rd "duration" = Some t ->
        dict_lookup rd "tier" = Some tv ->
        truthy tv = true ->
        py_in_strs tv CostTier.values = false ->
        ReplayResult.from_dict (PDict d)
        = Raised (ValueError (NotAMember "CostTier" tv))).
Proof.
  intros Hr. unfold ReplayResult.from_dict. cbn [py_getitem py_iter].
  rewrite Hr. cbn [obind py_iter]. split.
  - intros rr. split.
    + destruct (map_outcome ReplayResult.step_of items) as [ys|e] eqn:Hm;
        [|discriminate]. cbn [obind].
      destruct (dict_lookup d "workflowId") as [w|]; [|discriminate].
      destruct (dict_lookup d "overallSuccess") as [o|]; [|discriminate].
      destruct (dict_lookup d "totalDuration") as [t|]; [|discriminate].
      cbn [obind]. intros H; injection H as <-. cbn.
      split; [|repeat split].
      apply map_outcome_Forall2 in Hm.
      eapply Forall2_impl; [|exact Hm]. intros x y. apply step_of_returned.
    + intros (Hall & Hw & Ho & Ht).
      assert (Hm : map_outcome ReplayResult.step_of items
                   = Returned (ReplayResult.results rr)).
      { apply map_outcome_Forall2. eapply Forall2_impl; [|exact Hall].
        intros x y. apply step_of_returned. }
      rewrite Hm, Hw, Ho, Ht. cbn [obind]. now destruct rr.
  - intros pre rd post n s t tv -> Hpre Hn Hs Ht Htv Htr Hout.
    rewrite (map_outcome_first_failure ReplayResult.step_of pre (PDict rd)
               post (ValueError (NotAMember "CostTier" tv)));
      [reflexivity| |now apply (step_of_unknown_tier rd n s t tv)].
    intros p Hp. rewrite Forall_forall in Hpre.
    destruct (Hpre p Hp) as [step Hi]. exists step.
    now apply step_of_returned.
Qed.

Lemma replay_result_steps_witness :
  ReplayResult.from_dict
    (PDict
       [("workflowId", PStr "wf_1");
        ("overallSuccess", PBool true);
        ("totalDuration", PInt 12);
        ("results",
         PList [PDict [("stepNumber", PInt 1); ("success", PBool true);
                       ("duration", PInt 7);
                       ("tier", PStr "intelligence")];
                PDict [("stepNumber", PInt 2); ("success", PBool true);
                       ("duration", PInt 5); ("tier", PStr "premium")]])])
  = Raised (ValueError (NotAMember "CostTier" (PStr "premium"))).
Proof.
  refine (proj2 (replay_result_steps
                   [("workflowId", PStr "wf_1");
                    ("overallSuccess", PBool true);
                    ("totalDuration", PInt 12);
                    ("results",
                     PList [PDict [("stepNumber", PInt 1);
                                   ("success", PBool true);
                                   ("duration", PInt 7);
                                   ("tier", PStr "intelligence")];
                            PDict [("stepNumber", PInt 2);
                                   ("success", PBool true);
                                   ("duration", PInt 5);
                                   ("tier", PStr "premium")]])]
                   [PDict [("stepNumber", PInt 1); ("success", PBool true);
                           ("duration", PInt 7);
                           ("tier", PStr "intelligence")];
                    PDict [("stepNumber", PInt 2); ("success", PBool true);
                           ("duration", PInt 5); ("tier", PStr "premium")]]
                   eq_refl)
            [PDict [("stepNumber", PInt 1); ("success", PBool true);
                    ("duration", PInt 7); ("tier", PStr "intelligence")]]
            [("stepNumber", PInt 2); ("success", PBool true);
             ("duration", PInt 5); ("tier", PStr "premium")]
            [] (PInt 2) (PBool true) (PInt 5) (PStr "premium")
            eq_refl _ eq_refl eq_refl eq_refl eq_refl eq_refl eq_refl).
  constructor; [|constructor].
  exists {| ReplayStepResult.step_number := PInt 1;
            ReplayStepResult.success := PBool true;
            ReplayStepResult.duration := PInt 7;
            ReplayStepResult.tier := Some CostTier.INTELLIGENCE;
            ReplayStepResult.error := PNone |}.
  exists [("stepNumber", PInt 1); ("success", PBool true);
          ("duration", PInt 7); ("tier", PStr "intelligence")].
  cbn. repeat split.
Defined.

(** * Results read member by member *)

(** Reads the subscripted members one after the other: a missing one ends
    the parse with its [KeyError]. *)
Ltac read_members :=
  cbn [py_getitem find]; rewrite ?py_get_lookup_default;
  repeat match goal with
         | |- context [match dict_lookup ?d ?k with _ => _ end] =>
             destruct (dict_lookup d k); cbn [obind find]; [|reflexivity]
         end.

(** X18.  [DomainIntelligence.from_dict] and [WorkflowInfo.from_dict] are
    decided by the members they subscript: on an object that lacks one of
    them they raise the [KeyError] of the first one missing, in the order
    of the constructor call, and on every other object they return,
    whatever the values are.  The members read with [get] take their
    default only when absent: a member sent as null stays [None].
    [WorkflowDetails.from_dict] does the same once its steps are parsed. *)
Theorem results_read_by_member (d : pydict) :
  match first_missing d DomainIntelligence.required with
  | Some k => DomainIntelligence.from_dict (PDict d) = Raised (KeyError k)
  | None =>
      exists r,
        DomainIntelligence.from_dict (PDict d) = Returned r
        /\ dict_lookup d "domain" = Some (DomainIntelligence.domain r)
        /\ DomainIntelligence.known_patterns r
           = lookup_default d "knownPatterns" (PInt 0)
        /\ DomainIntelligence.selector_chains r
           = lookup_default d "selectorChains" (PInt 0)
        /\ DomainIntelligence.validators r
           = lookup_default d "validators" (PInt 0)
        /\ DomainIntelligence.pagination_patterns r
           = lookup_default d "paginationPatterns" (PInt 0)
        /\ DomainIntelligence.recent_failures r
           = lookup_default d "recentFailures" (PInt 0)
        /\ DomainIntelligence.success_rate r
           = lookup_default d "successRate" (PFloat (S754_zero false))
        /\ DomainIntelligence.domain_group r
           = lookup_default d "domainGroup" PNone
        /\ DomainIntelligence.recommended_wait_strategy r
           = lookup_default d "recommendedWaitStrategy" (PStr "load")
        /\ DomainIntelligence.should_use_session r
           = lookup_default d "shouldUseSession" (PBool false)
  end
  /\ match first_missing d WorkflowInfo.required with
     | Some k => WorkflowInfo.from_dict (PDict d) = Raised (KeyError k)
     | None =>
         exists r,
           WorkflowInfo.from_dict (PDict d) = Returned r
           /\ dict_lookup d "id" = Some (WorkflowInfo.id r)
           /\ dict_lookup d "name" = Some (WorkflowInfo.name r)
           /\ dict_lookup d "description" = Some (WorkflowInfo.description r)
           /\ dict_lookup d "domain" = Some (WorkflowInfo.domain r)
           /\ WorkflowInfo.tags r = lookup_default d "tags" (PList [])
           /\ dict_lookup d "steps" = Some (WorkflowInfo.steps r)
           /\ dict_lookup d "version" = Some (WorkflowInfo.version r)
           /\ WorkflowInfo.usage_count r
              = lookup_default d "usageCount" (PInt 0)
           /\ WorkflowInfo.success_rate r
              = lookup_default d "successRate" (PFloat (S754_zero false))
           /\ dict_lookup d "createdAt" = Some (WorkflowInfo.created_at r)
           /\ dict_lookup d "updatedAt" = Some (WorkflowInfo.updated_at r)
     end
  /\ (forall items steps,
        dict_lookup d "steps" = Some (PList items) ->
        map_outcome WorkflowStep.from_dict items = Returned steps ->
        match first_missing d WorkflowDetails.required with
        | Some k => WorkflowDetails.from_dict (PDict d) = Raised (KeyError k)
        | None =>
            exists r,
              WorkflowDetails.from_dict (PDict d) = Returned r
              /\ WorkflowDetails.steps r = steps
              /\ dict_lookup d "id" = Some (WorkflowDetails.id r)
              /\ dict_lookup d "name" = Some (WorkflowDetails.name r)
              /\ dict_lookup d "description"
                 = Some (WorkflowDetails.description r)
              /\ dict_lookup d "domain" = Some (WorkflowDetails.domain r)
              /\ WorkflowDetails.tags r = lookup_default d "tags" (PList [])
              /\ dict_lookup d "version" = Some (WorkflowDetails.version r)
              /\ WorkflowDetails.usage_count r
                 = lookup_default d "usageCount" (PInt 0)
              /\ WorkflowDetails.success_rate r
                 = lookup_default d "successRate" (PFloat (S754_zero false))
              /\ WorkflowDetails.skill_id r
                 = lookup_default d "skillId" PNone
              /\ dict_lookup d "createdAt"
                 = Some (WorkflowDetails.created_at r)
              /\ dict_lookup d "updatedAt"
                 = Some (WorkflowDetails.updated_at r)
        end).
Proof.
  split; [|split].
  - unfold first_missing, DomainIntelligence.required,
      DomainIntelligence.from_dict.
    read_members. eexists. split; [reflexivity|]. cbn. repeat split.
  - unfold first_missing, WorkflowInfo.required, WorkflowInfo.from_dict.
    read_members. eexists. split; [reflexivity|]. cbn. repeat split.
  - intros items steps Hs Hm.
    unfold first_missing, WorkflowDetails.required,
      WorkflowDetails.from_dict.
    cbn [py_getitem]. rewrite Hs. cbn [obind py_iter]. rewrite Hm.
    cbn [obind].
    read_members. eexists. split; [reflexivity|]. cbn. repeat split.
Qed.

Lemma results_read_by_member_witness :
  WorkflowDetails.from_dict
    (PDict [("id", PStr "wf_1"); ("name", PStr "prices");
            ("steps", PList []); ("domain", PStr "example.com")])
  = Raised (KeyError "description").
Proof.
  exact (proj2 (proj2 (results_read_by_member
                         [("id", PStr "wf_1"); ("name", PStr "prices");
                          ("steps", PList []);
                          ("domain", PStr "example.com")]))
           [] [] eq_refl eq_refl).
Defined.

(** * The preview of a browse *)

Lemma plan_layer_parse (d : pydict) :
  plan_layer d ->
  exists steps tier reasoning,
    forall room v,
      ExecutionPlan.from_dict (S room)
        (PDict (dict_setitem d "fallbackPlan" v))
      = let? fallback :=
          if truthy v then
            let? plan := ExecutionPlan.from_dict room v in
            Returned (Some plan)
          else Returned None in
        Returned {| ExecutionPlan.steps := steps;
                    ExecutionPlan.tier := tier;
                    ExecutionPlan.reasoning := reasoning;
                    ExecutionPlan.fallback_plan := fallback |}.
Proof.
  intros ((raw & items & steps & Hs & Hi & Hm) & (tier & Ht) & (r & Hr)).
  exists steps, tier, r. intros room v.
  cbn [ExecutionPlan.from_dict py_getitem].
  rewrite py_get_lookup_default. unfold lookup_default.
  rewrite !dict_lookup_setitem. cbn [String.eqb Ascii.eqb Bool.eqb].
  rewrite Hs, Ht, Hr. cbn [obind]. rewrite Hi. cbn [obind]. rewrite Hm.
  cbn [obind].
  destruct (truthy v).
  - destruct (ExecutionPlan.from_dict room v) as [plan|e]; cbn [obind];
      [|reflexivity].
    destruct tier; reflexivity.
  - cbn [obind]. destruct tier; reflexivity.
Qed.

Lemma execution_plan_returned_truthy (room : nat) (data : pyval)
    (p : ExecutionPlan.t) :
  ExecutionPlan.from_dict room data = Returned p -> truthy data = true.
Proof.
  destruct room as [|room]; [discriminate|].
  destruct data as [| | | | | |[|entry rest]]; try discriminate.
  reflexivity.
Qed.

Lemma nest_fallbacks_truthy (layers : list pydict) (innermost : pyval) :
  layers <> [] -> truthy (nest_fallbacks layers innermost) = true.
Proof.
  destruct layers as [|d rest]; [contradiction|]. intros _.
  cbn [nest_fallbacks]. destruct d as [|[k x] d]; cbn.
  - reflexivity.
  - destruct (String.eqb k "fallbackPlan"); reflexivity.
Qed.

(** X19.  A plan is parsed together with its chain of fallback plans, as
    far as the interpreter's stack has room: each plan of the chain takes
    one nested call of the parser.  When every plan above the innermost
    one holds steps that parse, a cost tier and a reasoning, and the room
    is that of the innermost plan plus one call for each plan above it: a
    failure of the innermost plan is the failure of the whole parse, and an
    innermost plan that parses is found in the result as many
    [fallback_plan] steps down as it was nested.  An innermost
    [fallbackPlan] that is null, empty or otherwise false is dropped
    without an error, the chain ending one plan earlier.  A chain that is
    longer than the room raises [RecursionError]. *)
Theorem fallback_plans_within_room (layers : list pydict)
    (innermost : pyval) :
  Forall plan_layer layers ->
  (forall room e,
     truthy innermost = true ->
     ExecutionPlan.from_dict room innermost = Raised e ->
     ExecutionPlan.from_dict (List.length layers + room)
       (nest_fallbacks layers innermost)
     = Raised e)
  /\ (forall room q,
        ExecutionPlan.from_dict room innermost = Returned q ->
        exists p,
          ExecutionPlan.from_dict (List.length layers + room)
            (nest_fallbacks layers innermost)
          = Returned p
          /\ ExecutionPlan.descend (List.length layers) p = Some q)
  /\ (forall room,
        truthy innermost = false -> layers <> [] ->
        (List.length layers <= room)%nat ->
        exists p q,
          ExecutionPlan.from_dict room (nest_fallbacks layers innermost)
          = Returned p
          /\ ExecutionPlan.descend (Nat.pred (List.length layers)) p = Some q
          /\ ExecutionPlan.fallback_plan q = None)
  /\ (forall room,
        (room < List.length layers)%nat
        \/ (room = List.length layers /\ truthy innermost = true) ->
        ExecutionPlan.from_dict room (nest_fallbacks layers innermost)
        = Raised RecursionError).
Proof.
  intros Hall. induction Hall as [|d rest Hd Hrest IH].
  - split; [|split; [|split]].
    + intros room e _ H. exact H.
    + intros room q H. exists q. split; [exact H|reflexivity].
    + intros room _ H. contradiction.
    + intros room [H|[-> _]]; [inversion H|reflexivity].
  - destruct IH as (IHe & IHq & IHn & IHr).
    destruct (plan_layer_parse d Hd) as (steps & tier & r & Hparse).
    cbn [nest_fallbacks List.length Nat.pred Nat.add].
    split; [|split; [|split]].
    + intros room e Ht He. rewrite Hparse.
      assert (Htr : truthy (nest_fallbacks rest innermost) = true).
      { destruct rest; [exact Ht|]. now apply nest_fallbacks_truthy. }
      rewrite Htr, (IHe room e Ht He). reflexivity.
    + intros room q Hq. rewrite Hparse.
      destruct (IHq room q Hq) as (p & Hp & Hdesc).
      rewrite (execution_plan_returned_truthy _ _ p Hp), Hp. cbn [obind].
      eexists. split; [reflexivity|]. cbn. exact Hdesc.
    + intros room Hf _ Hroom.
      destruct room as [|room]; [inversion Hroom|]. rewrite Hparse.
      destruct rest as [|d' rest'].
      * cbn [nest_fallbacks]. rewrite Hf. cbn [obind].
        eexists. eexists. split; [reflexivity|]. cbn. split; reflexivity.
      * destruct (IHn room Hf ltac:(discriminate)
                    (proj2 (Nat.succ_le_mono _ _) Hroom))
          as (p & q & Hp & Hdesc & Hnone).
        rewrite (execution_plan_returned_truthy _ _ p Hp), Hp. cbn [obind].
        eexists. exists q. split; [reflexivity|]. cbn. split; assumption.
    + intros room Hroom.
      destruct room as [|room]; [reflexivity|]. rewrite Hparse.
      assert (Htr : truthy (nest_fallbacks rest innermost) = true).
      { destruct rest as [|d' rest'].
        - destruct Hroom as [H|[_ H]]; [|exact H].
          apply Nat.succ_lt_mono in H. inversion H.
        - now apply nest_fallbacks_truthy. }
      rewrite Htr, IHr; [reflexivity|].
      destruct Hroom as [H|[H Ht]].
      * left. now apply Nat.succ_lt_mono.
      * right. split; [now injection H|exact Ht].
Qed.

Lemma fallback_plans_witness :
  let payload :=
    PDict
      [("steps", PList []); ("tier", PStr "intelligence");
       ("reasoning", PStr "learned patterns");
       ("fallbackPlan",
        PDict
          [("steps", PList []); ("tier", PStr "lightweight");
           ("reasoning", PStr "static page");
           ("fallbackPlan",
            PDict [("steps", PList []); ("tier", PStr "premium");
                   ("reasoning", PStr "full browser")])])] in
  ExecutionPlan.from_dict 3 payload
  = Raised (ValueError (NotAMember "CostTier" (PStr "premium")))
  /\ ExecutionPlan.from_dict 2 payload = Raised RecursionError.
Proof.
  assert (Hlayers :
            Forall plan_layer
              [[("steps", PList []); ("tier", PStr "intelligence");
                ("reasoning", PStr "learned patterns")];
               [("steps", PList []); ("tier", PStr "lightweight");
                ("reasoning", PStr "static page")]]).
  { constructor; [|constructor; [|constructor]].
    - split; [|split].
      + exists (PList []), [], []. repeat split.
      + exists CostTier.INTELLIGENCE. reflexivity.
      + exists (PStr "learned patterns"). reflexivity.
    - split; [|split].
      + exists (PList []), [], []. repeat split.
      + exists CostTier.LIGHTWEIGHT. reflexivity.
      + exists (PStr "static page"). reflexivity. }
  destruct (fallback_plans_within_room
              [[("steps", PList []); ("tier", PStr "intelligence");
                ("reasoning", PStr "learned patterns")];
               [("steps", PList []); ("tier", PStr "lightweight");
                ("reasoning", PStr "static page")]]
              (PDict [("steps", PList []); ("tier", PStr "premium");
                      ("reasoning", PStr "full browser")]) Hlayers)
    as (Hfail & _ & _ & Hroom).
  split.
  - exact (Hfail 1%nat _ eq_refl eq_refl).
  - exact (Hroom 2%nat (or_intror (conj eq_refl eq_refl))).
Defined.

Lemma preview_members_read (room : nat) (d : pydict)
    (alt : option (list ExecutionPlan.t)) (pv : BrowsePreview.t) :
  (let? schema_version := py_getitem (PDict d) "schemaVersion" in
   let? raw_plan := py_getitem (PDict d) "plan" in
   let? plan := ExecutionPlan.from_dict room raw_plan in
   let? raw_time := py_getitem (PDict d) "estimatedTime" in
   let? estimated_time := TimeEstimate.from_dict raw_time in
   let? raw_confidence := py_getitem (PDict d) "confidence" in
   let? confidence := ConfidenceLevel.from_dict raw_confidence in
   Returned {| BrowsePreview.schema_version := schema_version;
               BrowsePreview.plan := plan;
               BrowsePreview.estimated_time := estimated_time;
               BrowsePreview.confidence := confidence;
               BrowsePreview.alternative_plans := alt |})
  = Returned pv
  <-> BrowsePreview.alternative_plans pv = alt /\ preview_members room d pv.
Proof.
  unfold preview_members. cbn [py_getitem]. split.
  - destruct (dict_lookup d "schemaVersion") as [sv|]; [|discriminate].
    destruct (dict_lookup d "plan") as [rp|]; [|discriminate].
    cbn [obind].
    destruct (ExecutionPlan.from_dict room rp) as [p|] eqn:Hp;
      [|discriminate].
    destruct (dict_lookup d "estimatedTime") as [rt|]; [|discriminate].
    cbn [obind].
    destruct (TimeEstimate.from_dict rt) as [t|] eqn:Ht; [|discriminate].
    destruct (dict_lookup d "confidence") as [rc|]; [|discriminate].
    cbn [obind].
    destruct (ConfidenceLevel.from_dict rc) as [cf|] eqn:Hc; [|discriminate].
    cbn [obind]. intros E; injection E as <-. cbn.
    split; [reflexivity|]. split; [reflexivity|].
    split; [now exists rp|]. split; [now exists rt|now exists rc].
  - intros (Halt & Hsv & (rp & Hrp & Hp) & (rt & Hrt & Ht) & (rc & Hrc & Hc)).
    rewrite Hsv, Hrp. cbn [obind]. rewrite Hp, Hrt. cbn [obind].
    rewrite Ht, Hrc. cbn [obind]. rewrite Hc. cbn [obind].
    destruct pv; cbn in *. now rewrite Halt.
Qed.

(** X20.  Whatever room the interpreter gives its plans,
    [BrowsePreview.from_dict] returns a preview from an object exactly
    when [schemaVersion] is present, [plan], [estimatedTime] and
    [confidence] parse, and the alternative plans, if the member is true,
    all parse.  [alternative_plans] is [None] when the member is absent,
    null or empty, the list of the parsed plans in their order otherwise,
    and never an empty list. *)
Theorem browse_preview_parts (room : nat) (d : pydict)
    (pv : BrowsePreview.t) :
  (BrowsePreview.from_dict room (PDict d) = Returned pv
   <-> preview_alternatives room d pv /\ preview_members room d pv)
  /\ (BrowsePreview.from_dict room (PDict d) = Returned pv ->
      BrowsePreview.alternative_plans pv <> Some []).
Proof.
  assert (Hiff : BrowsePreview.from_dict room (PDict d) = Returned pv
                 <-> preview_alternatives room d pv
                     /\ preview_members room d pv).
  { unfold BrowsePreview.from_dict, BrowseResult.optional_list,
      preview_alternatives.
    rewrite py_get_lookup_default. cbn [obind]. split.
    - intros H.
      destruct (truthy (lookup_default d "alternativePlans" PNone)) eqn:Htr.
      + unfold lookup_default in Htr. cbn [py_getitem] in H.
        destruct (dict_lookup d "alternativePlans") as [raw|] eqn:Hraw;
          [|discriminate].
        cbn [obind] in H.
        destruct (py_iter raw) as [items|] eqn:Hi; [|discriminate].
        cbn [obind] in H.
        destruct (map_outcome (ExecutionPlan.from_dict room) items)
          as [plans|]
          eqn:Hm; [|discriminate].
        cbn [obind] in H.
        apply (preview_members_read room d (Some plans) pv) in H.
        destruct H as (-> & Hothers). split; [|exact Hothers].
        exists raw, items. repeat split; try assumption.
        now apply map_outcome_Forall2.
      + cbn [obind] in H. apply (preview_members_read room d None pv) in H.
        destruct H as (-> & Hothers). split; [reflexivity|exact Hothers].
    - intros (Halt & Hothers).
      destruct (BrowsePreview.alternative_plans pv) as [plans|] eqn:Hplans.
      + destruct Halt as (raw & items & Hraw & Htr & Hi & Hall).
        unfold lookup_default.
        change (py_getitem (PDict d) "alternativePlans")
          with (match dict_lookup d "alternativePlans" with
                | Some x => Returned x
                | None => Raised (KeyError "alternativePlans")
                end).
        rewrite Hraw, Htr. cbn [obind]. rewrite Hi. cbn [obind].
        rewrite (proj2 (map_outcome_Forall2 (ExecutionPlan.from_dict room)
                          items plans) Hall).
        cbn [obind]. apply preview_members_read. now split.
      + rewrite Halt. cbn [obind]. apply preview_members_read. now split. }
  split; [exact Hiff|].
  intros H Hempty. apply Hiff in H. destruct H as (Halt & _).
  unfold preview_alternatives in Halt. rewrite Hempty in Halt.
  destruct Halt as (raw & items & _ & Htr & Hi & Hall).
  inversion Hall; subst.
  now apply (py_iter_truthy_nonempty raw [] Htr Hi).
Qed.

Lemma browse_preview_witness :
  BrowsePreview.from_dict 2 (PDict MoreSamples.preview_payload)
  = Returned MoreSamples.preview
  /\ BrowsePreview.alternative_plans MoreSamples.preview <> Some [].
Proof.
  split; [reflexivity|].
  exact (proj2 (browse_preview_parts 2 MoreSamples.preview_payload
                  MoreSamples.preview) eq_refl).
Defined.

Section PreviewRequests.

Variable srv : server.
Variable c : t.

(** A method that parses what [_request] returns ends with the outcome of
    the parse of the served data. *)
Lemma parsed_request_outcome {A : Type} (parse : pyval -> outcome A)
    (method path : string) (body : option pyval) (k : nat) (r : Response)
    (data : pyval) :
  supported method = true ->
  Z.of_nat k < attempts_of c ->
  all_retried srv k ->
  srv k = NetResponds r ->
  success_response r data ->
  (x <- _request srv c method path body ;; lift (parse x)) []
  = (parse data, request_trace (send_event c method path body) (S k)).
Proof.
  intros Hm Hk Hall Hs (Henv & d & Hb & Ht & Hd).
  unfold bind, lift.
  rewrite (request_returns_served_data srv c method path body k r d
             Hm Hk Hall Hs Henv Hb Ht).
  rewrite <- Hd. reflexivity.
Qed.

End PreviewRequests.

(** X21.  Whatever room the interpreter gives its parser,
    [preview_browse] posts the URL, with the options when given and never
    a session, to [/v1/browse/preview].  It returns nothing but the
    parse of served data; once a call is answered with a success its
    outcome is that of [BrowsePreview.from_dict] on the data, with no
    further call.  On data that is not an object, or absent, it raises
    [AttributeError], where the other typed methods raise [TypeError]:
    the parser starts with [data.get]. *)
Theorem preview_browse_parses_served_data (srv : server) (c : t)
    (room : nat) (url : string) (o : option BrowseOptions.t) :
  (forall res log,
     Operations.preview_browse srv room c url o [] = (Returned res, log) ->
     exists data,
       served srv c log data /\ BrowsePreview.from_dict room data = Returned res)
  /\ (forall k r data,
        Z.of_nat k < attempts_of c ->
        all_retried srv k ->
        srv k = NetResponds r ->
        success_response r data ->
        Operations.preview_browse srv room c url o []
        = (BrowsePreview.from_dict room data,
           request_trace
             (EvSend "POST" (base_url c ++ "/v1/browse/preview")%string
                (Some
                   (PDict
                      (("url", PStr url)
                       :: match o with
                          | Some options =>
                              [("options",
                                PDict (BrowseOptions.to_dict options))]
                          | None => []
                          end)))
                (timeout c))
             (S k)))
  /\ (forall data,
        is_dict data = false ->
        BrowsePreview.from_dict room data = Raised AttributeError).
Proof.
  split; [|split].
  - intros res log H.
    eapply parsed_request_served; [|exact H]. reflexivity.
  - intros k r data Hk Hall Hs Hok. unfold Operations.preview_browse.
    cbv zeta.
    rewrite (parsed_request_outcome srv c (BrowsePreview.from_dict room)
               "POST"
               "/v1/browse/preview" _ k r data eq_refl Hk Hall Hs Hok).
    destruct o; reflexivity.
  - intros data Hnd. destruct data; try reflexivity. discriminate.
Qed.

Lemma preview_browse_witness :
  Operations.preview_browse
    (MoreSamples.timeout_then (PDict MoreSamples.preview_payload)) 2
    Samples.client "https://example.com" None []
  = (Returned MoreSamples.preview,
     [MoreSamples.preview_event; EvSleep 2; MoreSamples.preview_event]).
Proof.
  refine (proj1 (proj2
                   (preview_browse_parses_served_data
                      (MoreSamples.timeout_then
                         (PDict MoreSamples.preview_payload))
                      Samples.client 2 "https://example.com" None))
            1%nat
            (MoreSamples.success_with (PDict MoreSamples.preview_payload))
            (PDict MoreSamples.preview_payload) eq_refl _ eq_refl _).
  - intros i Hi. exists (RequestsError ReadTimeout "Read timed out").
    destruct i as [|i]; [split; reflexivity|].
    exfalso. apply (Nat.nlt_0_r i). apply (proj2 (Nat.succ_lt_mono i 0) Hi).
  - split; [reflexivity|].
    exists [("success", PBool true);
            ("data", PDict MoreSamples.preview_payload)].
    repeat split.
Defined.

(** * The exceptions of the public methods *)

Section OnlyRaises.

Variable allowed : exn -> bool.

Lemma only_raises_returned {A : Type} (a : A) :
  only_raises allowed (Returned a).
Proof. intros e H. discriminate. Qed.

Lemma only_raises_obind {A B : Type} (x : outcome A) (f : A -> outcome B) :
  only_raises allowed x -> (forall a, only_raises allowed (f a)) ->
  only_raises allowed (obind x f).
Proof.
  intros Hx Hf e. destruct x as [a|e']; cbn [obind].
  - apply Hf.
  - intros H. injection H as <-. now apply Hx.
Qed.

Lemma only_raises_if {A : Type} (b : bool) (x y : outcome A) :
  only_raises allowed x -> only_raises allowed y ->
  only_raises allowed (if b then x else y).
Proof. destruct b; auto. Qed.

Lemma only_raises_map_outcome {A B : Type} (f : A -> outcome B)
    (items : list A) :
  (forall x, only_raises allowed (f x)) ->
  only_raises allowed (map_outcome f items).
Proof.
  intros Hf. induction items as [|x rest IH]; cbn [map_outcome].
  - apply only_raises_returned.
  - apply only_raises_obind; [apply Hf|]. intros y.
    apply only_raises_obind; [exact IH|]. intros ys.
    apply only_raises_returned.
Qed.

End OnlyRaises.

Lemma py_getitem_parse_failure (v : pyval) (k : string) :
  only_raises is_parse_failure (py_getitem v k).
Proof.
  intros e. destruct v; cbn; try (intros H; injection H as <-; reflexivity).
  destruct (dict_lookup entries k); [discriminate|].
  intros H; injection H as <-; reflexivity.
Qed.

Lemma py_get_parse_failure (v : pyval) (k : string) (default : pyval) :
  only_raises is_parse_failure (py_get v k default).
Proof.
  intros e. destruct v; cbn; try (intros H; injection H as <-; reflexivity).
  destruct (dict_lookup entries k); discriminate.
Qed.

Lemma py_iter_parse_failure (v : pyval) :
  only_raises is_parse_failure (py_iter v).
Proof.
  intros e. destruct v; cbn; try discriminate;
    intros H; injection H as <-; reflexivity.
Qed.

Lemma enum_call_parse_failure {E : Type} (name : string)
    (value : E -> string) (members : list E) (v : pyval) :
  only_raises is_parse_failure (enum_call name value members v).
Proof.
  intros e H. apply enum_call_raised in H.
  destruct e as [| | | | |[]| | | |]; try discriminate; reflexivity.
Qed.

Ltac parse_failures :=
  cbv zeta;
  repeat first
    [ apply only_raises_returned
    | apply py_getitem_parse_failure
    | apply py_get_parse_failure
    | apply py_iter_parse_failure
    | apply enum_call_parse_failure
    | assumption
    | apply only_raises_obind; [|intros ?]
    | apply only_raises_if
    | apply only_raises_map_outcome; intros ? ].

Lemma browse_result_parse_failure (data : pyval) :
  only_raises is_parse_failure (BrowseResult.from_dict data).
Proof.
  unfold BrowseResult.from_dict, BrowseResult.optional_list,
    BrowseResult.table_of, BrowseResult.api_of, BrowseResult.cookie_of.
  parse_failures.
Qed.

Lemma batch_result_parse_failure (data : pyval) :
  only_raises is_parse_failure (BatchResult.from_dict data).
Proof.
  unfold BatchResult.from_dict, BatchResult.item_of.
  parse_failures; apply browse_result_parse_failure.
Qed.

Lemma domain_intelligence_parse_failure (data : pyval) :
  only_raises is_parse_failure (DomainIntelligence.from_dict data).
Proof. unfold DomainIntelligence.from_dict. parse_failures. Qed.

Lemma workflow_info_parse_failure (data : pyval) :
  only_raises is_parse_failure (WorkflowInfo.from_dict data).
Proof. unfold WorkflowInfo.from_dict. parse_failures. Qed.

Lemma workflow_step_parse_failure (data : pyval) :
  only_raises is_parse_failure (WorkflowStep.from_dict data).
Proof.
  unfold WorkflowStep.from_dict, Importance_call, CostTier_call.
  parse_failures.
Qed.

Lemma workflow_details_parse_failure (data : pyval) :
  only_raises is_parse_failure (WorkflowDetails.from_dict data).
Proof.
  unfold WorkflowDetails.from_dict.
  parse_failures; apply workflow_step_parse_failure.
Qed.

Lemma replay_result_parse_failure (data : pyval) :
  only_raises is_parse_failure (ReplayResult.from_dict data).
Proof.
  unfold ReplayResult.from_dict, ReplayResult.step_of, CostTier_call.
  parse_failures.
Qed.

Lemma execution_step_parse_failure (data : pyval) :
  only_raises is_parse_failure (ExecutionStep.from_dict data).
Proof.
  unfold ExecutionStep.from_dict, CostTier_call, ConfidenceRating_call.
  parse_failures.
Qed.

Lemma confidence_level_parse_failure (data : pyval) :
  only_raises is_parse_failure (ConfidenceLevel.from_dict data).
Proof.
  unfold ConfidenceLevel.from_dict, ConfidenceFactors.from_dict,
    ConfidenceRating_call, DomainFamiliarity_call.
  parse_failures.
Qed.

Lemma confidence_factors_parse_failure (data : pyval) :
  only_raises is_parse_failure (ConfidenceFactors.from_dict data).
Proof.
  unfold ConfidenceFactors.from_dict, DomainFamiliarity_call.
  parse_failures.
Qed.

Lemma time_estimate_parse_failure (data : pyval) :
  only_raises is_parse_failure (TimeEstimate.from_dict data).
Proof. unfold TimeEstimate.from_dict. parse_failures. Qed.

Lemma only_raises_weaken {A : Type} (allowed allowed' : exn -> bool)
    (x : outcome A) :
  (forall e, allowed e = true -> allowed' e = true) ->
  only_raises allowed x -> only_raises allowed' x.
Proof. intros Hw Hx e He. apply Hw. now apply Hx. Qed.

Lemma parse_failure_or_recursion {A : Type} (x : outcome A) :
  only_raises is_parse_failure x ->
  only_raises (fun e => is_parse_failure e || is_RecursionError e) x.
Proof.
  apply only_raises_weaken. intros e He. rewrite He. reflexivity.
Qed.

Lemma execution_plan_parse_failure (room : nat) :
  forall data,
    only_raises (fun e => is_parse_failure e || is_RecursionError e)
      (ExecutionPlan.from_dict room data).
Proof.
  induction room as [|room IH]; intros data.
  - intros e H. injection H as <-. reflexivity.
  - cbn [ExecutionPlan.from_dict]. unfold CostTier_call.
    repeat first
      [ apply only_raises_returned
      | apply IH
      | apply only_raises_obind; [|intros ?]
      | apply only_raises_if
      | apply parse_failure_or_recursion; parse_failures;
        apply execution_step_parse_failure ].
Qed.

Lemma browse_preview_parse_failure (room : nat) (data : pyval) :
  only_raises (fun e => is_parse_failure e || is_RecursionError e)
    (BrowsePreview.from_dict room data).
Proof.
  unfold BrowsePreview.from_dict, BrowseResult.optional_list.
  repeat first
    [ apply only_raises_returned
    | apply execution_plan_parse_failure
    | apply only_raises_map_outcome; intros ?
    | apply only_raises_obind; [|intros ?]
    | apply only_raises_if
    | apply parse_failure_or_recursion; parse_failures;
      first [ apply time_estimate_parse_failure
            | apply confidence_level_parse_failure ] ].
Qed.

(** ** Room enough for a value *)

Lemma depth_positive (v : pyval) : (1 <= depth v)%nat.
Proof. destruct v; cbn; lia. Qed.

Lemma list_max_In (n : nat) (l : list nat) : In n l -> (n <= list_max l)%nat.
Proof.
  induction l as [|m l IH]; [contradiction|]. cbn [list_max fold_right].
  intros [->|H]; [lia|]. specialize (IH H). unfold list_max in IH. lia.
Qed.

Lemma depth_member (d : pydict) (k : string) (v : pyval) :
  dict_lookup d k = Some v -> (depth v < depth (PDict d))%nat.
Proof.
  intros H. cbn [depth]. apply Nat.lt_succ_r. apply list_max_In.
  induction d as [|[k' x] d IH]; [discriminate|].
  cbn [dict_lookup] in H. cbn [map snd].
  destruct (String.eqb k' k).
  - injection H as ->. now left.
  - right. now apply IH.
Qed.

Lemma depth_item (v : pyval) (items : list pyval) (x : pyval) :
  py_iter v = Returned items -> In x items ->
  (depth x <= depth v)%nat /\ (is_dict x = true -> depth x < depth v)%nat.
Proof.
  destruct v as [| | | |s|l|d]; try discriminate; cbn [py_iter];
    intros H; injection H as <-; intros Hin.
  - assert (Hx : exists c, x = PStr c).
    { clear -Hin. induction s as [|c s IH]; [contradiction|].
      destruct Hin as [<-|Hin]; [eexists; reflexivity|now apply IH]. }
    destruct Hx as [c ->]. cbn. split; [lia|discriminate].
  - assert (depth x < depth (PList l))%nat.
    { cbn [depth]. apply Nat.lt_succ_r. apply list_max_In.
      now apply in_map. }
    split; [lia|intros _; assumption].
  - apply in_map_iff in Hin. destruct Hin as ([k y] & <- & _).
    cbn [fst]. split; [|discriminate].
    pose proof (depth_positive (PDict d)). cbn [depth] in *. lia.
Qed.

Lemma only_raises_obind_eq {A B : Type} (allowed : exn -> bool)
    (x : outcome A) (f : A -> outcome B) :
  only_raises allowed x ->
  (forall a, x = Returned a -> only_raises allowed (f a)) ->
  only_raises allowed (obind x f).
Proof.
  intros Hx Hf e. destruct x as [a|e']; cbn [obind].
  - now apply Hf.
  - intros H. injection H as <-. now apply Hx.
Qed.

Lemma depth_fallback (data raw : pyval) :
  py_getitem data "fallbackPlan" = Returned raw ->
  (depth raw < depth data)%nat.
Proof.
  intros H. apply py_getitem_returned in H.
  destruct H as (d & -> & Hl). now apply (depth_member d "fallbackPlan").
Qed.

(** With room for the nesting of the value, more room changes nothing. *)
Lemma execution_plan_room_irrelevant (room : nat) :
  forall room' data,
    (depth data <= room)%nat -> (depth data <= room')%nat ->
    ExecutionPlan.from_dict room data = ExecutionPlan.from_dict room' data.
Proof.
  induction room as [|room IH]; intros room' data Hroom Hroom';
    pose proof (depth_positive data) as Hpos; [lia|].
  destruct room' as [|room']; [lia|].
  cbn [ExecutionPlan.from_dict].
  destruct (py_getitem data "steps") as [raw|]; [|reflexivity].
  cbn [obind]. destruct (py_iter raw) as [items|]; [|reflexivity].
  cbn [obind].
  destruct (map_outcome ExecutionStep.from_dict items) as [steps|];
    [|reflexivity].
  cbn [obind].
  destruct (py_get data "fallbackPlan" PNone) as [present|]; [|reflexivity].
  cbn [obind]. destruct (truthy present); [|reflexivity].
  destruct (py_getitem data "fallbackPlan") as [raw_plan|] eqn:Hp;
    [|reflexivity].
  cbn [obind]. apply depth_fallback in Hp.
  rewrite (IH room' raw_plan); [reflexivity|lia|lia].
Qed.

(** With room for the nesting of the value the parser does not run out of
    room. *)
Lemma execution_plan_enough_room (room : nat) :
  forall data,
    (depth data <= room)%nat ->
    only_raises is_parse_failure (ExecutionPlan.from_dict room data).
Proof.
  induction room as [|room IH]; intros data Hroom;
    pose proof (depth_positive data) as Hpos; [lia|].
  cbn [ExecutionPlan.from_dict]. unfold CostTier_call.
  apply only_raises_obind; [apply py_getitem_parse_failure|]. intros raw.
  apply only_raises_obind; [apply py_iter_parse_failure|]. intros items.
  apply only_raises_obind.
  { apply only_raises_map_outcome. apply execution_step_parse_failure. }
  intros steps.
  apply only_raises_obind; [apply py_get_parse_failure|]. intros present.
  apply only_raises_obind; [|intros fallback; parse_failures].
  apply only_raises_if; [|apply only_raises_returned].
  apply only_raises_obind_eq; [apply py_getitem_parse_failure|].
  intros raw_plan Hp. apply depth_fallback in Hp.
  apply only_raises_obind; [apply IH; lia|]. intros plan.
  apply only_raises_returned.
Qed.

Lemma browse_preview_enough_room (room : nat) (data : pyval) :
  (depth data <= room)%nat ->
  BrowsePreview.from_dict room data
  = BrowsePreview.from_dict (depth data) data
  /\ only_raises is_parse_failure (BrowsePreview.from_dict room data).
Proof.
  intros Hroom.
  assert (Hplan : forall raw,
             py_getitem data "plan" = Returned raw ->
             (depth raw < depth data)%nat).
  { intros raw H. apply py_getitem_returned in H.
    destruct H as (d & -> & Hl). now apply (depth_member d "plan"). }
  assert (Halt : forall raw items x,
             py_getitem data "alternativePlans" = Returned raw ->
             py_iter raw = Returned items -> In x items ->
             (depth x < depth data)%nat).
  { intros raw items x H Hi Hx. apply py_getitem_returned in H.
    destruct H as (d & -> & Hl).
    apply (depth_member d "alternativePlans") in Hl.
    destruct (depth_item raw items x Hi Hx) as [Hle _]. lia. }
  assert (Hmap : forall raw items n,
             py_getitem data "alternativePlans" = Returned raw ->
             py_iter raw = Returned items ->
             (depth data <= n)%nat ->
             map_outcome (ExecutionPlan.from_dict n) items
             = map_outcome (ExecutionPlan.from_dict (depth data)) items
             /\ only_raises is_parse_failure
                  (map_outcome (ExecutionPlan.from_dict n) items)).
  { intros raw items n Hraw Hi Hn.
    pose proof (fun x => Halt raw items x Hraw Hi) as Hx. clear Hi.
    induction items as [|x rest IH]; cbn [map_outcome].
    - split; [reflexivity|apply only_raises_returned].
    - assert (Hd : (depth x < depth data)%nat) by (apply Hx; now left).
      destruct IH as [IHeq IHr]; [intros y Hy; apply Hx; now right|].
      rewrite (execution_plan_room_irrelevant n (depth data) x) by lia.
      rewrite IHeq. split; [reflexivity|].
      apply only_raises_obind;
        [apply execution_plan_enough_room; lia|]. intros p.
      rewrite <- IHeq.
      apply only_raises_obind; [exact IHr|]. intros ps.
      apply only_raises_returned. }
  unfold BrowsePreview.from_dict, BrowseResult.optional_list. split.
  - destruct (py_get data "alternativePlans" PNone) as [present|];
      [|reflexivity].
    cbn [obind].
    assert (Hrest : forall alt,
               (let? schema_version := py_getitem data "schemaVersion" in
                let? raw_plan := py_getitem data "plan" in
                let? plan := ExecutionPlan.from_dict room raw_plan in
                let? raw_time := py_getitem data "estimatedTime" in
                let? estimated_time := TimeEstimate.from_dict raw_time in
                let? raw_confidence := py_getitem data "confidence" in
                let? confidence :=
                  ConfidenceLevel.from_dict raw_confidence in
                Returned
                  {| BrowsePreview.schema_version := schema_version;
                     BrowsePreview.plan := plan;
                     BrowsePreview.estimated_time := estimated_time;
                     BrowsePreview.confidence := confidence;
                     BrowsePreview.alternative_plans := alt |})
               = (let? schema_version := py_getitem data "schemaVersion" in
                  let? raw_plan := py_getitem data "plan" in
                  let? plan :=
                    ExecutionPlan.from_dict (depth data) raw_plan in
                  let? raw_time := py_getitem data "estimatedTime" in
                  let? estimated_time := TimeEstimate.from_dict raw_time in
                  let? raw_confidence := py_getitem data "confidence" in
                  let? confidence :=
                    ConfidenceLevel.from_dict raw_confidence in
                  Returned
                    {| BrowsePreview.schema_version := schema_version;
                       BrowsePreview.plan := plan;
                       BrowsePreview.estimated_time := estimated_time;
                       BrowsePreview.confidence := confidence;
                       BrowsePreview.alternative_plans := alt |})).
    { intros alt.
      destruct (py_getitem data "schemaVersion"); [|reflexivity].
      cbn [obind].
      destruct (py_getitem data "plan") as [raw_plan|] eqn:Hp;
        [|reflexivity].
      cbn [obind]. specialize (Hplan raw_plan eq_refl).
      rewrite (execution_plan_room_irrelevant room (depth data) raw_plan)
        by lia.
      reflexivity. }
    destruct (truthy present).
    + destruct (py_getitem data "alternativePlans") as [raw|] eqn:Hraw;
        [|reflexivity].
      cbn [obind]. destruct (py_iter raw) as [items|] eqn:Hi; [|reflexivity].
      cbn [obind].
      destruct (Hmap raw items room eq_refl Hi Hroom) as [-> _].
      destruct (map_outcome (ExecutionPlan.from_dict (depth data)) items);
        [|reflexivity].
      cbn [obind]. apply Hrest.
    + cbn [obind]. apply Hrest.
  - apply only_raises_obind.
    + apply only_raises_obind; [apply py_get_parse_failure|]. intros present.
      apply only_raises_if; [|apply only_raises_returned].
      apply only_raises_obind_eq; [apply py_getitem_parse_failure|].
      intros raw Hraw.
      apply only_raises_obind_eq; [apply py_iter_parse_failure|].
      intros items Hi.
      apply only_raises_obind;
        [apply (Hmap raw items room Hraw Hi Hroom)|].
      intros plans. apply only_raises_returned.
    + intros alt.
      apply only_raises_obind; [apply py_getitem_parse_failure|]. intros sv.
      apply only_raises_obind_eq; [apply py_getitem_parse_failure|].
      intros raw_plan Hp. specialize (Hplan raw_plan Hp).
      apply only_raises_obind;
        [apply execution_plan_enough_room; lia|]. intros plan.
      parse_failures;
        first [ apply time_estimate_parse_failure
              | apply confidence_level_parse_failure ].
Qed.

(** X22.  Whatever value it is given, a parser of [types.py] fails only
    with [KeyError], [TypeError], [AttributeError] or the [ValueError] of
    an enumeration.  The two parsers that go through fallback plans,
    [ExecutionPlan.from_dict] and [BrowsePreview.from_dict], can also run
    out of room and raise [RecursionError], and they do so only on a value
    nested deeper than the room they have: with room for the nesting depth
    of the value, their outcome is the same whatever the room, and no
    [RecursionError]. *)
Theorem parsers_fail_as_lookups (data : pyval) (e : exn) :
  (BrowseResult.from_dict data = Raised e -> is_parse_failure e = true)
  /\ (BatchResult.from_dict data = Raised e -> is_parse_failure e = true)
  /\ (DomainIntelligence.from_dict data = Raised e ->
      is_parse_failure e = true)
  /\ (ExecutionStep.from_dict data = Raised e -> is_parse_failure e = true)
  /\ (TimeEstimate.from_dict data = Raised e -> is_parse_failure e = true)
  /\ (ConfidenceFactors.from_dict data = Raised e ->
      is_parse_failure e = true)
  /\ (ConfidenceLevel.from_dict data = Raised e -> is_parse_failure e = true)
  /\ (WorkflowInfo.from_dict data = Raised e -> is_parse_failure e = true)
  /\ (WorkflowStep.from_dict data = Raised e -> is_parse_failure e = true)
  /\ (WorkflowDetails.from_dict data = Raised e -> is_parse_failure e = true)
  /\ (ReplayResult.from_dict data = Raised e -> is_parse_failure e = true)
  /\ (forall room,
        ExecutionPlan.from_dict room data = Raised e ->
        is_parse_failure e || is_RecursionError e = true)
  /\ (forall room,
        BrowsePreview.from_dict room data = Raised e ->
        is_parse_failure e || is_RecursionError e = true)
  /\ (forall room,
        (depth data <= room)%nat ->
        ExecutionPlan.from_dict room data
        = ExecutionPlan.from_dict (depth data) data
        /\ BrowsePreview.from_dict room data
           = BrowsePreview.from_dict (depth data) data
        /\ (ExecutionPlan.from_dict room data = Raised e ->
            is_parse_failure e = true)
        /\ (BrowsePreview.from_dict room data = Raised e ->
            is_parse_failure e = true)).
Proof.
  repeat match goal with |- _ /\ _ => split end.
  - apply browse_result_parse_failure.
  - apply batch_result_parse_failure.
  - apply domain_intelligence_parse_failure.
  - apply execution_step_parse_failure.
  - apply time_estimate_parse_failure.
  - apply confidence_factors_parse_failure.
  - apply confidence_level_parse_failure.
  - apply workflow_info_parse_failure.
  - apply workflow_step_parse_failure.
  - apply workflow_details_parse_failure.
  - apply replay_result_parse_failure.
  - intros room. apply (execution_plan_parse_failure room data e).
  - intros room. apply (browse_preview_parse_failure room data e).
  - intros room Hroom.
    split; [|split; [|split]].
    + apply execution_plan_room_irrelevant; [exact Hroom|apply Nat.le_refl].
    + apply (browse_preview_enough_room room data Hroom).
    + now apply execution_plan_enough_room.
    + apply (browse_preview_enough_room room data Hroom).
Qed.

Lemma parsers_fail_witness :
  ExecutionPlan.from_dict 5
    (PDict [("steps", PList [PStr "fetch"]); ("tier", PStr "intelligence");
            ("reasoning", PStr "static page")])
  = Raised TypeError
  /\ is_parse_failure TypeError = true.
Proof.
  split; [reflexivity|].
  destruct (parsers_fail_as_lookups
              (PDict [("steps", PList [PStr "fetch"]);
                      ("tier", PStr "intelligence");
                      ("reasoning", PStr "static page")])
              TypeError)
    as (_ & _ & _ & _ & _ & _ & _ & _ & _ & _ & _ & _ & _ & H).
  destruct (H 5%nat ltac:(cbn; lia)) as (_ & _ & Hplan & _).
  exact (Hplan eq_refl).
Defined.

Lemma py_get_request_failure (v : pyval) (k : string) (default : pyval) :
  only_raises is_request_failure (py_get v k default).
Proof.
  intros e. destruct v; cbn; try (intros H; injection H as <-; reflexivity).
  destruct (dict_lookup entries k); discriminate.
Qed.

Lemma read_response_request_failure (r : Response) :
  only_raises is_request_failure (read_response r).
Proof.
  unfold read_response.
  repeat first
    [ apply only_raises_returned
    | apply py_get_request_failure
    | apply only_raises_if
    | apply only_raises_obind; [|intros ?]
    | match goal with
      | |- only_raises _ (Raised _) =>
          intros ? H; injection H as <-; reflexivity
      | |- only_raises _ (match ?x with _ => _ end) => destruct x
      end ].
  - unfold int_of_str. destruct (py_int s); [discriminate|].
    intros ? H; injection H as <-; reflexivity.
  - unfold response_json. destruct (content r); [discriminate| | |];
      intros ? H; injection H as <-; reflexivity.
Qed.

Lemma as_raised_request_failure (e : exn) :
  is_request_failure e = true \/ (exists cls msg, e = RequestsError cls msg) ->
  is_request_failure (as_raised e) = true.
Proof.
  intros [H|(cls & msg & ->)].
  - unfold as_raised. destruct (is_Timeout e || is_ConnectionError e);
      [reflexivity|exact H].
  - destruct cls; reflexivity.
Qed.

Lemma request_failure (srv : server) (c : t) (method path : string)
    (body : option pyval) (e : exn) (log : list event) :
  _request srv c method path body [] = (Raised e, log) ->
  is_request_failure e = true.
Proof.
  intros H.
  destruct (Z_le_gt_dec 1 (attempts_of c)) as [Hone|Hnone].
  - destruct (supported method) eqn:Hm.
    + destruct (request_loop_completes srv c method path body Hm Hone)
        as (j & _ & _ & Hloop).
      unfold _request in H. rewrite Hloop in H. injection H as H _.
      destruct (srv j) as [cls msg|r]; cbn [attempt_result final_result] in H.
      * injection H as <-. apply as_raised_request_failure.
        right. now exists cls, msg.
      * destruct (read_response r) as [v|e0] eqn:Hr; [discriminate|].
        injection H as <-. apply as_raised_request_failure. left.
        now apply (read_response_request_failure r).
    + unfold _request, py_range in H.
      replace (Z.to_nat (attempts_of c + 1 - 1))
        with (S (Z.to_nat (attempts_of c) - 1)) in H by lia.
      cbn [range_from] in H.
      revert H. unfold supported in Hm.
      apply orb_false_iff in Hm. destruct Hm as [Hm HD].
      apply orb_false_iff in Hm. destruct Hm as [HG HP].
      cbn [request_loop]. unfold request_pass, request_try, bind.
      rewrite HG, HP, HD. unfold raise. cbn.
      intros H. injection H as <- _. reflexivity.
  - unfold _request in H.
    rewrite (request_loop_no_attempt srv c method path body) in H by lia.
    injection H as <- _. reflexivity.
Qed.

Lemma parsed_request_failure {A : Type} (srv : server) (c : t)
    (parse : pyval -> outcome A) (method path : string)
    (body : option pyval) (e : exn) (log : list event) :
  (forall data,
     only_raises (fun e => is_parse_failure e || is_RecursionError e)
       (parse data)) ->
  (x <- _request srv c method path body ;; lift (parse x)) []
  = (Raised e, log) ->
  is_request_failure e || is_parse_failure e = true.
Proof.
  intros Hparse. unfold bind, lift.
  destruct (_request srv c method path body []) as [[v|e0] log0] eqn:Hrun.
  - intros H. injection H as H _. specialize (Hparse v e H).
    apply orb_true_iff in Hparse. destruct Hparse as [Hp|Hr].
    + rewrite Hp. apply orb_true_r.
    + destruct e; try discriminate Hr. reflexivity.
  - intros H. injection H as <- _.
    now rewrite (request_failure srv c method path body e0 log0 Hrun).
Qed.

(** X23.  No timeout and no connection failure of [requests] ever leaves
    [_request], nor a method built on it: they leave as an
    [UnbrowserError].  What [_request] raises is an exception of the
    service, the [ValueError] of an unsupported verb, of a [Retry-After]
    that is no integer or of a body with too long an integer, the
    [AttributeError] of a body that is no object, the [RecursionError] of
    a body nested too deep, or another exception of [requests]; the
    methods that return what [_request] returns raise the same, and the
    methods that parse it add the failures of their parser, whatever room
    [preview_browse] has for fallback plans.  [health], which calls [requests]
    itself, is not among them. *)
Theorem transport_failures_never_escape (srv : server) (c : t) (e : exn)
    (log : list event) :
  (forall method path body,
     _request srv c method path body [] = (Raised e, log) ->
     is_request_failure e = true)
  /\ (get_usage srv c [] = (Raised e, log) -> is_request_failure e = true)
  /\ (forall domain tags,
        list_workflows srv c domain tags [] = (Raised e, log) ->
        is_request_failure e = true)
  /\ (forall name description domain tags,
        Operations.start_recording srv c name description domain tags []
        = (Raised e, log) ->
        is_request_failure e = true)
  /\ (forall id save,
        Operations.stop_recording srv c id save [] = (Raised e, log) ->
        is_request_failure e = true)
  /\ (forall id step annotation importance,
        Operations.annotate_recording srv c id step annotation importance []
        = (Raised e, log) ->
        is_request_failure e = true)
  /\ (forall id,
        Operations.delete_workflow srv c id [] = (Raised e, log) ->
        is_request_failure e = true)
  /\ (forall url o s,
        Operations.browse srv c url o s [] = (Raised e, log) ->
        is_request_failure e || is_parse_failure e = true)
  /\ (forall room url o,
        Operations.preview_browse srv room c url o [] = (Raised e, log) ->
        is_request_failure e || is_parse_failure e = true)
  /\ (forall url o s,
        Operations.fetch srv c url o s [] = (Raised e, log) ->
        is_request_failure e || is_parse_failure e = true)
  /\ (forall urls o s,
        Operations.batch srv c urls o s [] = (Raised e, log) ->
        is_request_failure e || is_parse_failure e = true)
  /\ (forall domain,
        Operations.get_domain_intelligence srv c domain []
        = (Raised e, log) ->
        is_request_failure e || is_parse_failure e = true)
  /\ (forall id vars,
        Operations.replay_workflow srv c id vars [] = (Raised e, log) ->
        is_request_failure e || is_parse_failure e = true)
  /\ (forall id,
        Operations.get_workflow srv c id [] = (Raised e, log) ->
        is_request_failure e || is_parse_failure e = true)
  /\ (is_request_failure e || is_parse_failure e = true ->
      is_Timeout e = false /\ is_ConnectionError e = false).
Proof.
  repeat match goal with |- _ /\ _ => split end.
  - intros method path body. apply request_failure.
  - apply request_failure.
  - intros domain tags. unfold list_workflows. cbv zeta.
    apply request_failure.
  - intros name description domain tags. apply request_failure.
  - intros id save. apply request_failure.
  - intros id step annotation importance. apply request_failure.
  - intros id. apply request_failure.
  - intros url o s. apply parsed_request_failure.
    intros data. apply parse_failure_or_recursion.
    apply browse_result_parse_failure.
  - intros room url o. apply parsed_request_failure.
    apply browse_preview_parse_failure.
  - intros url o s. apply parsed_request_failure.
    intros data. apply parse_failure_or_recursion.
    apply browse_result_parse_failure.
  - intros urls o s. apply parsed_request_failure.
    intros data. apply parse_failure_or_recursion.
    apply batch_result_parse_failure.
  - intros domain. apply parsed_request_failure.
    intros data. apply parse_failure_or_recursion.
    apply domain_intelligence_parse_failure.
  - intros id vars. apply parsed_request_failure.
    intros data. apply parse_failure_or_recursion.
    apply replay_result_parse_failure.
  - intros id. apply parsed_request_failure.
    intros data. apply parse_failure_or_recursion.
    apply workflow_details_parse_failure.
  - destruct e as [| | | |[]|[]| | | |]; cbn; intros H;
      first [discriminate H | split; reflexivity].
Qed.

Lemma transport_failures_witness :
  _request Samples.refused_then_ok Samples.client "GET" "/v1/usage" None []
  = (Raised (UnbrowserError (PStr "TIMEOUT") (PStr "Connection refused")),
     [Samples.usage_event])
  /\ is_request_failure
       (UnbrowserError (PStr "TIMEOUT") (PStr "Connection refused"))
     = true.
Proof.
  split; [reflexivity|].
  exact (proj1 (transport_failures_never_escape Samples.refused_then_ok
                  Samples.client
                  (UnbrowserError (PStr "TIMEOUT")
                     (PStr "Connection refused"))
                  [Samples.usage_event])
           "GET" "/v1/usage" None eq_refl).
Defined.

(** * The requests of the public methods *)

Section MethodRequests.

Variable srv : server.
Variable c : t.

Lemma request_sends_only (method path : string) (body : option pyval) :
  supported method = true ->
  sends_only c (send_event c method path body)
    (snd (_request srv c method path body [])).
Proof. intros Hm. now apply request_log_shape. Qed.

Lemma parsed_request_sends_only {A : Type} (parse : pyval -> outcome A)
    (method path : string) (body : option pyval) :
  supported method = true ->
  sends_only c (send_event c method path body)
    (snd ((x <- _request srv c method path body ;; lift (parse x)) [])).
Proof.
  intros Hm. pose proof (request_sends_only method path body Hm) as H.
  unfold bind, lift.
  destruct (_request srv c method path body []) as [[v|e] log]; exact H.
Qed.

End MethodRequests.

(** X24.  Each method talks to one endpoint only: all the calls in its log
    are one and the same request, so that a retry resends the verb, the
    URL, the body and the timeout of the first call.  The body holds the
    arguments that were given and no others: [options] and [session] when
    passed, even if they are empty; [tags], [importance] and [variables]
    only when they are not empty; [stop_recording] always sends [save];
    the GET methods and [delete_workflow] send no body. *)
Theorem methods_send_one_request (srv : server) (c : t) :
  (forall url o s,
     sends_only c
       (EvSend "POST" (base_url c ++ "/v1/browse")%string
          (Some
             (PDict
                (("url", PStr url)
                 :: given_member "options"
                      (option_map
                         (fun x => PDict (BrowseOptions.to_dict x)) o)
                 ++ given_member "session"
                      (option_map
                         (fun x => PDict (SessionData.to_dict x)) s))))
          (timeout c))
       (snd (Operations.browse srv c url o s [])))
  /\ (forall url o s,
        sends_only c
          (EvSend "POST" (base_url c ++ "/v1/fetch")%string
             (Some
                (PDict
                   (("url", PStr url)
                    :: given_member "options"
                         (option_map
                            (fun x => PDict (BrowseOptions.to_dict x)) o)
                    ++ given_member "session"
                         (option_map
                            (fun x => PDict (SessionData.to_dict x)) s))))
             (timeout c))
          (snd (Operations.fetch srv c url o s [])))
  /\ (forall urls o s,
        sends_only c
          (EvSend "POST" (base_url c ++ "/v1/batch")%string
             (Some
                (PDict
                   (("urls", PList (map PStr urls))
                    :: given_member "options"
                         (option_map
                            (fun x => PDict (BrowseOptions.to_dict x)) o)
                    ++ given_member "session"
                         (option_map
                            (fun x => PDict (SessionData.to_dict x)) s))))
             (timeout c))
          (snd (Operations.batch srv c urls o s [])))
  /\ (forall domain,
        sends_only c
          (EvSend "GET"
             (base_url c ++ "/v1/domains/" ++ domain ++ "/intelligence")%string
             None (timeout c))
          (snd (Operations.get_domain_intelligence srv c domain [])))
  /\ sends_only c
       (EvSend "GET" (base_url c ++ "/v1/usage")%string None (timeout c))
       (snd (get_usage srv c []))
  /\ (forall name description domain tags,
        sends_only c
          (EvSend "POST" (base_url c ++ "/v1/workflows/record/start")%string
             (Some
                (PDict
                   ([("name", PStr name); ("description", PStr description);
                     ("domain", PStr domain)]
                    ++ given_member "tags"
                         match tags with
                         | Some (tag :: more) =>
                             Some (PList (map PStr (tag :: more)))
                         | _ => None
                         end)))
             (timeout c))
          (snd (Operations.start_recording srv c name description domain
                  tags [])))
  /\ (forall id save,
        sends_only c
          (EvSend "POST"
             (base_url c ++ "/v1/workflows/record/" ++ id ++ "/stop")%string
             (Some (PDict [("save", PBool save)])) (timeout c))
          (snd (Operations.stop_recording srv c id save [])))
  /\ (forall id step annotation importance,
        sends_only c
          (EvSend "POST"
             (base_url c ++ "/v1/workflows/record/" ++ id ++ "/annotate")%string
             (Some
                (PDict
                   ([("stepNumber", PInt step);
                     ("annotation", PStr annotation)]
                    ++ given_member "importance"
                         match importance with
                         | Some i =>
                             if String.eqb i "" then None else Some (PStr i)
                         | None => None
                         end)))
             (timeout c))
          (snd (Operations.annotate_recording srv c id step annotation
                  importance [])))
  /\ (forall id vars,
        sends_only c
          (EvSend "POST"
             (base_url c ++ "/v1/workflows/" ++ id ++ "/replay")%string
             (Some
                (PDict
                   (given_member "variables"
                      match vars with
                      | Some (entry :: more) => Some (PDict (entry :: more))
                      | _ => None
                      end)))
             (timeout c))
          (snd (Operations.replay_workflow srv c id vars [])))
  /\ (forall id,
        sends_only c
          (EvSend "GET" (base_url c ++ "/v1/workflows/" ++ id)%string None
             (timeout c))
          (snd (Operations.get_workflow srv c id [])))
  /\ (forall id,
        sends_only c
          (EvSend "DELETE" (base_url c ++ "/v1/workflows/" ++ id)%string None
             (timeout c))
          (snd (Operations.delete_workflow srv c id []))).
Proof.
  repeat match goal with |- _ /\ _ => split end.
  - intros url o s. destruct o, s;
      apply (parsed_request_sends_only srv c BrowseResult.from_dict "POST");
      reflexivity.
  - intros url o s. destruct o, s;
      apply (parsed_request_sends_only srv c BrowseResult.from_dict "POST");
      reflexivity.
  - intros urls o s. destruct o, s;
      apply (parsed_request_sends_only srv c BatchResult.from_dict "POST");
      reflexivity.
  - intros domain.
    apply (parsed_request_sends_only srv c DomainIntelligence.from_dict
             "GET"); reflexivity.
  - apply (request_sends_only srv c "GET"). reflexivity.
  - intros name description domain [[|tag more]|];
      apply (request_sends_only srv c "POST"); reflexivity.
  - intros id save. apply (request_sends_only srv c "POST"). reflexivity.
  - intros id step annotation [i|];
      [|apply (request_sends_only srv c "POST"); reflexivity].
    unfold Operations.annotate_recording. cbn [truthy].
    destruct (String.eqb i ""); cbn [negb];
      apply (request_sends_only srv c "POST"); reflexivity.
  - intros id [[|entry more]|];
      apply (parsed_request_sends_only srv c ReplayResult.from_dict "POST");
      reflexivity.
  - intros id.
    apply (parsed_request_sends_only srv c WorkflowDetails.from_dict "GET");
    reflexivity.
  - intros id. apply (request_sends_only srv c "DELETE"). reflexivity.
Qed.

Lemma methods_send_witness :
  sends_only Samples.client
    (EvSend "POST" "https://api.unbrowser.ai/v1/workflows/record/start"
       (Some
          (PDict [("name", PStr "prices");
                  ("description", PStr "Track prices");
                  ("domain", PStr "example.com")]))
       60)
    (snd (Operations.start_recording Samples.always_timeout Samples.client
            "prices" "Track prices" "example.com" (Some []) [])).
Proof.
  exact (proj1 (proj2 (proj2 (proj2 (proj2 (proj2
           (methods_send_one_request Samples.always_timeout
              Samples.client))))))
           "prices" "Track prices" "example.com" (Some [])).
Defined.

(** * Payloads that are not well formed *)

Lemma obind_returned {A B : Type} (x : outcome A) (f : A -> outcome B)
    (b : B) :
  obind x f = Returned b -> exists a, x = Returned a /\ f a = Returned b.
Proof.
  destruct x as [a|e]; [|discriminate]. intros H. now exists a.
Qed.

Lemma member_getitem (data : pyval) (k : string) (v : pyval) :
  py_getitem data k = Returned v -> member data k = v.
Proof.
  intros H. apply py_getitem_returned in H. destruct H as (d & -> & Hl).
  cbn. unfold lookup_default. now rewrite Hl.
Qed.

Lemma member_get (data : pyval) (k : string) (v : pyval) :
  py_get data k PNone = Returned v -> member data k = v.
Proof.
  destruct data; try discriminate.
  rewrite py_get_lookup_default. cbn [member].
  intros H. now injection H.
Qed.

Lemma holds_of_subscripts (data : pyval) (k0 : string) (keys : list string) :
  (forall k, In k (k0 :: keys) -> exists v, py_getitem data k = Returned v) ->
  holds data (k0 :: keys).
Proof.
  intros H. destruct (H k0 (or_introl eq_refl)) as (v0 & H0).
  apply py_getitem_returned in H0. destruct H0 as (d & -> & _).
  exists d. split; [reflexivity|]. intros k Hin.
  destruct (H k Hin) as (v & Hv). apply py_getitem_returned in Hv.
  destruct Hv as (d' & Hd & Hl). injection Hd as <-. congruence.
Qed.

Lemma each_item_parsed {A : Type} (f : pyval -> outcome A)
    (P : pyval -> Prop) (v : pyval) (items : list pyval) (ys : list A) :
  py_iter v = Returned items ->
  map_outcome f items = Returned ys ->
  (forall x y, f x = Returned y -> P x) ->
  each_item v P.
Proof.
  intros Hi Hm Hf items' Hi'. rewrite Hi in Hi'. injection Hi' as <-.
  apply map_outcome_Forall2 in Hm. clear Hi.
  induction Hm as [|x y xs ys' Hxy _ IH]; constructor.
  - now apply (Hf x y).
  - exact IH.
Qed.

(** Takes a chain of steps that returned apart, step by step. *)
Ltac returned_steps H :=
  repeat (apply obind_returned in H;
          let a := fresh "a" in
          let Ha := fresh "Ha" in
          destruct H as (a & Ha & H); cbv beta in H).

(** Two reads of the same member read the same value. *)
Ltac same_reads :=
  repeat match goal with
         | H1 : ?x = Returned ?a, H2 : ?x = Returned ?b |- _ =>
             first [ constr_eq a b; clear H2
                   | rewrite H1 in H2; injection H2 as <- ]
         end.

Ltac read_keys :=
  apply holds_of_subscripts;
  let k := fresh "k" in
  let Hin := fresh "Hin" in
  intros k Hin; cbn in Hin;
  repeat (destruct Hin as [<-|Hin]; [eexists; eassumption|]);
  contradiction.

Ltac members :=
  repeat match goal with
         | H : py_getitem ?d ?k = Returned ?v |- context [member ?d ?k] =>
             rewrite (member_getitem d k v H)
         | H : py_get ?d ?k PNone = Returned ?v |- context [member ?d ?k] =>
             rewrite (member_get d k v H)
         end.

Lemma step_returned (data : pyval) (r : ExecutionStep.t) :
  ExecutionStep.from_dict data = Returned r -> well_formed_step data.
Proof.
  unfold ExecutionStep.from_dict, CostTier_call, ConfidenceRating_call.
  intros H. returned_steps H. 
  repeat match goal with
         | H : enum_call _ _ _ _ = Returned _ |- _ =>
             apply enum_call_returned in H; destruct H as [_ H]
         end.
  split; [read_keys|]. unfold one_of. members. split; assumption.
Qed.

Ltac returned_all :=
  repeat match goal with
         | H : obind _ _ = Returned _ |- _ =>
             apply obind_returned in H;
             let a := fresh "a" in
             let Ha := fresh "Ha" in
             destruct H as (a & Ha & H); cbv beta in H
         end.

Ltac enums_returned :=
  repeat match goal with
         | H : enum_call _ _ _ _ = Returned _ |- _ =>
             apply enum_call_returned in H; destruct H as [_ H]
         end.

(** [d.get(k)] and [d[k]] read the same value. *)
Ltac get_is_subscript :=
  repeat match goal with
         | Hg : py_get ?d ?k PNone = Returned ?p,
           Hi : py_getitem ?d ?k = Returned ?q |- _ =>
             assert_fails (constr_eq p q);
             let E := fresh "E" in
             assert (E : p = q)
               by (rewrite <- (member_get d k p Hg);
                   exact (member_getitem d k q Hi));
             subst p
         end.

(** The branch taken when the member is true. *)
Ltac true_member :=
  unfold when_true; members;
  let Ht := fresh "Ht" in
  intros Ht;
  match goal with
  | H : (if truthy ?p then _ else _) = Returned _, Ht' : truthy ?p = true
    |- _ => rewrite Ht' in H
  end;
  returned_all; same_reads; get_is_subscript.

Lemma time_returned (data : pyval) (r : TimeEstimate.t) :
  TimeEstimate.from_dict data = Returned r -> well_formed_time data.
Proof.
  unfold TimeEstimate.from_dict. intros H. returned_all. read_keys.
Qed.

Lemma factors_returned (data : pyval) (r : ConfidenceFactors.t) :
  ConfidenceFactors.from_dict data = Returned r -> well_formed_factors data.
Proof.
  unfold ConfidenceFactors.from_dict, DomainFamiliarity_call.
  intros H. returned_all. enums_returned.
  split; [read_keys|]. unfold one_of. members. assumption.
Qed.

Lemma confidence_returned (data : pyval) (r : ConfidenceLevel.t) :
  ConfidenceLevel.from_dict data = Returned r -> well_formed_confidence data.
Proof.
  unfold ConfidenceLevel.from_dict, ConfidenceRating_call.
  intros H. returned_all. enums_returned.
  split; [read_keys|]. unfold one_of. members. split; [assumption|].
  eapply factors_returned; eassumption.
Qed.

Lemma plan_returned (room : nat) :
  forall data r,
    ExecutionPlan.from_dict room data = Returned r ->
    well_formed_plan room data.
Proof.
  induction room as [|room IH]; intros data r H; [discriminate|].
  cbn [ExecutionPlan.from_dict] in H. unfold CostTier_call in H.
  returned_all. enums_returned. cbn [well_formed_plan].
  split; [read_keys|]. split; [|split].
  - members. eapply each_item_parsed; [eassumption|eassumption|].
    apply step_returned.
  - unfold one_of. members. assumption.
  - true_member. eapply IH; eassumption.
Qed.

Lemma preview_returned (room : nat) (data : pyval) (r : BrowsePreview.t) :
  BrowsePreview.from_dict room data = Returned r ->
  well_formed_preview room data.
Proof.
  unfold BrowsePreview.from_dict, BrowseResult.optional_list.
  intros H. returned_all.
  split; [read_keys|]. split; [|split; [|split]].
  - members. eapply plan_returned; eassumption.
  - members. eapply time_returned; eassumption.
  - members. eapply confidence_returned; eassumption.
  - true_member. eapply each_item_parsed; [eassumption|eassumption|].
    apply plan_returned.
Qed.

Lemma browse_returned (data : pyval) (r : BrowseResult.t) :
  BrowseResult.from_dict data = Returned r -> well_formed_browse data.
Proof.
  unfold BrowseResult.from_dict, BrowseResult.optional_list. cbv zeta.
  intros H. returned_all. same_reads.
  split; [read_keys|].
  split; [members; read_keys|].
  split; [members; read_keys|].
  split; [|split; [|split]].
  - true_member. eapply each_item_parsed; [eassumption|eassumption|].
    intros x y Hx. unfold BrowseResult.table_of in Hx. returned_all.
    read_keys.
  - true_member. eapply each_item_parsed; [eassumption|eassumption|].
    intros x y Hx. unfold BrowseResult.api_of in Hx. returned_all.
    read_keys.
  - true_member. eapply each_item_parsed; [eassumption|eassumption|].
    intros x y Hx. unfold BrowseResult.cookie_of in Hx. returned_all.
    read_keys.
  - true_member. read_keys.
Qed.

Lemma batch_returned (data : pyval) (r : BatchResult.t) :
  BatchResult.from_dict data = Returned r -> well_formed_batch data.
Proof.
  unfold BatchResult.from_dict. intros H. returned_all.
  split; [read_keys|].
  members. eapply each_item_parsed; [eassumption|eassumption|].
  intros x y Hx. unfold BatchResult.item_of in Hx. returned_all.
  split; [read_keys|].
  true_member. eapply browse_returned; eassumption.
Qed.

Lemma workflow_step_returned (data : pyval) (r : WorkflowStep.t) :
  WorkflowStep.from_dict data = Returned r -> well_formed_workflow_step data.
Proof.
  unfold WorkflowStep.from_dict, Importance_call, CostTier_call.
  intros H. returned_all. enums_returned.
  split; [read_keys|]. split.
  - unfold one_of. members. assumption.
  - true_member. enums_returned. assumption.
Qed.

Lemma workflow_returned (data : pyval) (r : WorkflowDetails.t) :
  WorkflowDetails.from_dict data = Returned r -> well_formed_workflow data.
Proof.
  unfold WorkflowDetails.from_dict. intros H. returned_all.
  split; [read_keys|].
  members. eapply each_item_parsed; [eassumption|eassumption|].
  apply workflow_step_returned.
Qed.

Lemma replay_returned (data : pyval) (r : ReplayResult.t) :
  ReplayResult.from_dict data = Returned r -> well_formed_replay data.
Proof.
  unfold ReplayResult.from_dict. intros H. returned_all.
  split; [read_keys|].
  members. eapply each_item_parsed; [eassumption|eassumption|].
  intros x y Hx. unfold ReplayResult.step_of, CostTier_call in Hx.
  returned_all. split; [read_keys|].
  true_member. enums_returned. assumption.
Qed.

Lemma intelligence_returned (data : pyval) (r : DomainIntelligence.t) :
  DomainIntelligence.from_dict data = Returned r ->
  holds data DomainIntelligence.required.
Proof.
  unfold DomainIntelligence.from_dict. intros H. returned_all. read_keys.
Qed.

Lemma workflow_info_returned (data : pyval) (r : WorkflowInfo.t) :
  WorkflowInfo.from_dict data = Returned r ->
  holds data WorkflowInfo.required.
Proof.
  unfold WorkflowInfo.from_dict. intros H. returned_all. read_keys.
Qed.

(** A computation that returns only under a condition fails without it. *)
Lemma fails_unless {A : Type} (x : outcome A) (P : Prop) :
  (forall a, x = Returned a -> P) -> ~ P -> exists e, x = Raised e.
Proof.
  intros Hret Hnot. destruct x as [a|e].
  - destruct (Hnot (Hret a eq_refl)).
  - now exists e.
Qed.

(** C9, as the code has it.  Cost tier and confidence rating of an
    execution step, cost tier of an execution plan, importance of a
    workflow step, cost tier of a workflow step or of a replayed step when
    the value is true, domain familiarity and overall confidence rating
    are checked against their closed sets: a value outside makes
    [from_dict] fail.  A payload that lacks a key read by subscript makes
    [from_dict] fail, so that no object is built, and so does one that
    lacks such a key in an object or in a list item the parser goes
    through: every parser fails on a payload that is not well formed.  On
    the flat classes the failure of a dict payload is always a [KeyError]
    or the [ValueError] of an enumeration.  A content type is checked
    nowhere: that of a discovered API is stored as it comes, and so is the
    tier of the metadata; a workflow step tier that is false is stored as
    [None]. *)
Theorem enum_fields_checked_where_parsed :
  (forall data v,
     py_getitem data "tier" = Returned v ->
     py_in_strs v CostTier.values = false ->
     exists e, ExecutionStep.from_dict data = Raised e)
  /\ (forall data v,
        py_getitem data "confidence" = Returned v ->
        py_in_strs v ConfidenceRating.values = false ->
        exists e, ExecutionStep.from_dict data = Raised e)
  /\ (forall data v,
        py_getitem data "importance" = Returned v ->
        py_in_strs v Importance.values = false ->
        exists e, WorkflowStep.from_dict data = Raised e)
  /\ (forall data v,
        py_getitem data "tier" = Returned v ->
        truthy v = true ->
        py_in_strs v CostTier.values = false ->
        exists e, WorkflowStep.from_dict data = Raised e)
  /\ (forall data v,
        py_getitem data "domainFamiliarity" = Returned v ->
        py_in_strs v DomainFamiliarity.values = false ->
        exists e, ConfidenceFactors.from_dict data = Raised e)
  /\ (forall data v,
        py_getitem data "overall" = Returned v ->
        py_in_strs v ConfidenceRating.values = false ->
        exists e, ConfidenceLevel.from_dict data = Raised e)
  /\ (forall d k,
        dict_lookup d k = None ->
        (In k ExecutionStep.required ->
         exists e, ExecutionStep.from_dict (PDict d) = Raised e)
        /\ (In k WorkflowStep.required ->
            exists e, WorkflowStep.from_dict (PDict d) = Raised e)
        /\ (In k ConfidenceFactors.required ->
            exists e, ConfidenceFactors.from_dict (PDict d) = Raised e)
        /\ (In k ConfidenceLevel.required ->
            exists e, ConfidenceLevel.from_dict (PDict d) = Raised e)
        /\ (In k BrowseResult.required ->
            exists e, BrowseResult.from_dict (PDict d) = Raised e))
  /\ (forall d e,
        (ExecutionStep.from_dict (PDict d) = Raised e ->
         is_KeyError e || is_enum_ValueError e = true)
        /\ (WorkflowStep.from_dict (PDict d) = Raised e ->
            is_KeyError e || is_enum_ValueError e = true)
        /\ (ConfidenceFactors.from_dict (PDict d) = Raised e ->
            is_KeyError e || is_enum_ValueError e = true))
  /\ (forall content_type tier,
        exists result api,
          BrowseResult.from_dict (Samples.browse_payload content_type tier)
          = Returned result
          /\ BrowseResult.discovered_apis result = Some [api]
          /\ DiscoveredApi.content_type api = content_type
          /\ BrowseMetadata.tier (BrowseResult.metadata result) = tier)
  /\ (forall tier,
        truthy tier = false ->
        exists step,
          WorkflowStep.from_dict (Samples.workflow_step_payload tier)
          = Returned step
          /\ WorkflowStep.tier step = None)
  /\ (forall room data v,
        py_getitem data "tier" = Returned v ->
        py_in_strs v CostTier.values = false ->
        exists e, ExecutionPlan.from_dict room data = Raised e)
  /\ (forall data raw items r v,
        py_getitem data "results" = Returned raw ->
        py_iter raw = Returned items ->
        In r items ->
        py_getitem r "tier" = Returned v ->
        truthy v = true ->
        py_in_strs v CostTier.values = false ->
        exists e, ReplayResult.from_dict data = Raised e)
  /\ (forall data,
        (~ well_formed_browse data ->
         exists e, BrowseResult.from_dict data = Raised e)
        /\ (~ well_formed_batch data ->
            exists e, BatchResult.from_dict data = Raised e)
        /\ (~ holds data DomainIntelligence.required ->
            exists e, DomainIntelligence.from_dict data = Raised e)
        /\ (~ well_formed_step data ->
            exists e, ExecutionStep.from_dict data = Raised e)
        /\ (forall room,
              ~ well_formed_plan room data ->
              exists e, ExecutionPlan.from_dict room data = Raised e)
        /\ (~ well_formed_time data ->
            exists e, TimeEstimate.from_dict data = Raised e)
        /\ (~ well_formed_factors data ->
            exists e, ConfidenceFactors.from_dict data = Raised e)
        /\ (~ well_formed_confidence data ->
            exists e, ConfidenceLevel.from_dict data = Raised e)
        /\ (forall room,
              ~ well_formed_preview room data ->
              exists e, BrowsePreview.from_dict room data = Raised e)
        /\ (~ holds data WorkflowInfo.required ->
            exists e, WorkflowInfo.from_dict data = Raised e)
        /\ (~ well_formed_workflow_step data ->
            exists e, WorkflowStep.from_dict data = Raised e)
        /\ (~ well_formed_workflow data ->
            exists e, WorkflowDetails.from_dict data = Raised e)
        /\ (~ well_formed_replay data ->
            exists e, ReplayResult.from_dict data = Raised e)).
Proof.
  split; [exact execution_step_tier_checked|].
  split; [exact execution_step_confidence_checked|].
  split; [exact workflow_step_importance_checked|].
  split; [exact workflow_step_true_tier_checked|].
  split; [exact confidence_factors_familiarity_checked|].
  split; [exact confidence_level_overall_checked|].
  split.
  { intros d k Hk. repeat split; intros Hin.
    - now apply (execution_step_missing d k).
    - now apply (workflow_step_missing d k).
    - now apply (confidence_factors_missing d k).
    - now apply (confidence_level_missing d k).
    - now apply (browse_result_missing d k). }
  split.
  { intros d e. repeat split.
    - apply execution_step_failure_kind.
    - apply workflow_step_failure_kind.
    - apply confidence_factors_failure_kind. }
  split; [exact browse_result_keeps_content_type_and_tier|].
  split; [exact workflow_step_false_tier_dropped|].
  split.
  { intros room data v Hv Hout.
    apply (fails_unless (ExecutionPlan.from_dict room data)
             (well_formed_plan room data) (plan_returned room data)).
    destruct room as [|room]; [intros []|].
    intros (_ & _ & Ht & _). unfold one_of in Ht.
    rewrite (member_getitem data "tier" v Hv) in Ht. congruence. }
  split.
  { intros data raw items r v Hraw Hi Hin Hv Ht Hout.
    apply (fails_unless (ReplayResult.from_dict data)
             (well_formed_replay data) (replay_returned data)).
    intros (_ & Hitems).
    rewrite (member_getitem data "results" raw Hraw) in Hitems.
    specialize (Hitems items Hi). rewrite Forall_forall in Hitems.
    destruct (Hitems r Hin) as (_ & Htier). unfold when_true, one_of in Htier.
    rewrite (member_getitem r "tier" v Hv) in Htier.
    specialize (Htier Ht). congruence. }
  intros data.
  repeat match goal with |- _ /\ _ => split end.
  - apply fails_unless, browse_returned.
  - apply fails_unless, batch_returned.
  - apply fails_unless, intelligence_returned.
  - apply fails_unless, step_returned.
  - intros room. apply fails_unless, plan_returned.
  - apply fails_unless, time_returned.
  - apply fails_unless, factors_returned.
  - apply fails_unless, confidence_returned.
  - intros room. apply fails_unless, preview_returned.
  - apply fails_unless, workflow_info_returned.
  - apply fails_unless, workflow_step_returned.
  - apply fails_unless, workflow_returned.
  - apply fails_unless, replay_returned.
Qed.

Lemma enum_fields_checked_witness :
  exists e,
    ExecutionStep.from_dict
      (Samples.execution_step_payload (PStr "turbo") (PStr "high"))
    = Raised e.
Proof.
  exact (proj1 enum_fields_checked_where_parsed
           (Samples.execution_step_payload (PStr "turbo") (PStr "high"))
           (PStr "turbo") eq_refl eq_refl).
Defined.

(** C9, as stated, fails: a payload whose discovered API has a content
    type outside the closed set of [ContentType], and whose metadata tier
    is outside that of [CostTier], is parsed without failure and both
    values are kept. *)
Lemma unknown_content_type_accepted :
  py_in_strs (PStr "application/x-unknown") ContentType.values = false
  /\ py_in_strs (PStr "warp") CostTier.values = false
  /\ BrowseResult.from_dict
       (Samples.browse_payload (PStr "application/x-unknown") (PStr "warp"))
     = Returned
         {| BrowseResult.url := PStr "https://example.com";
            BrowseResult.final_url := PStr "https://example.com/";
            BrowseResult.title := PStr "Example Domain";
            BrowseResult.content :=
              {| ContentResult.markdown := PStr "content";
                 ContentResult.text := PStr "content";
                 ContentResult.html := PNone |};
            BrowseResult.metadata :=
              {| BrowseMetadata.load_time := PInt 150;
                 BrowseMetadata.tier := PStr "warp";
                 BrowseMetadata.tiers_attempted := PList [PStr "warp"] |};
            BrowseResult.tables := None;
            BrowseResult.discovered_apis :=
              Some [{| DiscoveredApi.url :=
                         PStr "https://example.com/api/items";
                       DiscoveredApi.method := PStr "GET";
                       DiscoveredApi.content_type :=
                         PStr "application/x-unknown" |}];
            BrowseResult.new_cookies := None;
            BrowseResult.verification := None |}.
Proof. repeat split. Qed.

